(** * AI grading assistant: the logic of the extension, embedded and verified

    A shallow embedding of the logic of the browser extension:

    - [Js]: the JavaScript values the code computes with (numbers as IEEE
      binary64 floats, truthiness);
    - [Types]: the records of [types.ts];
    - [History]: [recordHistory] and the capped history list;
    - [AnalysisView]: [calculateStats] of the analysis panel;
    - [Json], [GeminiService]: the configuration record persisted through
      [JSON.stringify] and [JSON.parse], and the request that
      [assessStudentAnswer] sends;
    - [Content]: [tryFillScore] of the content script;
    - [GradingView]: the scan / grade / submit loop of the grading panel,
      with its timers, its calls in flight and the closures they keep;
    - [Scenario]: the inputs and the predicates the properties are stated
      with.

    Numbers are Rocq's primitive floats, which are the binary64 numbers of
    JavaScript with the same rounding.  The strings that go through
    [JSON.stringify] are sequences of UTF-16 code units; the other text
    (names, messages, selectors) is kept as the UTF-8 bytes of the source
    literal. *)

From Stdlib Require Import Floats.
From stdpp Require Import base list strings pretty gmap.

Set Warnings "-inexact-float".
Set Default Proof Using "Type".

(* ===================================================================== *)
(** * JavaScript values *)
(* ===================================================================== *)

Module Js.

(** [ToBoolean] on a number: [0], [-0] and [NaN] are falsy. *)
Definition falsy_number (x : float) : bool :=
  (PrimFloat.eqb x 0 || PrimFloat.is_nan x)%bool.

(** [x || d] on numbers. *)
Definition or_number (x d : float) : float :=
  if falsy_number x then d else x.

(** [ToBoolean] on a string: only the empty string is falsy. *)
Definition truthy_string (s : string) : bool :=
  match s with EmptyString => false | String _ _ => true end.

(** [s || d] on strings. *)
Definition or_string (s d : string) : string :=
  if truthy_string s then s else d.

(** [a >= b] on numbers (false as soon as one side is [NaN]). *)
Definition geb (a b : float) : bool := PrimFloat.leb b a.

(** An array length (or any count below 2^53) as a number. *)
Definition of_nat (n : nat) : float :=
  PrimFloat.of_uint63 (Uint63.of_Z (Z.of_nat n)).

(** A number field of a value that [JSON.parse] returned: a number, or
    [null] ([None]). *)
Definition json := option float.

(** What [JSON.parse] reads back where [JSON.stringify] wrote the number
    [x]: [NaN], [Infinity] and [-Infinity] are written as [null], [-0] as
    [0], and every other number by digits that read back as the same
    number. *)
Definition json_number (x : float) : json :=
  if (PrimFloat.is_nan x || PrimFloat.is_infinity x)%bool then None
  else if PrimFloat.eqb x 0 then Some 0%float
  else Some x.

(** The same for a field that may already hold [null], which is written
    as [null]. *)
Definition json_value (x : json) : json :=
  match x with Some x => json_number x | None => None end.

(** [ToNumber]: [null] counts as [0] in [+], [/] and [>=]. *)
Definition to_number (x : json) : float :=
  match x with Some x => x | None => 0%float end.

(** [x || d] where [x] may be [null], which is falsy. *)
Definition or_json (x : json) (d : float) : float :=
  match x with Some x => or_number x d | None => d end.

End Js.

(* ===================================================================== *)
(** * The records of types.ts *)
(* ===================================================================== *)

Module Types.

(** An element of [StudentResult.breakdown]:
    [{ label; score; max; comment?; isNegative?; relevantArea? }].  The
    record is given for any type [num] of its number fields: [float] for
    a value of the interface, [Js.json] for what [JSON.parse] made of a
    stored text. *)
Record BreakdownItemOf (num : Type) := mkBreakdownItem {
  label : string;
  item_score : num;
  item_max : num;
  item_comment : option string;
  isNegative : option bool;
  relevantArea : option (list num)
}.

Arguments mkBreakdownItem {num}.
Arguments label {num}.
Arguments item_score {num}.
Arguments item_max {num}.
Arguments item_comment {num}.
Arguments isNegative {num}.
Arguments relevantArea {num}.

(** [interface StudentResult]: [id], [name], [className?], [studentNo?],
    [score], [maxScore], [comment], [breakdown] ([ident] is the [id]
    field). *)
Record StudentResultOf (num : Type) := mkStudentResult {
  ident : string;
  name : string;
  className : option string;
  studentNo : option string;
  score : num;
  maxScore : num;
  comment : string;
  breakdown : list (BreakdownItemOf num)
}.

Arguments mkStudentResult {num}.
Arguments ident {num}.
Arguments name {num}.
Arguments className {num}.
Arguments studentNo {num}.
Arguments score {num}.
Arguments maxScore {num}.
Arguments comment {num}.
Arguments breakdown {num}.

(** The values of the two interfaces. *)
Abbreviation BreakdownItem := (BreakdownItemOf float).
Abbreviation StudentResult := (StudentResultOf float).

(** An element of the array that [JSON.parse] makes of the stored
    history. *)
Abbreviation StoredItem := (BreakdownItemOf Js.json).
Abbreviation StoredResult := (StudentResultOf Js.json).

(** The same record with [f] applied to every number field. *)
Definition map_item {A B} (f : A -> B) (b : BreakdownItemOf A)
    : BreakdownItemOf B :=
  {| label := label b;
     item_score := f (item_score b);
     item_max := f (item_max b);
     item_comment := item_comment b;
     isNegative := isNegative b;
     relevantArea := option_map (map f) (relevantArea b) |}.

Definition map_result {A B} (f : A -> B) (r : StudentResultOf A)
    : StudentResultOf B :=
  {| ident := ident r;
     name := name r;
     className := className r;
     studentNo := studentNo r;
     score := f (score r);
     maxScore := f (maxScore r);
     comment := comment r;
     breakdown := map (map_item f) (breakdown r) |}.

(** [interface PageContext]: [platform], [studentName],
    [answerImageBase64], [timestamp?].  The mock page data of the
    development mode has no timestamp. *)
Record PageContext := mkPageContext {
  platform : string;
  studentName : string;
  answerImageBase64 : string;
  timestamp : option nat
}.

(** [enum GradingMode { Trial = 'trial', Batch = 'batch' }]. *)
Inductive GradingMode := Trial | Batch.

(** [GradingStrategy] of geminiService.ts. *)
Inductive GradingStrategy := flash | pro | reasoning.

(** What the 'grading_history' entry of localStorage holds, by what
    [JSON.parse] makes of the text: a text that does not parse, a value
    that is not an array, or the array of results.  Where the entry is
    read, [None] stands for no entry and for the empty text, which both
    readers take alike ([raw ? ... : []] and [if (!saved)]). *)
Inductive Blob :=
| Unparsable
| NotAnArray
| HistoryArray (list_ : list StoredResult).

End Types.
Import Types.

#[global] Instance GradingMode_eq_dec : EqDecision GradingMode.
Proof. solve_decision. Defined.
#[global] Instance GradingStrategy_eq_dec : EqDecision GradingStrategy.
Proof. solve_decision. Defined.

(* ===================================================================== *)
(** * The history list: recordHistory (GradingView.tsx) *)
(* ===================================================================== *)

Module History.

(** [list.pop()]: drops the last element. *)
Definition pop {A} (l : list A) : list A := removelast l.

(** The array operations of [recordHistory]:
    [list.unshift(historyItem); if (list.length > 500) list.pop();]. *)
Definition push_capped {A} (historyItem : A) (l : list A) : list A :=
  let l := historyItem :: l in
  if 500 <? length l then pop l else l.

(** [historyItem] as an element of the parsed array it is put into. *)
Definition element (historyItem : StudentResult) : StoredResult :=
  map_result Some historyItem.

(** What [JSON.parse] reads back where [JSON.stringify] wrote an element
    of the array. *)
Definition written (e : StoredResult) : StoredResult :=
  map_result Js.json_value e.

(** [{ ...result, score, name: studentName, id: Date.now().toString() }] *)
Definition historyItem (result : StudentResult) (score_ : float)
    (studentName_ : string) (now : string) : StudentResult :=
  {| ident := now; name := studentName_;
     className := className result; studentNo := studentNo result;
     score := score_;
     maxScore := maxScore result; comment := comment result;
     breakdown := breakdown result |}.

(** [recordHistory(score, studentName)].  [result] is the component's
    [result] state as the calling closure sees it, [now] is
    [Date.now().toString()], [stored] is what
    [localStorage.getItem('grading_history')] holds ([None]: no entry, or
    the empty text), and [full] tells that [localStorage.setItem] throws
    (the quota is exceeded).  A [JSON.parse] that throws, an [unshift] on a value that
    is not an array and a [setItem] that throws land in the [catch], which
    only logs: the entry stays as it was.  Otherwise the entry holds
    [JSON.stringify(list)]. *)
Definition recordHistory (result : option StudentResult)
    (score_ : float) (studentName_ : string) (now : string)
    (full : bool) (stored : option Blob) : option Blob :=
  match result with
  | None => stored
  | Some result =>
      let historyItem := historyItem result score_ studentName_ now in
      let save list_ :=
        if full then stored
        else Some (HistoryArray
                     (map written (push_capped (element historyItem) list_)))
      in
      match stored with
      | None => save []
      | Some (HistoryArray l) => save l
      | Some Unparsable | Some NotAnArray => stored
      end
  end.

End History.

(* ===================================================================== *)
(** * The analysis panel: calculateStats *)
(* ===================================================================== *)

Module AnalysisView.

Local Open Scope float_scope.

Record Bucket := mkBucket {
  bucket_name : string;
  bucket_value : nat;
  bucket_color : string
}.

Record Stats := mkStats {
  avgScore : float;
  passRate : float;
  difficulty : float;
  count : nat;
  distribution : list Bucket
}.

(** [history.reduce((acc, curr) => acc + curr.score, 0)] *)
Definition totalScore (history : list StoredResult) : float :=
  fold_left (fun acc curr => acc + Js.to_number (score curr)) history 0.

(** [history[0].maxScore || 100], [first] being [history[0]]. *)
Definition refMaxScore (first : StoredResult) : float :=
  Js.or_json (maxScore first) 100.

(** [maxScore * 0.6] *)
Definition passThreshold (first : StoredResult) : float :=
  refMaxScore first * 0.6.

(** [history.filter(s => s.score >= passThreshold).length] *)
Definition passCount (threshold : float) (history : list StoredResult)
    : nat :=
  length (List.filter (fun s => Js.geb (Js.to_number (score s)) threshold)
                      history).

(** The index of the bucket an entry falls into. *)
Definition bucketOf (s : StoredResult) : nat :=
  let ratio := Js.to_number (score s) / Js.to_number (maxScore s) in
  if ratio <? 0.6 then 0%nat
  else if ratio <? 0.75 then 1%nat
  else if ratio <? 0.9 then 2%nat
  else 3%nat.

(** [buckets[i]++] *)
Definition bump (i : nat) (buckets : list nat) : list nat :=
  match buckets !! i with
  | Some n => <[i := S n]> buckets
  | None => buckets
  end.

(** [const buckets = [0,0,0,0]; history.forEach(s => ...)] *)
Definition fillBuckets (history : list StoredResult) : list nat :=
  fold_left (fun buckets s => bump (bucketOf s) buckets) history
            [0; 0; 0; 0]%nat.

Definition bucketAt (buckets : list nat) (i : nat) : nat :=
  default 0%nat (buckets !! i).

(** The statistics of a history that is not empty: [first] is
    [history[0]], [rest] the entries after it. *)
Definition stats_of (first : StoredResult) (rest : list StoredResult)
    : Stats :=
  let history := first :: rest in
  let count := length history in
  let avgScore := totalScore history / Js.of_nat count in
  let maxScore := refMaxScore first in
  let passCount := passCount (passThreshold first) history in
  let passRate := (Js.of_nat passCount / Js.of_nat count) * 100 in
  let difficulty := avgScore / maxScore in
  let buckets := fillBuckets history in
  {| avgScore := avgScore;
     passRate := passRate;
     difficulty := difficulty;
     count := count;
     distribution :=
       [ mkBucket "待加油" (bucketAt buckets 0) "#ef4444";
         mkBucket "及格" (bucketAt buckets 1) "#f97316";
         mkBucket "良好" (bucketAt buckets 2) "#3b82f6";
         mkBucket "优秀" (bucketAt buckets 3) "#22c55e" ] |}.

(** What a run of [calculateStats] does to the panel. *)
Inductive Outcome :=
| NoData                    (* setStats(null); setInsight("暂无数据。") *)
| ParseThrows               (* JSON.parse throws: the promise is rejected *)
| Computed (stats : Stats). (* setStats(...), then the insight request *)

(** [calculateStats()], on what 'grading_history' holds. *)
Definition calculateStats (saved : option Blob) : Outcome :=
  match saved with
  | None => NoData
  | Some Unparsable => ParseThrows
  | Some NotAnArray => NoData
  | Some (HistoryArray []) => NoData
  | Some (HistoryArray (first :: rest)) => Computed (stats_of first rest)
  end.

(** The arguments of [generateGradingInsight(avgScore, passRate)]. *)
Definition insightRequest (o : Outcome) : option (float * float) :=
  match o with
  | Computed st => Some (avgScore st, passRate st)
  | _ => None
  end.

End AnalysisView.

(* ===================================================================== *)
(** * JSON text: JSON.stringify and JSON.parse *)
(* ===================================================================== *)

Module Json.

(** A JavaScript string is its sequence of UTF-16 code units. *)
Definition jsstring := list N.

(** The code units of an ASCII literal of the source. *)
Definition js (s : string) : jsstring :=
  map Ascii.N_of_ascii (String.list_ascii_of_string s).

(** [ToBoolean] on a string. *)
Definition truthy (s : jsstring) : bool :=
  match s with [] => false | _ :: _ => true end.

(** [a || b] on strings. *)
Definition or_else (a b : jsstring) : jsstring :=
  if truthy a then a else b.

(** A JSON value.  A number is kept as the lexeme it is written with, and
    is not normalised: the model is the one of JavaScript for texts
    without numbers, and for numbers written the way [JSON.stringify]
    writes them. *)
#[local] Unset Elimination Schemes.
Inductive json :=
| JNull
| JBool (b : bool)
| JNumber (lexeme : jsstring)
| JString (s : jsstring)
| JArray (elements : list json)
| JObject (members : list (jsstring * json)).
#[local] Set Elimination Schemes.

(** Property read [o.key]: of two members with one key, [JSON.parse]
    keeps the later one. *)
Fixpoint getField (key : jsstring) (members : list (jsstring * json))
    : option json :=
  match members with
  | [] => None
  | (k, v) :: rest =>
      match getField key rest with
      | Some v' => Some v'
      | None => if decide (k = key) then Some v else None
      end
  end.

(** ** QuoteJSONString *)

Local Open Scope N_scope.

Definition hexDigit (d : N) : N := if d <? 10 then 48 + d else 87 + d.

(** [\uXXXX], in lower-case hexadecimal digits. *)
Definition unicodeEscape (c : N) : jsstring :=
  [ 92; 117; hexDigit ((c / 4096) `mod` 16); hexDigit ((c / 256) `mod` 16);
    hexDigit ((c / 16) `mod` 16); hexDigit (c `mod` 16) ].

Definition isLeadingSurrogate (c : N) : bool := (55296 <=? c) && (c <=? 56319).
Definition isTrailingSurrogate (c : N) : bool := (56320 <=? c) && (c <=? 57343).

(** The text for a code point that is one code unit: the two-character
    escapes of the table, a [\u] escape for the other control characters
    and for a surrogate without its partner, the unit itself otherwise. *)
Definition quoteUnit (c : N) : jsstring :=
  if c =? 8 then [92; 98]
  else if c =? 9 then [92; 116]
  else if c =? 10 then [92; 110]
  else if c =? 12 then [92; 102]
  else if c =? 13 then [92; 114]
  else if c =? 34 then [92; 34]
  else if c =? 92 then [92; 92]
  else if (c <? 32) || isLeadingSurrogate c || isTrailingSurrogate c
       then unicodeEscape c
  else [c].

(** The code points of the string, quoted one after the other: a leading
    surrogate followed by a trailing one is one code point and is copied. *)
Fixpoint quoteBody (s : jsstring) : jsstring :=
  match s with
  | [] => []
  | c :: rest =>
      match rest with
      | d :: rest' =>
          if isLeadingSurrogate c && isTrailingSurrogate d
          then c :: d :: quoteBody rest'
          else quoteUnit c ++ quoteBody rest
      | [] => quoteUnit c
      end
  end.

Definition QuoteJSONString (s : jsstring) : jsstring :=
  34 :: quoteBody s ++ [34].

Fixpoint joinComma (parts : list jsstring) : jsstring :=
  match parts with
  | [] => []
  | [p] => p
  | p :: rest => p ++ 44 :: joinComma rest
  end.

(** [JSON.stringify(v)], without indentation. *)
Fixpoint stringify (v : json) : jsstring :=
  match v with
  | JNull => js "null"
  | JBool true => js "true"
  | JBool false => js "false"
  | JNumber lexeme => lexeme
  | JString s => QuoteJSONString s
  | JArray elements => 91 :: joinComma (map stringify elements) ++ [93]
  | JObject members =>
      123 :: joinComma
               (map (fun kv => QuoteJSONString kv.1 ++ 58 :: stringify kv.2)
                    members) ++ [125]
  end.

(** ** JSON.parse *)

Definition isWhitespace (c : N) : bool :=
  (c =? 32) || (c =? 9) || (c =? 10) || (c =? 13).

Fixpoint skipWs (s : jsstring) : jsstring :=
  match s with
  | c :: rest => if isWhitespace c then skipWs rest else s
  | [] => []
  end.

Definition isDigit (c : N) : bool := (48 <=? c) && (c <=? 57).

Definition hexValue (c : N) : option N :=
  if isDigit c then Some (c - 48)
  else if (97 <=? c) && (c <=? 102) then Some (c - 87)
  else if (65 <=? c) && (c <=? 70) then Some (c - 55)
  else None.

Definition hex4 (a b c d : N) : option N :=
  a ← hexValue a; b ← hexValue b; c ← hexValue c; d ← hexValue d;
  Some (((a * 16 + b) * 16 + c) * 16 + d).

(** The character a two-character escape stands for. *)
Definition unescape (e : N) : option N :=
  if e =? 34 then Some 34
  else if e =? 92 then Some 92
  else if e =? 47 then Some 47
  else if e =? 98 then Some 8
  else if e =? 102 then Some 12
  else if e =? 110 then Some 10
  else if e =? 114 then Some 13
  else if e =? 116 then Some 9
  else None.

(** The characters of a string literal after its opening quote, up to the
    closing quote: the decoded string and the text after it. *)
Fixpoint parseChars (s : jsstring) : option (jsstring * jsstring) :=
  match s with
  | [] => None
  | c :: r =>
      if c =? 34 then Some ([], r)
      else if c =? 92 then
        match r with
        | [] => None
        | e :: r1 =>
            if e =? 117 then
              match r1 with
              | h1 :: h2 :: h3 :: h4 :: r2 =>
                  u ← hex4 h1 h2 h3 h4;
                  '(str, rest) ← parseChars r2;
                  Some (u :: str, rest)
              | _ => None
              end
            else
              u ← unescape e;
              '(str, rest) ← parseChars r1;
              Some (u :: str, rest)
        end
      else if c <? 32 then None
      else '(str, rest) ← parseChars r; Some (c :: str, rest)
  end.

Fixpoint takeDigits (s : jsstring) : jsstring * jsstring :=
  match s with
  | c :: r =>
      if isDigit c then let '(ds, rest) := takeDigits r in (c :: ds, rest)
      else ([], s)
  | [] => ([], [])
  end.

(** One or more digits. *)
Definition digits1 (s : jsstring) : option (jsstring * jsstring) :=
  match takeDigits s with
  | ([], _) => None
  | (ds, rest) => Some (ds, rest)
  end.

(** The number lexeme: an optional minus sign, then 0 or a digit from 1
    to 9 followed by digits, then optionally a dot with one or more
    digits, then optionally e or E, a sign and one or more digits. *)
Definition parseNumber (s : jsstring) : option (jsstring * jsstring) :=
  let '(sign, s) :=
    match s with
    | c :: r => if c =? 45 then ([c], r) else ([], s)
    | [] => ([], s)
    end in
  '(int, s) ←
    match s with
    | c :: r =>
        if c =? 48 then Some ([c], r)
        else if isDigit c then
          let '(ds, rest) := takeDigits r in Some (c :: ds, rest)
        else None
    | [] => None
    end;
  '(frac, s) ←
    match s with
    | c :: r =>
        if c =? 46 then '(ds, rest) ← digits1 r; Some (c :: ds, rest)
        else Some ([], s)
    | [] => Some ([], s)
    end;
  '(exp, s) ←
    match s with
    | c :: r =>
        if (c =? 101) || (c =? 69) then
          let '(sg, r) :=
            match r with
            | d :: r' => if (d =? 43) || (d =? 45) then ([d], r') else ([], r)
            | [] => ([], r)
            end in
          '(ds, rest) ← digits1 r; Some (c :: sg ++ ds, rest)
        else Some ([], s)
    | [] => Some ([], s)
    end;
  Some (sign ++ int ++ frac ++ exp, s).

(** [s] without the prefix [p], when it starts with it. *)
Fixpoint stripPrefix (p s : jsstring) : option jsstring :=
  match p, s with
  | [], _ => Some s
  | a :: p', b :: s' => if a =? b then stripPrefix p' s' else None
  | _ :: _, [] => None
  end.

(** The recursive-descent parser; [fuel] bounds the number of nested
    calls, and every call consumes a character before it calls again. *)
Fixpoint parseValue (fuel : nat) (s : jsstring) : option (json * jsstring) :=
  match fuel with
  | O => None
  | S fuel =>
      match skipWs s with
      | [] => None
      | c :: r =>
          if c =? 34 then
            '(str, rest) ← parseChars r; Some (JString str, rest)
          else if c =? 123 then
            match skipWs r with
            | d :: r' =>
                if d =? 125 then Some (JObject [], r')
                else '(ms, rest) ← parseMembers fuel r;
                     Some (JObject ms, rest)
            | [] => None
            end
          else if c =? 91 then
            match skipWs r with
            | d :: r' =>
                if d =? 93 then Some (JArray [], r')
                else '(es, rest) ← parseElements fuel r;
                     Some (JArray es, rest)
            | [] => None
            end
          else if c =? 116 then
            rest ← stripPrefix (js "rue") r; Some (JBool true, rest)
          else if c =? 102 then
            rest ← stripPrefix (js "alse") r; Some (JBool false, rest)
          else if c =? 110 then
            rest ← stripPrefix (js "ull") r; Some (JNull, rest)
          else
            '(lexeme, rest) ← parseNumber (c :: r);
            Some (JNumber lexeme, rest)
      end
  end
with parseMembers (fuel : nat) (s : jsstring)
    : option (list (jsstring * json) * jsstring) :=
  match fuel with
  | O => None
  | S fuel =>
      match skipWs s with
      | c :: r =>
          if c =? 34 then
            '(key, r1) ← parseChars r;
            match skipWs r1 with
            | d :: r2 =>
                if d =? 58 then
                  '(v, r3) ← parseValue fuel r2;
                  match skipWs r3 with
                  | e :: r4 =>
                      if e =? 44 then
                        '(ms, rest) ← parseMembers fuel r4;
                        Some ((key, v) :: ms, rest)
                      else if e =? 125 then Some ([(key, v)], r4)
                      else None
                  | [] => None
                  end
                else None
            | [] => None
            end
          else None
      | [] => None
      end
  end
with parseElements (fuel : nat) (s : jsstring)
    : option (list json * jsstring) :=
  match fuel with
  | O => None
  | S fuel =>
      '(v, r1) ← parseValue fuel s;
      match skipWs r1 with
      | e :: r2 =>
          if e =? 44 then
            '(es, rest) ← parseElements fuel r2; Some (v :: es, rest)
          else if e =? 93 then Some ([v], r2)
          else None
      | [] => None
      end
  end.

(** [JSON.parse(text)]; [None] is the SyntaxError. *)
Definition parse (text : jsstring) : option json :=
  '(v, rest) ← parseValue (S (length text)) text;
  match skipWs rest with
  | [] => Some v
  | _ :: _ => None
  end.

End Json.


(* ===================================================================== *)
(** * geminiService.ts: the configuration record and the grading request *)
(* ===================================================================== *)

Module GeminiService.
Import Json.

(** [interface AppConfig] of types.ts: [provider], [endpoint],
    [modelName], [apiKey].  The provider is kept as the string the code
    compares with ['google']. *)
Record AppConfig := mkAppConfig {
  provider : jsstring;
  endpoint : jsstring;
  modelName : jsstring;
  apiKey : jsstring
}.

Definition DEFAULT_CONFIG : AppConfig :=
  {| provider := js "google";
     endpoint := [];
     modelName := js "gemini-2.5-flash";
     apiKey := [] |}.

Definition STORAGE_KEY_CONFIG : jsstring := js "app_model_config".

(** [localStorage]: string keys to string values. *)
Abbreviation Storage := (gmap jsstring jsstring).

(** The configuration object as a JSON value, its properties in the order
    in which the object is built. *)
Definition toJson (config : AppConfig) : json :=
  JObject [ (js "provider", JString (provider config));
            (js "endpoint", JString (endpoint config));
            (js "modelName", JString (modelName config));
            (js "apiKey", JString (apiKey config)) ].

Definition stringField (key : jsstring) (v : json) : option jsstring :=
  match v with
  | JObject members =>
      match getField key members with
      | Some (JString s) => Some s
      | _ => None
      end
  | _ => None
  end.

(** A JSON value read at the declared type [AppConfig]. *)
Definition fromJson (v : json) : option AppConfig :=
  provider ← stringField (js "provider") v;
  endpoint ← stringField (js "endpoint") v;
  modelName ← stringField (js "modelName") v;
  apiKey ← stringField (js "apiKey") v;
  Some (mkAppConfig provider endpoint modelName apiKey).

(** How a call ends: with a value, or with an exception. *)
Inductive Completion (A : Type) :=
| Returns (value : A)
| Throws (error : string).
Arguments Returns {A} value.
Arguments Throws {A} error.

(** [process.env.API_KEY || ''] *)
Definition envKeyOrEmpty (envKey : option jsstring) : jsstring :=
  match envKey with
  | Some k => or_else k []
  | None => []
  end.

(** [getAppConfig()]: [envKey] is [process.env.API_KEY]. *)
Definition getAppConfig (localStorage : Storage) (envKey : option jsstring)
    : Completion json :=
  let fallback :=
    Returns (toJson {| provider := provider DEFAULT_CONFIG;
                       endpoint := endpoint DEFAULT_CONFIG;
                       modelName := modelName DEFAULT_CONFIG;
                       apiKey := envKeyOrEmpty envKey |}) in
  match localStorage !! STORAGE_KEY_CONFIG with
  | Some saved =>
      if truthy saved then
        match parse saved with
        | Some v => Returns v
        | None => Throws "SyntaxError"
        end
      else fallback
  | None => fallback
  end.

(** [saveAppConfig(config)], when [localStorage.setItem] returns. *)
Definition saveAppConfig (config : AppConfig) (localStorage : Storage)
    : Storage :=
  <[ STORAGE_KEY_CONFIG := stringify (toJson config) ]> localStorage.

(** [getGoogleClient(apiKeyOverride)]: the key the client is built with,
    [None] for the [null] client. *)
Definition getGoogleClient (apiKeyOverride : jsstring)
    (envKey : option jsstring) : option jsstring :=
  let apiKey := if truthy apiKeyOverride then Some apiKeyOverride else envKey in
  match apiKey with
  | Some k => if truthy k then Some k else None
  | None => None
  end.

(** [checkApiKeyConfigured()], on the configuration read. *)
Definition checkApiKeyConfigured (config : AppConfig)
    (envKey : option jsstring) : bool :=
  if decide (provider config = js "google")
  then truthy (apiKey config) || truthy (envKeyOrEmpty envKey)
  else truthy (apiKey config).

(** [getModelName(strategy, config)] *)
Definition getModelName (strategy : GradingStrategy) (config : AppConfig)
    : jsstring :=
  if decide (provider config ≠ js "google") then modelName config
  else match strategy with
       | reasoning | pro => js "gemini-3-pro-preview"
       | flash => js "gemini-2.5-flash"
       end.

(** The request [assessStudentAnswer] sends.  The fixed text of the
    prompts is left out: a request is told by what varies in it. *)
Inductive Request :=
| GenerateContent              (* ai.models.generateContent *)
    (clientKey : jsstring) (model : jsstring)
    (rubricText studentImageBase64 : jsstring)
    (thinkingBudget : option N)
| ChatCompletion               (* callOpenAICompatible *)
    (url : jsstring) (bearer : jsstring) (model : jsstring)
    (rubricText studentImageBase64 : jsstring)
    (jsonMode : bool).

Definition requestModel (r : Request) : jsstring :=
  match r with
  | GenerateContent _ model _ _ _ => model
  | ChatCompletion _ _ model _ _ _ => model
  end.

Definition requestThinkingBudget (r : Request) : option N :=
  match r with
  | GenerateContent _ _ _ _ budget => budget
  | ChatCompletion _ _ _ _ _ _ => None
  end.

(** [geminiConfig.thinkingConfig], set by strategy. *)
Definition thinkingConfig (strategy : GradingStrategy) : option N :=
  if decide (strategy = reasoning) then Some 16384%N
  else if decide (strategy = pro) then Some 2048%N
  else None.

(** [assessStudentAnswer(studentImageBase64, rubricText, strategy)] up to
    the request it sends, or the exception it throws before sending one;
    [config] is what [getAppConfig()] returned. *)
Definition assessStudentAnswer (config : AppConfig) (envKey : option jsstring)
    (studentImageBase64 rubricText : jsstring) (strategy : GradingStrategy)
    : Completion Request :=
  if decide (provider config = js "google") then
    match getGoogleClient (apiKey config) envKey with
    | None => Throws "未找到 API 密钥"
    | Some clientKey =>
        let modelName := getModelName strategy config in
        Returns (GenerateContent clientKey modelName rubricText
                   studentImageBase64 (thinkingConfig strategy))
    end
  else
    Returns (ChatCompletion (endpoint config) (apiKey config)
               (modelName config) rubricText studentImageBase64 true).

End GeminiService.

(* ===================================================================== *)
(** * content.js: filling the score into the page *)
(* ===================================================================== *)

Module Content.

(** The double quote inside a selector. *)
Definition dq : string :=
  String (Ascii.Ascii false true false false false true false false)
         EmptyString.

(** The object literal [SCORE_INPUT_CONFIGS] by its own properties: the
    three keys of the table, and no own property under any other name.
    What [SCORE_INPUT_CONFIGS[platform]] is under a name that the object
    inherits is told by [OBJECT_PROTOTYPE] below. *)
Definition SCORE_INPUT_CONFIGS (platform : string) : option (list string) :=
  if decide (platform = "ZHIXUE") then
    Some [ ".score-input";
           ".score-box input";
           ".postil-score input";
           "input[ng-model=" +:+ dq +:+ "score" +:+ dq +:+ "]";
           ".mark-input" ]
  else if decide (platform = "HAOFENSHU") then
    Some [ "#scoreInput";
           ".js-score-input";
           ".input-score";
           "input[type=" +:+ dq +:+ "number" +:+ dq +:+ "].mark-input" ]
  else if decide (platform = "GENERIC") then
    Some [ "input[type=" +:+ dq +:+ "number" +:+ dq +:+ "]";
           "input.score";
           "input.mark";
           "input[placeholder*=" +:+ dq +:+ "分" +:+ dq +:+ "]";
           "input[placeholder*=" +:+ dq +:+ "score" +:+ dq +:+ "]" ]
  else None.

Fixpoint startsWith (s p : string) : bool :=
  match p, s with
  | EmptyString, _ => true
  | String a p', String b s' =>
      if decide (a = b) then startsWith s' p' else false
  | String _ _, EmptyString => false
  end.

(** [s.includes(sub)] *)
Fixpoint includes (s sub : string) : bool :=
  startsWith s sub ||
  match s with
  | EmptyString => false
  | String _ s' => includes s' sub
  end.

(** [detectPlatform()], on [window.location.hostname]. *)
Definition detectPlatform (host : string) : string :=
  if includes host "zhixue" then "ZHIXUE"
  else if includes host "haofenshu" || includes host "7net" then "HAOFENSHU"
  else "GENERIC".

(** What the function reads of the page.  Elements are named by a node
    number; [querySelector] gives the first element in document order
    that matches a selector. *)
Record Page := mkPage {
  hostname : string;
  querySelector : string -> option nat;
  offsetParentIsNull : nat -> bool;        (* [el.offsetParent === null] *)
  tagName : nat -> string;
  activeElement : option nat
}.

Inductive DomEvent := InputEvent | ChangeEvent | BlurEvent | KeydownEnter.

(** What the function does to the page, in order. *)
Inductive DomEffect :=
| SetValue (el : nat) (score : float)   (* the native value setter *)
| Dispatch (el : nat) (ev : DomEvent).

(** How a call of [tryFillScore] ends: it returns [{ success: true }] or
    [{ success: false, error }], or it throws a [TypeError] before it
    enters its [try]. *)
Inductive FillResult :=
| FillSuccess
| FillFailure (error : string)
| FillTypeError.

(** [for (const sel of selectors) { input = document.querySelector(sel);
    if (input && input.offsetParent !== null) break; }], started with the
    current value of [input]. *)
Fixpoint selectInput (page : Page) (selectors : list string)
    (input : option nat) : option nat :=
  match selectors with
  | [] => input
  | sel :: rest =>
      let input := querySelector page sel in
      match input with
      | Some el =>
          if negb (offsetParentIsNull page el) then input
          else selectInput page rest input
      | None => selectInput page rest input
      end
  end.

(** The property names that the table inherits from [Object.prototype].
    [SCORE_INPUT_CONFIGS[platform]] is a function under each of them (the
    prototype object itself under [__proto__]): a value that is truthy and
    that is not iterable. *)
Definition OBJECT_PROTOTYPE : list string :=
  [ "constructor"; "hasOwnProperty"; "isPrototypeOf";
    "propertyIsEnumerable"; "toLocaleString"; "toString"; "valueOf";
    "__proto__"; "__defineGetter__"; "__defineSetter__";
    "__lookupGetter__"; "__lookupSetter__" ].

(** Whether [...(SCORE_INPUT_CONFIGS[platform] || [])] throws: the spread
    of a value that is not iterable is a [TypeError]. *)
Definition spreadThrows (platform : string) : bool :=
  bool_decide (platform ∈ OBJECT_PROTOTYPE).

(** The selectors tried, platform-specific first, then generic, when the
    spread does not throw. *)
Definition selectorsFor (platform : string) : list string :=
  default [] (SCORE_INPUT_CONFIGS platform) ++
  default [] (SCORE_INPUT_CONFIGS "GENERIC").

(** [tryFillScore(score, platformHint)].  The list of selectors is built
    outside the [try]: a hint that names an inherited property makes the
    call throw.  The native setter of [HTMLInputElement.prototype] throws
    when it is called on an element that is not an INPUT; the [catch]
    turns that into a failure. *)
Definition tryFillScore (page : Page) (score : float)
    (platformHint : option string) : FillResult * list DomEffect :=
  let platform :=
    match platformHint with
    | Some hint => if Js.truthy_string hint then hint
                   else detectPlatform (hostname page)
    | None => detectPlatform (hostname page)
    end in
  if spreadThrows platform then (FillTypeError, []) else
  let selectors := selectorsFor platform in
  let input := selectInput page selectors None in
  let input :=
    match input, activeElement page with
    | None, Some active =>
        if decide (tagName page active = "INPUT") then Some active else None
    | _, _ => input
    end in
  match input with
  | None => (FillFailure "未找到可见的打分输入框", [])
  | Some input =>
      if decide (tagName page input = "INPUT") then
        (FillSuccess,
         [ SetValue input score;
           Dispatch input InputEvent;
           Dispatch input ChangeEvent;
           Dispatch input BlurEvent;
           Dispatch input KeydownEnter ])
      else (FillFailure "操作输入框时发生异常", [])
  end.

End Content.

(* ===================================================================== *)
(** * GradingView.tsx: the scan / grade / submit loop *)
(* ===================================================================== *)

Module GradingView.

Inductive Status := scanning | grading | review | error | sleeping.

#[global] Instance Status_eq_dec : EqDecision Status.
Proof. solve_decision. Defined.

Record Health := mkHealth { api : bool; rubric : bool; pageLink : bool }.

(** The properties the parent passes to the component. *)
Record Props := mkProps {
  isRubricConfigured : bool;
  currentRubric : string;
  gradingStrategy : GradingStrategy
}.

(** What of the [chrome] object is there: [chrome.runtime.sendMessage] and
    [chrome.tabs].  Outside the extension neither is. *)
Record ChromeApi := mkChromeApi { runtimeSendMessage : bool; tabs : bool }.

(** The functions of the component are created anew at every render and
    close over the state and the properties of that render.  A callback
    handed to a timer or to an asynchronous call keeps the render it was
    created in: these are the values it reads of it. *)
Record Render := mkRender {
  r_mode : GradingMode;
  r_pageContext : option PageContext;
  r_result : option StudentResult;
  r_health : Health;
  r_props : Props
}.

(** A function given to [setTimeout]. *)
Inductive Callback :=
| ScanPage (r : Render)            (* setTimeout(scanPage, ms) *)
| MockScan (r : Render)            (* the timer body of the development mock *)
| SubmitScore (r : Render) (score : float) (name : string).
    (* () => handleSubmitScore(res.score, res.name) *)

(** A continuation that waits: a timer, or the callback of a call in
    flight. *)
Inductive Pending :=
| Timer (cb : Callback)
| TabsForScan (r : Render)         (* chrome.tabs.query of scanPage *)
| PageRequest (r : Render)         (* sendMessage REQUEST_PAGE_DATA *)
| TabsForFill (r : Render) (score : float)
                                   (* chrome.tabs.query of handleSubmitScore *)
| FillRequest (r : Render) (score : float)
                                   (* sendMessage FILL_SCORE *)
| Grading (r : Render) (ctx : PageContext).
                                   (* await assessStudentAnswer(...) *)

Inductive Message :=
| REQUEST_PAGE_DATA
| FILL_SCORE (score : float) (platform : string).

(** What the component does to the world outside its state, in order. *)
Inductive Effect :=
| SetTimeout (cb : Callback) (ms : nat)
| TabsQuery
| SendMessage (tab : nat) (msg : Message)
| Assess (answerImageBase64 rubric : string) (strategy : GradingStrategy)
| Alert (text : string)
| AlertScore (text : string) (score : float).

(** The component: its React state, its refs, its properties, and the
    world around it (the [chrome] object, the 'grading_history' entry of
    localStorage and whether its quota is exceeded, so that [setItem]
    throws, the continuations that wait, the effects so far). *)
Record State := mkState {
  mode : GradingMode;
  status : Status;
  pageContext : option PageContext;
  result : option StudentResult;
  errorMsg : option string;
  showEvidence : bool;
  activeBreakdownIndex : option nat;
  health : Health;
  isBatchRunning : bool;
  batchCount : nat;
  scanWaitCount : nat;
  isBatchRunningRef : bool;
  lastGradedNameRef : option string;
  props : Props;
  chrome : ChromeApi;
  grading_history : option Blob;
  storageFull : bool;
  pending : list Pending;
  effects : list Effect
}.

(** The render the component is in. *)
Definition render (s : State) : Render :=
  {| r_mode := mode s;
     r_pageContext := pageContext s;
     r_result := result s;
     r_health := health s;
     r_props := props s |}.

(** The setters of the state: each replaces one field. *)

Definition set_mode (v : GradingMode) (s : State) : State :=
  mkState
    v (status s) (pageContext s) (result s) (errorMsg s) (showEvidence s)
    (activeBreakdownIndex s) (health s) (isBatchRunning s) (batchCount s)
    (scanWaitCount s) (isBatchRunningRef s) (lastGradedNameRef s) (props s)
    (chrome s) (grading_history s) (storageFull s) (pending s) (effects s).

Definition set_status (v : Status) (s : State) : State :=
  mkState
    (mode s) v (pageContext s) (result s) (errorMsg s) (showEvidence s)
    (activeBreakdownIndex s) (health s) (isBatchRunning s) (batchCount s)
    (scanWaitCount s) (isBatchRunningRef s) (lastGradedNameRef s) (props s)
    (chrome s) (grading_history s) (storageFull s) (pending s) (effects s).

Definition set_pageContext (v : option PageContext) (s : State) : State :=
  mkState
    (mode s) (status s) v (result s) (errorMsg s) (showEvidence s)
    (activeBreakdownIndex s) (health s) (isBatchRunning s) (batchCount s)
    (scanWaitCount s) (isBatchRunningRef s) (lastGradedNameRef s) (props s)
    (chrome s) (grading_history s) (storageFull s) (pending s) (effects s).

Definition set_result (v : option StudentResult) (s : State) : State :=
  mkState
    (mode s) (status s) (pageContext s) v (errorMsg s) (showEvidence s)
    (activeBreakdownIndex s) (health s) (isBatchRunning s) (batchCount s)
    (scanWaitCount s) (isBatchRunningRef s) (lastGradedNameRef s) (props s)
    (chrome s) (grading_history s) (storageFull s) (pending s) (effects s).

Definition set_errorMsg (v : option string) (s : State) : State :=
  mkState
    (mode s) (status s) (pageContext s) (result s) v (showEvidence s)
    (activeBreakdownIndex s) (health s) (isBatchRunning s) (batchCount s)
    (scanWaitCount s) (isBatchRunningRef s) (lastGradedNameRef s) (props s)
    (chrome s) (grading_history s) (storageFull s) (pending s) (effects s).

Definition set_showEvidence (v : bool) (s : State) : State :=
  mkState
    (mode s) (status s) (pageContext s) (result s) (errorMsg s) v
    (activeBreakdownIndex s) (health s) (isBatchRunning s) (batchCount s)
    (scanWaitCount s) (isBatchRunningRef s) (lastGradedNameRef s) (props s)
    (chrome s) (grading_history s) (storageFull s) (pending s) (effects s).

Definition set_activeBreakdownIndex (v : option nat) (s : State) : State :=
  mkState
    (mode s) (status s) (pageContext s) (result s) (errorMsg s)
    (showEvidence s) v (health s) (isBatchRunning s) (batchCount s)
    (scanWaitCount s) (isBatchRunningRef s) (lastGradedNameRef s) (props s)
    (chrome s) (grading_history s) (storageFull s) (pending s) (effects s).

Definition set_health (v : Health) (s : State) : State :=
  mkState
    (mode s) (status s) (pageContext s) (result s) (errorMsg s)
    (showEvidence s) (activeBreakdownIndex s) v (isBatchRunning s)
    (batchCount s) (scanWaitCount s) (isBatchRunningRef s)
    (lastGradedNameRef s) (props s) (chrome s) (grading_history s)
    (storageFull s) (pending s) (effects s).

Definition set_isBatchRunning (v : bool) (s : State) : State :=
  mkState
    (mode s) (status s) (pageContext s) (result s) (errorMsg s)
    (showEvidence s) (activeBreakdownIndex s) (health s) v (batchCount s)
    (scanWaitCount s) (isBatchRunningRef s) (lastGradedNameRef s) (props s)
    (chrome s) (grading_history s) (storageFull s) (pending s) (effects s).

Definition set_batchCount (v : nat) (s : State) : State :=
  mkState
    (mode s) (status s) (pageContext s) (result s) (errorMsg s)
    (showEvidence s) (activeBreakdownIndex s) (health s) (isBatchRunning s) v
    (scanWaitCount s) (isBatchRunningRef s) (lastGradedNameRef s) (props s)
    (chrome s) (grading_history s) (storageFull s) (pending s) (effects s).

Definition set_scanWaitCount (v : nat) (s : State) : State :=
  mkState
    (mode s) (status s) (pageContext s) (result s) (errorMsg s)
    (showEvidence s) (activeBreakdownIndex s) (health s) (isBatchRunning s)
    (batchCount s) v (isBatchRunningRef s) (lastGradedNameRef s) (props s)
    (chrome s) (grading_history s) (storageFull s) (pending s) (effects s).

Definition set_isBatchRunningRef (v : bool) (s : State) : State :=
  mkState
    (mode s) (status s) (pageContext s) (result s) (errorMsg s)
    (showEvidence s) (activeBreakdownIndex s) (health s) (isBatchRunning s)
    (batchCount s) (scanWaitCount s) v (lastGradedNameRef s) (props s)
    (chrome s) (grading_history s) (storageFull s) (pending s) (effects s).

Definition set_lastGradedNameRef (v : option string) (s : State) : State :=
  mkState
    (mode s) (status s) (pageContext s) (result s) (errorMsg s)
    (showEvidence s) (activeBreakdownIndex s) (health s) (isBatchRunning s)
    (batchCount s) (scanWaitCount s) (isBatchRunningRef s) v (props s)
    (chrome s) (grading_history s) (storageFull s) (pending s) (effects s).

Definition set_props (v : Props) (s : State) : State :=
  mkState
    (mode s) (status s) (pageContext s) (result s) (errorMsg s)
    (showEvidence s) (activeBreakdownIndex s) (health s) (isBatchRunning s)
    (batchCount s) (scanWaitCount s) (isBatchRunningRef s)
    (lastGradedNameRef s) v (chrome s) (grading_history s) (storageFull s)
    (pending s) (effects s).

Definition set_grading_history (v : option Blob) (s : State) : State :=
  mkState
    (mode s) (status s) (pageContext s) (result s) (errorMsg s)
    (showEvidence s) (activeBreakdownIndex s) (health s) (isBatchRunning s)
    (batchCount s) (scanWaitCount s) (isBatchRunningRef s)
    (lastGradedNameRef s) (props s) (chrome s) v (storageFull s) (pending s)
    (effects s).

Definition set_storageFull (v : bool) (s : State) : State :=
  mkState
    (mode s) (status s) (pageContext s) (result s) (errorMsg s)
    (showEvidence s) (activeBreakdownIndex s) (health s) (isBatchRunning s)
    (batchCount s) (scanWaitCount s) (isBatchRunningRef s)
    (lastGradedNameRef s) (props s) (chrome s) (grading_history s) v
    (pending s) (effects s).

Definition set_pending (v : list Pending) (s : State) : State :=
  mkState
    (mode s) (status s) (pageContext s) (result s) (errorMsg s)
    (showEvidence s) (activeBreakdownIndex s) (health s) (isBatchRunning s)
    (batchCount s) (scanWaitCount s) (isBatchRunningRef s)
    (lastGradedNameRef s) (props s) (chrome s) (grading_history s)
    (storageFull s) v (effects s).

Definition set_effects (v : list Effect) (s : State) : State :=
  mkState
    (mode s) (status s) (pageContext s) (result s) (errorMsg s)
    (showEvidence s) (activeBreakdownIndex s) (health s) (isBatchRunning s)
    (batchCount s) (scanWaitCount s) (isBatchRunningRef s)
    (lastGradedNameRef s) (props s) (chrome s) (grading_history s)
    (storageFull s) (pending s) v.

(** A continuation is added to those that wait. *)
Definition schedule (p : Pending) (s : State) : State :=
  set_pending (pending s ++ [p]) s.

(** An effect is added to the log. *)
Definition perform (e : Effect) (s : State) : State :=
  set_effects (effects s ++ [e]) s.

(** [setTimeout(cb, ms)] *)
Definition setTimeout (cb : Callback) (ms : nat) (s : State) : State :=
  schedule (Timer cb) (perform (SetTimeout cb ms) s).

(** [setScanWaitCount(prev => prev + 1)] *)
Definition bumpScanWaitCount (s : State) : State :=
  set_scanWaitCount (scanWaitCount s + 1) s.

Definition DEFAULT_GENERIC_RUBRIC : string :=
  "通用评分模式：重点检查答案正确性（权重60%）与过程完整性（权重40%）。若题目未标注满分，默认按10分制评判。请对解题思路进行简要点评。".

(** [MOCK_DATA_URL.split(',')[1]] *)
Definition MOCK_DATA : string :=
  "R0lGODlhAQABAIAAAAAAAP///yH5BAEAAAAALAAAAAABAAEAAAIBRAA7".

(** The reply of the content script to REQUEST_PAGE_DATA. *)
Record ScanResponse := mkScanResponse {
  success : bool;
  data : option PageContext;
  error_ : option string
}.

(** The page data when [response && response.success && response.data]. *)
Definition scanData (response : option ScanResponse) : option PageContext :=
  match response with
  | Some resp => if success resp then data resp else None
  | None => None
  end.

(** [response?.error || "未在页面上定位到答题卡图片"] *)
Definition scanErrorText (response : option ScanResponse) : string :=
  match response with
  | Some resp =>
      match error_ resp with
      | Some e => Js.or_string e "未在页面上定位到答题卡图片"
      | None => "未在页面上定位到答题卡图片"
      end
  | None => "未在页面上定位到答题卡图片"
  end.

Definition stopBatch (s : State) : State :=
  let s := set_isBatchRunning false s in
  let s := set_isBatchRunningRef false s in
  set_status sleeping s.

Definition handleScanError (r : Render) (msg : string) (s : State) : State :=
  if isBatchRunningRef s then
    setTimeout (ScanPage r) 2000 s
  else
    let s := set_errorMsg (Some msg) s in
    set_status error s.

(** [startGrading(ctx, rubric)] up to its [await]. *)
Definition startGrading (r : Render) (ctx : PageContext) (rubric : string)
    (s : State) : State :=
  let s := set_status grading s in
  let s := perform (Assess (answerImageBase64 ctx) rubric
                      (gradingStrategy (r_props r))) s in
  schedule (Grading r ctx) s.

Definition handlePageData (r : Render) (data : PageContext) (s : State)
    : State :=
  let s := set_pageContext (Some data) s in
  let targetRubric := currentRubric (r_props r) in
  if negb (isRubricConfigured (r_props r))
     || negb (Js.truthy_string targetRubric) then
    if bool_decide (r_mode r = Batch) && isBatchRunningRef s then
      let s := set_status review s in
      let s := set_result None s in
      let s := stopBatch s in
      perform (Alert "批量阅卷已暂停：请先配置评分标准以确保准确性。") s
    else
      startGrading r data DEFAULT_GENERIC_RUBRIC s
  else
    startGrading r data targetRubric s.

(** [scanPage()] up to the calls it leaves in flight. *)
Definition scanPage (r : Render) (s : State) : State :=
  let s :=
    if negb (isBatchRunningRef s) then
      let s := set_status scanning s in
      set_scanWaitCount 0 s
    else s in
  let s := set_errorMsg None s in
  let s := set_pageContext None s in
  let s := set_showEvidence false s in
  let s := set_activeBreakdownIndex None s in
  if negb (runtimeSendMessage (chrome s)) then
    setTimeout (MockScan r) 1000 s
  else if tabs (chrome s) then
    let s := perform TabsQuery s in
    schedule (TabsForScan r) s
  else
    (* chrome.tabs.query throws, the catch takes over *)
    handleScanError r "插件通信发生未知错误" s.

(** The timer body of the development mock; [random] is
    [Math.floor(Math.random() * 100)]. *)
Definition mockScan (r : Render) (random : nat) (s : State) : State :=
  let mockName := "学生_" +:+ pretty random in
  if bool_decide (Some mockName = lastGradedNameRef s) && isBatchRunningRef s
  then
    let s := bumpScanWaitCount s in
    setTimeout (ScanPage r) 1000 s
  else
    let s := set_scanWaitCount 0 s in
    handlePageData r
      {| platform := "DEV_MOCK"; studentName := mockName;
         answerImageBase64 := MOCK_DATA; timestamp := None |} s.

(** The callback of [chrome.tabs.query] in [scanPage]; [activeTab] is
    [tabs[0]?.id]. *)
Definition onScanTabs (r : Render) (activeTab : option nat) (s : State)
    : State :=
  match activeTab with
  | None => handleScanError r "无法获取当前标签页信息" s
  | Some tab =>
      let s := perform (SendMessage tab REQUEST_PAGE_DATA) s in
      schedule (PageRequest r) s
  end.

(** The callback of the REQUEST_PAGE_DATA message; [lastError] tells
    whether [chrome.runtime.lastError] is set. *)
Definition onPageResponse (r : Render) (lastError : bool)
    (response : option ScanResponse) (s : State) : State :=
  if lastError then
    handleScanError r "连接失败：请刷新页面或确认已打开阅卷页" s
  else
    match scanData response with
    | Some data =>
        if isBatchRunningRef s
           && bool_decide (Some (studentName data) = lastGradedNameRef s)
        then
          let s := bumpScanWaitCount s in
          setTimeout (ScanPage r) 1500 s
        else
          let s := set_scanWaitCount 0 s in
          handlePageData r data s
    | None =>
        if isBatchRunningRef s then
          let s := bumpScanWaitCount s in
          setTimeout (ScanPage r) 2000 s
        else
          handleScanError r (scanErrorText response) s
    end.

(** What [recordHistory] does to the 'grading_history' entry. *)
Definition recordHistory (r : Render) (score : float) (studentName : string)
    (now : string) (s : State) : State :=
  set_grading_history
    (History.recordHistory (r_result r) score studentName now
       (storageFull s) (grading_history s)) s.

(** [handleSubmitScore(score, studentName)]; [now] is
    [Date.now().toString()]. *)
Definition handleSubmitScore (r : Render) (score : float)
    (studentName : string) (now : string) (s : State) : State :=
  let s :=
    match r_pageContext r with
    | Some ctx =>
        if Js.truthy_string (platform ctx) && tabs (chrome s) then
          let s := perform TabsQuery s in
          schedule (TabsForFill r score) s
        else s
    | None => s
    end in
  let s := recordHistory r score studentName now s in
  if bool_decide (r_mode r = Batch) && isBatchRunningRef s then
    let s := set_batchCount (batchCount s + 1) s in
    let s := set_lastGradedNameRef (Some studentName) s in
    setTimeout (ScanPage r) 2000 s
  else s.

(** The callback of [chrome.tabs.query] in [handleSubmitScore]. *)
Definition onFillTabs (r : Render) (score : float) (activeTab : option nat)
    (s : State) : State :=
  match activeTab, r_pageContext r with
  | Some tab, Some ctx =>
      let s := perform (SendMessage tab (FILL_SCORE score (platform ctx))) s in
      schedule (FillRequest r score) s
  | _, _ => s
  end.

(** The callback of the FILL_SCORE message; [filled] is [res?.success]. *)
Definition onFillResponse (r : Render) (score : float) (filled : bool)
    (s : State) : State :=
  if bool_decide (r_mode r = Trial) then
    if filled then perform (AlertScore "已自动填入分数: " score) s else s
  else s.

(** [startGrading] after its [await]: [res] is the result of
    [assessStudentAnswer], [None] when the promise is rejected. *)
Definition onGraded (r : Render) (ctx : PageContext)
    (res : option StudentResult) (s : State) : State :=
  match res with
  | Some res =>
      let res :=
        {| ident := ident res;
           name := Js.or_string (studentName ctx) "未知学生";
           className := className res; studentNo := studentNo res;
           score := score res;
           maxScore := maxScore res; comment := comment res;
           breakdown := breakdown res |} in
      let s := set_result (Some res) s in
      let s := set_status review s in
      let s := set_showEvidence true s in
      if bool_decide (r_mode r = Batch) && isBatchRunningRef s then
        setTimeout (SubmitScore r (score res) (name res)) 800 s
      else s
  | None =>
      if isBatchRunningRef s then
        let s := stopBatch s in
        let s := set_errorMsg (Some "AI 服务响应异常，批量阅卷已安全暂停。") s in
        set_status error s
      else
        let s := set_errorMsg (Some "AI 服务响应异常，请检查网络或 API Key") s in
        set_status error s
  end.

Definition startBatch (r : Render) (s : State) : State :=
  if negb (api (r_health r)) || negb (rubric (r_health r))
     || negb (pageLink (r_health r)) then
    perform (Alert "请确保 API 连接、评分标准和答题卡定位均已就绪 (请看上方状态灯)。") s
  else
    let s := set_isBatchRunning true s in
    let s := set_isBatchRunningRef true s in
    let s := set_batchCount 0 s in
    let s := set_scanWaitCount 0 s in
    let s := set_lastGradedNameRef None s in
    scanPage r s.

(** The effect that runs after the render in which [mode] has become [m],
    and after the first render. *)
Definition changeMode (m : GradingMode) (s : State) : State :=
  let s := set_mode m s in
  let r := render s in
  let s := stopBatch s in
  match m with
  | Trial => let s := set_status scanning s in scanPage r s
  | Batch => set_status sleeping s
  end.

(** ** The event loop *)

(** What the outside hands to a continuation that resumes. *)
Inductive Input :=
| Fires (random : nat) (now : string)
    (* a timer fires; what Math.random and Date.now give to its body *)
| Tabs (activeTab : option nat)
| PageResponse (lastError : bool) (response : option ScanResponse)
| FillResponse (filled : bool)
| Graded (res : option StudentResult).

(** The body of a continuation, run on what it is given. *)
Definition resume (p : Pending) (i : Input) (s : State) : option State :=
  match p, i with
  | Timer (ScanPage r), Fires _ _ => Some (scanPage r s)
  | Timer (MockScan r), Fires random _ => Some (mockScan r random s)
  | Timer (SubmitScore r score name), Fires _ now =>
      Some (handleSubmitScore r score name now s)
  | TabsForScan r, Tabs activeTab => Some (onScanTabs r activeTab s)
  | PageRequest r, PageResponse lastError response =>
      Some (onPageResponse r lastError response s)
  | TabsForFill r score, Tabs activeTab => Some (onFillTabs r score activeTab s)
  | FillRequest r score, FillResponse filled =>
      Some (onFillResponse r score filled s)
  | Grading r ctx, Graded res => Some (onGraded r ctx res s)
  | _, _ => None
  end.

(** What happens next: the [k]-th waiting continuation resumes, or the
    operator acts on the panel as rendered. *)
Inductive Event :=
| Resume (k : nat) (i : Input)
| ClickStart
| ClickStop
| ClickScan
| ClickSubmit (now : string)
| ChooseMode (m : GradingMode)
| HealthChecked (h : Health)
| PropsChanged (p : Props)
| StorageQuota (full : bool).
    (* the room left in localStorage changes: it is shared with the other
       pages of the extension *)

(** The buttons are there only in some renders: start and pause in batch
    mode, by [isBatchRunning] (start is disabled without a rubric); the
    rescan button in trial mode and on the error screen; the confirm button
    in trial mode under a displayed result.  [setMode] with the mode the
    panel is in changes nothing. *)
Definition step (e : Event) (s : State) : option State :=
  match e with
  | Resume k i =>
      p ← pending s !! k;
      resume p i (set_pending (delete k (pending s)) s)
  | ClickStart =>
      if bool_decide (mode s = Batch) && negb (isBatchRunning s)
         && rubric (health s)
      then Some (startBatch (render s) s) else None
  | ClickStop =>
      if bool_decide (mode s = Batch) && isBatchRunning s
      then Some (stopBatch s) else None
  | ClickScan =>
      if bool_decide (mode s = Trial) || bool_decide (status s = error)
      then Some (scanPage (render s) s) else None
  | ClickSubmit now =>
      res ← result s;
      if bool_decide (mode s = Trial) && bool_decide (status s = review)
      then Some (handleSubmitScore (render s) (score res) (name res) now s)
      else None
  | ChooseMode m =>
      if bool_decide (m = mode s) then Some s else Some (changeMode m s)
  | HealthChecked h => Some (set_health h s)
  | PropsChanged p => Some (set_props p s)
  | StorageQuota full => Some (set_storageFull full s)
  end.

Fixpoint run (events : list Event) (s : State) : option State :=
  match events with
  | [] => Some s
  | e :: rest => s' ← step e s; run rest s'
  end.

End GradingView.

(* ===================================================================== *)
(** * Scenarios *)
(* ===================================================================== *)

Module Scenario.
Import AnalysisView.

(** A stored history entry of which only the score and the full marks
    are told. *)
Definition entry (score maxScore : float) : StoredResult :=
  mkStudentResult "" "" None None (Some score) (Some maxScore) "" [].

(** The scores and full marks of a stored history, entry by entry. *)
Definition marks (history : list StoredResult)
    : list (Js.json * Js.json) :=
  map (fun e => (score e, maxScore e)) history.

(** A history of 500 entries: 499 times 7 out of 10, and 5 out of 10 as
    the oldest. *)
Definition fullHistory : list StoredResult :=
  replicate 499 (entry 7 10) ++ [entry 5 10].

(** The history of the example: 8, 5 and 9 out of 10. *)
Definition exampleHistory : list StoredResult :=
  [entry 8 10; entry 5 10; entry 9 10].

(** The buckets of a distribution, by name. *)
Definition bucketCounts (st : Stats) : list (string * nat) :=
  map (fun b => (bucket_name b, bucket_value b)) (distribution st).

(** [lo <= x < hi] *)
Definition within (lo hi x : float) : bool :=
  (PrimFloat.leb lo x && PrimFloat.ltb x hi)%bool.

(** The number of entries of the history that fall into bucket [i]. *)
Definition inBucket (i : nat) (history : list StoredResult) : nat :=
  length (List.filter (fun e => Nat.eqb (bucketOf e) i) history).

(** The ratio of an entry: its own score over its own full marks ([null]
    counts as 0). *)
Definition ratio (e : StoredResult) : float :=
  (Js.to_number (score e) / Js.to_number (maxScore e))%float.

(** The number of entries of the history whose ratio passes [test]. *)
Definition ratios (test : float -> bool) (history : list StoredResult)
    : nat :=
  length (List.filter (fun e => test (ratio e)) history).

(** A configuration for an OpenAI-compatible endpoint, as the settings
    panel fills it in for the provider 'openai'. *)
Definition openaiConfig : GeminiService.AppConfig :=
  {| GeminiService.provider := Json.js "openai";
     GeminiService.endpoint :=
       Json.js "https://api.openai.com/v1/chat/completions";
     GeminiService.modelName := Json.js "gpt-4o";
     GeminiService.apiKey := Json.js "sk-test" |}.

(** The same without a key. *)
Definition keylessConfig : GeminiService.AppConfig :=
  {| GeminiService.provider := Json.js "openai";
     GeminiService.endpoint :=
       Json.js "https://api.openai.com/v1/chat/completions";
     GeminiService.modelName := Json.js "gpt-4o";
     GeminiService.apiKey := [] |}.

(** The default configuration with a key. *)
Definition googleConfig : GeminiService.AppConfig :=
  {| GeminiService.provider := Json.js "google";
     GeminiService.endpoint := [];
     GeminiService.modelName := Json.js "gemini-2.5-flash";
     GeminiService.apiKey := Json.js "AIza-test" |}.

(** ** A page for [tryFillScore] *)

(** The last of the generic selectors. *)
Definition scorePlaceholderSelector : string :=
  "input[placeholder*=" +:+ Content.dq +:+ "score" +:+ Content.dq +:+ "]".

(** A page of the first platform with two inputs.  Element 1 has a
    placeholder that contains "score" and is not displayed (its
    [offsetParent] is [null]); element 2 is displayed, matches none of the
    selectors and has the focus. *)
Definition hiddenMatchPage : Content.Page :=
  {| Content.hostname := "www.zhixue.com";
     Content.querySelector :=
       fun sel => if decide (sel = scorePlaceholderSelector) then Some 1
                  else None;
     Content.offsetParentIsNull := fun el => bool_decide (el = 1);
     Content.tagName := fun _ => "INPUT";
     Content.activeElement := Some 2 |}.

(** No selector tried for the platform finds an element that is displayed. *)
Definition noVisibleMatch (page : Content.Page) (platform : string) : Prop :=
  forall sel el,
    sel ∈ Content.selectorsFor platform ->
    Content.querySelector page sel = Some el ->
    Content.offsetParentIsNull page el = true.

(** What writing [score] into the input [el] does. *)
Definition fills (el : nat) (score : float) : list Content.DomEffect :=
  [ Content.SetValue el score;
    Content.Dispatch el Content.InputEvent;
    Content.Dispatch el Content.ChangeEvent;
    Content.Dispatch el Content.BlurEvent;
    Content.Dispatch el Content.KeydownEnter ].

(** ** The grading panel *)

Definition countIf {A} (f : A -> bool) (l : list A) : nat :=
  length (List.filter f l).

(** [setTimeout(scanPage, ms)] *)
Definition isScanTimer (e : GradingView.Effect) : bool :=
  match e with
  | GradingView.SetTimeout (GradingView.ScanPage _) _ => true
  | _ => false
  end.

(** The timer of the automatic submission. *)
Definition isSubmitTimer (e : GradingView.Effect) : bool :=
  match e with
  | GradingView.SetTimeout (GradingView.SubmitScore _ _ _) _ => true
  | _ => false
  end.

(** A FILL_SCORE message. *)
Definition isFill (e : GradingView.Effect) : bool :=
  match e with
  | GradingView.SendMessage _ (GradingView.FILL_SCORE _ _) => true
  | _ => false
  end.

(** A call of the grading service. *)
Definition isAssess (e : GradingView.Effect) : bool :=
  match e with
  | GradingView.Assess _ _ _ => true
  | _ => false
  end.

(** A continuation that will still submit a score: the timer of an
    automatic submission, or the tabs query it has started. *)
Definition submitWaits (p : GradingView.Pending) : bool :=
  match p with
  | GradingView.Timer (GradingView.SubmitScore _ _ _) => true
  | GradingView.TabsForFill _ _ => true
  | _ => false
  end.

Definition isResume (e : GradingView.Event) : bool :=
  match e with
  | GradingView.Resume _ _ => true
  | _ => false
  end.

(** The ways a scan of the page fails: no active tab, no connection to the
    content script, a reply without page data. *)
Inductive ScanFailure :=
| NoActiveTab
| NoConnection (response : option GradingView.ScanResponse)
| NoPageData (response : option GradingView.ScanResponse).

Definition isFailure (f : ScanFailure) : Prop :=
  match f with
  | NoPageData response => GradingView.scanData response = None
  | _ => True
  end.

(** The callback that meets the failure. *)
Definition afterFailure (r : GradingView.Render) (f : ScanFailure)
    (s : GradingView.State) : GradingView.State :=
  match f with
  | NoActiveTab => GradingView.onScanTabs r None s
  | NoConnection response => GradingView.onPageResponse r true response s
  | NoPageData response => GradingView.onPageResponse r false response s
  end.

(** The failure is retried: one timer for [scanPage] after 2000 ms is all
    the callback leaves, and the error display is as it was. *)
Definition retriedOnce (r : GradingView.Render) (s s' : GradingView.State)
    : Prop :=
  GradingView.effects s'
    = GradingView.effects s
      ++ [GradingView.SetTimeout (GradingView.ScanPage r) 2000]
  /\ GradingView.pending s'
     = GradingView.pending s ++ [GradingView.Timer (GradingView.ScanPage r)]
  /\ GradingView.errorMsg s' = GradingView.errorMsg s
  /\ GradingView.status s' = GradingView.status s.

(** The text the panel shows for a failure: a fixed text for a missing
    tab and for a missing connection; for a reply without page data the
    error text of the reply, or a fixed text when the reply has none or an
    empty one. *)
Definition failureText (f : ScanFailure) : string :=
  match f with
  | NoActiveTab => "无法获取当前标签页信息"
  | NoConnection _ => "连接失败：请刷新页面或确认已打开阅卷页"
  | NoPageData (Some (GradingView.mkScanResponse _ _ (Some (String c e)))) =>
      String c e
  | NoPageData _ => "未在页面上定位到答题卡图片"
  end.

(** The failure is shown: the message [text] and the error status are
    set, and nothing is scheduled. *)
Definition shownAsError (text : string) (s s' : GradingView.State) : Prop :=
  GradingView.errorMsg s' = Some text
  /\ GradingView.status s' = GradingView.error
  /\ GradingView.effects s' = GradingView.effects s
  /\ GradingView.pending s' = GradingView.pending s.

(** The reply of the content script with page data. *)
Definition found (ctx : PageContext) : GradingView.ScanResponse :=
  GradingView.mkScanResponse true (Some ctx) None.

(** A scan in flight is answered: the tabs query gives [tab], the content
    script replies with [ctx]. *)
Definition answered (tab : nat) (ctx : PageContext)
    : list GradingView.Event :=
  [ GradingView.Resume 0 (GradingView.Tabs (Some tab));
    GradingView.Resume 0
      (GradingView.PageResponse false (Some (found ctx))) ].

(** The batch will fill the score in for a render: it has page data with
    a platform. *)
Definition fillsFor (r : GradingView.Render) : bool :=
  match GradingView.r_pageContext r with
  | Some ctx => Js.truthy_string (platform ctx)
  | None => false
  end.

(** What taking one student through does, in order: the page is asked
    for its data, the grading service is called, the timer of the
    automatic submission is set; when the timer has fired, the tabs are
    queried for the fill, if there is one, and the timer of the next scan
    is set. *)
Definition paperEffects (r : GradingView.Render) (tab : nat)
    (ctx : PageContext) (res : StudentResult) : list GradingView.Effect :=
  [ GradingView.SendMessage tab GradingView.REQUEST_PAGE_DATA;
    GradingView.Assess (answerImageBase64 ctx)
      (GradingView.currentRubric (GradingView.r_props r))
      (GradingView.gradingStrategy (GradingView.r_props r));
    GradingView.SetTimeout
      (GradingView.SubmitScore r (score res)
         (Js.or_string (studentName ctx) "未知学生")) 800 ]
  ++ (if fillsFor r then [GradingView.TabsQuery] else [])
  ++ [ GradingView.SetTimeout (GradingView.ScanPage r) 2000 ].

(** What waits after it: the tabs query of the fill, if there is one, and
    the timer of the next scan. *)
Definition paperPending (r : GradingView.Render) (res : StudentResult)
    : list GradingView.Pending :=
  (if fillsFor r then [GradingView.TabsForFill r (score res)] else [])
  ++ [ GradingView.Timer (GradingView.ScanPage r) ].

(** The retry timer fires. *)
Definition retryFires : list GradingView.Event :=
  [ GradingView.Resume 0 (GradingView.Fires 0 "") ].

(** The page answers with each of [same] in turn, and after each answer
    the retry timer fires. *)
Fixpoint waiting (tab : nat) (same : list PageContext)
    : list GradingView.Event :=
  match same with
  | [] => []
  | ctx :: rest => answered tab ctx ++ retryFires ++ waiting tab rest
  end.

(** What [n] rounds of waiting do: the page request, the retry timer, and
    the tabs query of the next attempt. *)
Fixpoint waitingEffects (r : GradingView.Render) (tab : nat) (n : nat)
    : list GradingView.Effect :=
  match n with
  | O => []
  | S n =>
      [ GradingView.SendMessage tab GradingView.REQUEST_PAGE_DATA;
        GradingView.SetTimeout (GradingView.ScanPage r) 1500;
        GradingView.TabsQuery ] ++ waitingEffects r tab n
  end.

(** The loop is running in the extension, [lastName] is the student graded
    last, and one scan is in flight. *)
Definition scanInFlight (r : GradingView.Render) (lastName : string)
    (s : GradingView.State) : Prop :=
  GradingView.isBatchRunningRef s = true
  /\ GradingView.lastGradedNameRef s = Some lastName
  /\ GradingView.runtimeSendMessage (GradingView.chrome s) = true
  /\ GradingView.tabs (GradingView.chrome s) = true
  /\ GradingView.pending s = [GradingView.TabsForScan r].

(** Page data of the first platform for a student. *)
Definition pageOf (name : string) : PageContext :=
  mkPageContext "ZHIXUE" name "aW1hZ2U=" (Some 1).

(** A result as the grading service returns it. *)
Definition gradedWith (score : float) : StudentResult :=
  mkStudentResult "1" "自动识别" (Some "自动识别") None score 10%float "ok" [].

(** The component before its first effect runs: the initial values of
    its state and refs, inside the extension, with a rubric configured. *)
Definition initial : GradingView.State :=
  GradingView.mkState Trial GradingView.scanning None None None false None
    (GradingView.mkHealth false false false) false 0 0 false None
    (GradingView.mkProps true "rubric" flash)
    (GradingView.mkChromeApi true true) None false [] [].

(** The panel is mounted in trial mode and scans at once; the page of
    student A is found and graded 7; the health check finds everything in
    place; the operator switches to batch mode. *)
Definition trialPassThenBatch : list GradingView.Event :=
  answered 1 (pageOf "A")
  ++ [ GradingView.Resume 0 (GradingView.Graded (Some (gradedWith 7)));
       GradingView.HealthChecked (GradingView.mkHealth true true true);
       GradingView.ChooseMode Batch ].

(** The panel in batch mode, ready to start: the lights are green, and the
    trial pass has left the page data and the result of student A. *)
Definition ready : GradingView.State :=
  GradingView.mkState Batch GradingView.sleeping
    (Some (pageOf "A"))
    (Some (mkStudentResult "1" "A" (Some "自动识别") None 7%float 10%float
             "ok" []))
    None true None
    (GradingView.mkHealth true true true) false 0 0 false None
    (GradingView.mkProps true "rubric" flash)
    (GradingView.mkChromeApi true true) None false []
    [ GradingView.TabsQuery;
      GradingView.SendMessage 1 GradingView.REQUEST_PAGE_DATA;
      GradingView.Assess "aW1hZ2U=" "rubric" flash ].

(** The loop of [ready] as it runs after student A was submitted. *)
Definition runningAfterA : GradingView.State :=
  GradingView.set_lastGradedNameRef (Some "A")
    (GradingView.set_isBatchRunningRef true
       (GradingView.set_isBatchRunning true ready)).

(** Since [s], the state [s'] has sent no new FILL_SCORE, set no new timer
    for a scan or for an automatic submission, and counted no new paper. *)
Definition idleSince (s s' : GradingView.State) : Prop :=
  countIf isFill (GradingView.effects s')
  = countIf isFill (GradingView.effects s)
  /\ countIf isScanTimer (GradingView.effects s')
     = countIf isScanTimer (GradingView.effects s)
  /\ countIf isSubmitTimer (GradingView.effects s')
     = countIf isSubmitTimer (GradingView.effects s)
  /\ GradingView.batchCount s' = GradingView.batchCount s.

(** From [s] to [s'] the flag is clear at the end, no paper is counted, the
    name graded last is kept, no timer is set for a scan or for an
    automatic submission, nothing that waits is dropped, and the FILL_SCORE
    messages sent plus the submissions that newly wait are at most
    [extra]. *)
Definition settled (extra : nat) (s s' : GradingView.State) : Prop :=
  GradingView.isBatchRunningRef s' = false
  /\ GradingView.batchCount s' = GradingView.batchCount s
  /\ GradingView.lastGradedNameRef s' = GradingView.lastGradedNameRef s
  /\ countIf isScanTimer (GradingView.effects s')
     = countIf isScanTimer (GradingView.effects s)
  /\ countIf isSubmitTimer (GradingView.effects s')
     = countIf isSubmitTimer (GradingView.effects s)
  /\ countIf isFill (GradingView.effects s)
     <= countIf isFill (GradingView.effects s')
  /\ countIf submitWaits (GradingView.pending s)
     <= countIf submitWaits (GradingView.pending s')
  /\ countIf isFill (GradingView.effects s')
     + countIf submitWaits (GradingView.pending s')
     <= countIf isFill (GradingView.effects s)
        + countIf submitWaits (GradingView.pending s) + extra.

(** The loop of [ready] paused by the operator while the grading call for
    student B is in flight. *)
Definition pausedWhileGrading : GradingView.State :=
  GradingView.stopBatch
    (GradingView.startGrading (GradingView.render ready) (pageOf "B")
       "rubric"
       (GradingView.set_isBatchRunningRef true
          (GradingView.set_isBatchRunning true ready))).

(** The batch is started, student B is found and graded 8, and the
    operator pauses before the 800 ms of the automatic submission are
    over. *)
Definition pausedBeforeSubmit : list GradingView.Event :=
  [ GradingView.ClickStart ] ++ answered 1 (pageOf "B")
  ++ [ GradingView.Resume 0 (GradingView.Graded (Some (gradedWith 8)));
       GradingView.ClickStop ].

(** The submission timer fires and its tabs query is answered. *)
Definition submitTimerRuns : list GradingView.Event :=
  [ GradingView.Resume 0 (GradingView.Fires 0 "1700000000000");
    GradingView.Resume 0 (GradingView.Tabs (Some 1)) ].

End Scenario.

(* ===================================================================== *)
(** * Notions for the invariants of the grading loop *)
(* ===================================================================== *)

Module Notions.

(** The render a waiting continuation was created in. *)
Definition renderOf (p : GradingView.Pending) : GradingView.Render :=
  match p with
  | GradingView.Timer (GradingView.ScanPage r) => r
  | GradingView.Timer (GradingView.MockScan r) => r
  | GradingView.Timer (GradingView.SubmitScore r _ _) => r
  | GradingView.TabsForScan r => r
  | GradingView.PageRequest r => r
  | GradingView.TabsForFill r _ => r
  | GradingView.FillRequest r _ => r
  | GradingView.Grading r _ => r
  end.

(** Every continuation that waits was created in a render that [Q] holds
    of. *)
Definition allBorn (Q : GradingView.Render -> Prop) (s : GradingView.State)
    : Prop :=
  Forall (fun p => Q (renderOf p)) (GradingView.pending s).

(** An event of the loop left to itself: a continuation resumes, or the
    room left in the storage changes; the operator does nothing. *)
Definition unattended (e : GradingView.Event) : bool :=
  match e with
  | GradingView.Resume _ _ => true
  | GradingView.StorageQuota _ => true
  | _ => false
  end.

(** The [isBatchRunning] state and the ref that shadows it agree. *)
Definition flagsAgree (s : GradingView.State) : Prop :=
  GradingView.isBatchRunning s = GradingView.isBatchRunningRef s.

(** The loop runs only in batch mode. *)
Definition runsInBatchMode (s : GradingView.State) : Prop :=
  GradingView.isBatchRunningRef s = true -> GradingView.mode s = Batch.

(** A call of the grading service carries a rubric that is not empty. *)
Definition assessHasRubric (e : GradingView.Effect) : bool :=
  match e with
  | GradingView.Assess _ rubric _ => Js.truthy_string rubric
  | _ => true
  end.

Definition rubricsGiven (s : GradingView.State) : Prop :=
  forallb assessHasRubric (GradingView.effects s) = true.

(** The history entry is absent, or an array of at most 500 results. *)
Definition historyWithinCap (stored : option Blob) : Prop :=
  match stored with
  | None => True
  | Some (HistoryArray l) => length l <= 500
  | Some _ => False
  end.

(** The history entry holds a text that does not parse, or a value that
    is not an array. *)
Definition unreadable (stored : option Blob) : Prop :=
  stored = Some Unparsable \/ stored = Some NotAnArray.

(** The results a stored history lists. *)
Definition entriesOf (stored : option Blob) : list StoredResult :=
  match stored with
  | Some (HistoryArray l) => l
  | _ => []
  end.

(** A result of the panel as the stored text gives it back: every number
    as [JSON.stringify] writes it and [JSON.parse] reads it. *)
Definition asStored (res : StudentResult) : StoredResult :=
  map_result Js.json_number res.

(** An element of the parsed array as the text of the next write gives it
    back. *)
Definition rewritten (e : StoredResult) : StoredResult :=
  map_result Js.json_value e.

(** The fields of a stored history entry that [recordHistory] spreads
    from [result]: all but the score, the name and the id. *)
Definition copiedFrom (res : StudentResult) (e : StoredResult) : Prop :=
  className e = className res
  /\ studentNo e = studentNo res
  /\ maxScore e = maxScore (asStored res)
  /\ comment e = comment res
  /\ breakdown e = breakdown (asStored res).

(** An entry of [stored], as it was or as a later write of the list gives
    it back. *)
Definition keptFrom (stored : option Blob) (e : StoredResult) : Prop :=
  exists e0, e0 ∈ entriesOf stored /\ (e = e0 \/ e = rewritten e0).

(** The entry was in [stored], or it was written from [start]. *)
Definition keptOrCopied (start : option StudentResult)
    (stored : option Blob) (e : StoredResult) : Prop :=
  keptFrom stored e \/ exists res, start = Some res /\ copiedFrom res e.

(** A FILL_SCORE message for another platform than the one of [start]. *)
Definition offPlatform (start : option PageContext)
    (e : GradingView.Effect) : bool :=
  match e with
  | GradingView.SendMessage _ (GradingView.FILL_SCORE _ p) =>
      match start with
      | Some ctx => negb (bool_decide (p = platform ctx))
      | None => true
      end
  | _ => false
  end.

(** What every callback of the render [r] keeps, whatever the flag: the
    mode; the agreement of flag and ref; a cleared ref; what the renders
    of the waiting continuations have in common; a history that is as it
    was or has one entry more, written from the result of [r]; the
    FILL_SCORE messages for other platforms than the one of the page
    context of [r]; rubrics that are not empty. *)
Definition kept (Q : GradingView.Render -> Prop) (r : GradingView.Render)
    (s s' : GradingView.State) : Prop :=
  GradingView.mode s' = GradingView.mode s
  /\ (flagsAgree s -> flagsAgree s')
  /\ (GradingView.isBatchRunningRef s' = true ->
      GradingView.isBatchRunningRef s = true)
  /\ (Q r -> allBorn Q s -> allBorn Q s')
  /\ (GradingView.grading_history s' = GradingView.grading_history s
      \/ exists score name now full,
           GradingView.grading_history s'
           = History.recordHistory (GradingView.r_result r) score name now
               full (GradingView.grading_history s))
  /\ Scenario.countIf (offPlatform (GradingView.r_pageContext r))
       (GradingView.effects s')
     = Scenario.countIf (offPlatform (GradingView.r_pageContext r))
         (GradingView.effects s)
  /\ (rubricsGiven s -> rubricsGiven s').

End Notions.

(* ===================================================================== *)
(** * More scenarios of the grading loop *)
(* ===================================================================== *)

Module Cases.
Import Scenario.

(** The reply of the content script that found no answer sheet. *)
Definition notFound : GradingView.ScanResponse :=
  GradingView.mkScanResponse false None
    (Some "未在当前视图中找到符合条件的答题卡图片").

(** The panel is mounted in trial mode and scans at once, before the
    paper is on the page; later the health check finds everything in
    place, and the operator switches to batch mode. *)
Definition firstScanFails : list GradingView.Event :=
  [ GradingView.Resume 0 (GradingView.Tabs (Some 1));
    GradingView.Resume 0 (GradingView.PageResponse false (Some notFound));
    GradingView.HealthChecked (GradingView.mkHealth true true true);
    GradingView.ChooseMode Batch ].

(** The panel after [firstScanFails]: in batch mode with green lights, and
    with neither page data nor a result. *)
Definition unscanned : GradingView.State :=
  GradingView.mkState Batch GradingView.sleeping None None
    (Some "未在当前视图中找到符合条件的答题卡图片") false None
    (GradingView.mkHealth true true true) false 0 0 false None
    (GradingView.mkProps true "rubric" flash)
    (GradingView.mkChromeApi true true) None false []
    [ GradingView.TabsQuery;
      GradingView.SendMessage 1 GradingView.REQUEST_PAGE_DATA ].

(** Student B is found and graded 8, and the 800 ms of the automatic
    submission pass. *)
Definition gradeAndSubmitB : list GradingView.Event :=
  answered 1 (pageOf "B")
  ++ [ GradingView.Resume 0 (GradingView.Graded (Some (gradedWith 8)));
       GradingView.Resume 0 (GradingView.Fires 0 "1700000000000") ].

(** The batch is started and runs one paper through. *)
Definition oneBatchPaper : list GradingView.Event :=
  GradingView.ClickStart :: gradeAndSubmitB.

(** [Scenario.ready] with a stored history of 500 entries. *)
Definition readyAtCap : GradingView.State :=
  GradingView.set_grading_history
    (Some (HistoryArray Scenario.fullHistory)) Scenario.ready.

(** One paper runs through the batch, and the tabs query of its
    submission is answered. *)
Definition oneBatchPaperFilled : list GradingView.Event :=
  oneBatchPaper ++ [ GradingView.Resume 0 (GradingView.Tabs (Some 1)) ].

(** The panel without a rubric: the parent passes an empty text. *)
Definition noRubric : GradingView.State :=
  GradingView.set_props (GradingView.mkProps false "" flash) initial.

End Cases.

(* ===================================================================== *)
(** * Notions for the score filling *)
(* ===================================================================== *)

Module Filling.

(** [sub] occurs in [s]. *)
Definition occursIn (sub s : string) : Prop :=
  exists before after, s = before +:+ sub +:+ after.

(** [platformHint || detectPlatform()] *)
Definition platformFor (page : Content.Page) (platformHint : option string)
    : string :=
  match platformHint with
  | Some hint => if Js.truthy_string hint then hint
                 else Content.detectPlatform (Content.hostname page)
  | None => Content.detectPlatform (Content.hostname page)
  end.

(** The selector finds an element, and the element is displayed. *)
Definition findsDisplayed (page : Content.Page) (sel : string) (el : nat)
    : Prop :=
  Content.querySelector page sel = Some el
  /\ Content.offsetParentIsNull page el = false.

(** None of the selectors finds an element that is displayed. *)
Definition noneDisplayed (page : Content.Page) (selectors : list string)
    : Prop :=
  forall sel el, sel ∈ selectors -> ~ findsDisplayed page sel el.

(** A page of the first platform with three inputs, all displayed: element
    1 is found by '.mark-input', the last selector of the platform;
    element 2 by the first generic selector; element 3 has the focus. *)
Definition rankedPage : Content.Page :=
  {| Content.hostname := "www.zhixue.com";
     Content.querySelector :=
       fun sel =>
         if decide (sel = ".mark-input") then Some 1
         else if decide (sel = "input[type=" +:+ Content.dq +:+ "number"
                               +:+ Content.dq +:+ "]") then Some 2
         else None;
     Content.offsetParentIsNull := fun _ => false;
     Content.tagName := fun _ => "INPUT";
     Content.activeElement := Some 3 |}.

End Filling.

(* ===================================================================== *)
(** * Notions for the statistics *)
(* ===================================================================== *)

Module Report.

(** The entries the chart shows, all bars together. *)
Definition charted (st : AnalysisView.Stats) : nat :=
  foldr Nat.add 0 (map AnalysisView.bucket_value (AnalysisView.distribution st)).

(** The entry [recordHistory] writes for [result], as the stored text
    gives it back. *)
Definition historyItem (result : StudentResult) (score_ : float)
    (studentName_ now : string) : StoredResult :=
  Notions.asStored
    {| ident := now; name := studentName_; className := className result;
       studentNo := studentNo result;
       score := score_; maxScore := maxScore result;
       comment := comment result; breakdown := breakdown result |}.

(** A result whose full marks are infinite, as [JSON.parse] gives them for
    a number too large. *)
Definition unbounded : StudentResult :=
  mkStudentResult "1" "auto" None None 7%float PrimFloat.infinity "ok" [].

End Report.

(* ===================================================================== *)
(** * content.js: reading the answer sheet off the page *)
(* ===================================================================== *)

Module Scrape.

(** [SELECTOR_CONFIGS[platform]] *)
Definition SELECTOR_CONFIGS (platform : string) : option (list string) :=
  if decide (platform = "ZHIXUE") then
    Some [ ".paper-img-container img"; "#paperImg"; ".answer-sheet img";
           ".img-box img" ]
  else if decide (platform = "HAOFENSHU") then
    Some [ "#canvas_paper"; ".mark-img-wrap img"; ".stu-paper img" ]
  else if decide (platform = "GENERIC") then
    Some [ "canvas";
           "img[src^=" +:+ Content.dq +:+ "blob:" +:+ Content.dq +:+ "]";
           "img" ]
  else None.

(** What the script reads of the document besides what [tryFillScore]
    reads.  Elements are node numbers as in [Content.Page]; texts are the
    UTF-8 bytes of the JavaScript strings. *)
Record Dom := mkDom {
  page : Content.Page;
  querySelectorAll : string -> list nat;
  innerText : nat -> option string;
      (* [None]: the element has no [innerText], as an SVG element *)
  rectWidth : nat -> float;           (* getBoundingClientRect().width *)
  rectHeight : nat -> float;
  src : nat -> string;                (* of an IMG *)
  toDataURL : nat -> option string;   (* of a CANVAS; [None]: it throws *)
  backgroundImage : nat -> string     (* of the computed style *)
}.

(** How reading the body goes: [response.blob()] is rejected or never
    settles; or the reader gives a data URL, fails, or never fires an
    event. *)
Inductive ReadOutcome :=
| BlobFails
| BlobHangs
| ReadAs (dataUrl : string)
| ReadFails
| ReadHangs.

(** How [fetch(url, ...)] goes: it is rejected, it never settles, or it
    gives a response that is [ok] or not and a body. *)
Inductive FetchOutcome :=
| NetworkError
| FetchHangs
| Response (ok : bool) (body : ReadOutcome).

(** How an asynchronous call goes: its promise is resolved, is rejected,
    or stays pending for ever. *)
Inductive Answer (A : Type) :=
| Resolves (value : A)
| Rejects
| Pends.
Arguments Resolves {A} value.
Arguments Rejects {A}.
Arguments Pends {A}.

(** ** Strings *)

(** [s.split(c)] for a separator of one character. *)
Fixpoint split (c : Ascii.ascii) (s : string) : list string :=
  match s with
  | EmptyString => [EmptyString]
  | String a rest =>
      if decide (a = c) then EmptyString :: split c rest
      else match split c rest with
           | part :: parts => String a part :: parts
           | [] => [String a EmptyString]
           end
  end.

Definition comma : Ascii.ascii := Eval cbv in Ascii.ascii_of_N 44.

(** [s.split(',')[1]] *)
Definition afterComma (s : string) : option string :=
  split comma s !! 1.

(** The string has no comma. *)
Fixpoint commaFree (s : string) : bool :=
  match s with
  | EmptyString => true
  | String a rest => negb (bool_decide (a = comma)) && commaFree rest
  end.

Definition byte (a : Ascii.ascii) : N := Ascii.N_of_ascii a.

(** The number of bytes of the white space or line terminator that [s]
    starts with, 0 when it starts with none: TAB, LF, VT, FF, CR, SP,
    U+00A0, U+1680, U+2000 to U+200A, U+2028, U+2029, U+202F, U+205F,
    U+3000, U+FEFF. *)
Definition wsLength (s : string) : nat :=
  match s with
  | String a rest =>
      let a := byte a in
      if ((9 <=? a) && (a <=? 13) || (a =? 32))%N then 1
      else match rest with
           | String b rest' =>
               let b := byte b in
               if ((a =? 194) && (b =? 160))%N then 2
               else match rest' with
                    | String c _ =>
                        let c := byte c in
                        if ((a =? 225) && (b =? 154) && (c =? 128))%N then 3
                        else if ((a =? 226) && (b =? 128)
                                 && ((128 <=? c) && (c <=? 138) || (c =? 168)
                                     || (c =? 169) || (c =? 175)))%N then 3
                        else if ((a =? 226) && (b =? 129) && (c =? 159))%N
                             then 3
                        else if ((a =? 227) && (b =? 128) && (c =? 128))%N
                             then 3
                        else if ((a =? 239) && (b =? 187) && (c =? 191))%N
                             then 3
                        else 0
                    | EmptyString => 0
                    end
           | EmptyString => 0
           end
  | EmptyString => 0
  end.

Fixpoint dropBytes (n : nat) (s : string) : string :=
  match n, s with
  | S n, String _ rest => dropBytes n rest
  | _, _ => s
  end.

Fixpoint trimStartFrom (fuel : nat) (s : string) : string :=
  match fuel with
  | O => s
  | S fuel =>
      match wsLength s with
      | O => s
      | n => trimStartFrom fuel (dropBytes n s)
      end
  end.

(** [s.trimStart()] *)
Definition trimStart (s : string) : string :=
  trimStartFrom (String.length s) s.

(** The string is white space only. *)
Definition isBlank (s : string) : bool :=
  negb (Js.truthy_string (trimStart s)).

(** [s.trimEnd()] *)
Fixpoint trimEnd (s : string) : string :=
  match s with
  | EmptyString => EmptyString
  | String a rest => if isBlank s then EmptyString else String a (trimEnd rest)
  end.

(** [s.trim()] *)
Definition trim (s : string) : string := trimEnd (trimStart s).

Definition isQuote (a : Ascii.ascii) : bool :=
  bool_decide (String a EmptyString = Content.dq)
  || bool_decide (String a EmptyString = "'").

(** The first [replace] of [cleanUrl]: the text url and an opening
    parenthesis at the start go, with the quote after them when there is
    one. *)
Definition stripUrlOpen (s : string) : string :=
  if Content.startsWith s "url(" then
    match dropBytes 4 s with
    | String q rest => if isQuote q then rest else String q rest
    | EmptyString => EmptyString
    end
  else s.

(** The second [replace] of [cleanUrl]: the closing parenthesis at the
    end goes, with the quote before it when there is one. *)
Definition stripUrlClose (s : string) : string :=
  match rev (String.list_ascii_of_string s) with
  | last :: before =>
      if bool_decide (String last EmptyString = ")") then
        match before with
        | q :: before' =>
            if isQuote q then String.string_of_list_ascii (rev before')
            else String.string_of_list_ascii (rev before)
        | [] => EmptyString
        end
      else s
  | [] => s
  end.

(** [cleanUrl] of [getUrlBase64] *)
Definition cleanUrl (url : string) : string :=
  stripUrlClose (stripUrlOpen url).

(** ** Pictures *)

(** [getCanvasBase64(canvas)]; [None] is [null] or [undefined]. *)
Definition getCanvasBase64 (dom : Dom) (canvas : nat) : option string :=
  match toDataURL dom canvas with
  | Some dataUrl => afterComma dataUrl
  | None => None
  end.

(** [getUrlBase64(url)].  The promise of the reader is returned, not
    awaited: when reading fails, the rejection passes the [catch].  An
    [await] on a promise that never settles never returns. *)
Definition getUrlBase64 (fetch : string -> FetchOutcome) (url : string)
    : Answer (option string) :=
  if Content.startsWith url "data:image" then Resolves (afterComma url)
  else
    match fetch (cleanUrl url) with
    | NetworkError => Resolves None
    | FetchHangs => Pends
    | Response false _ => Resolves None
    | Response true BlobFails => Resolves None
    | Response true BlobHangs => Pends
    | Response true (ReadAs dataUrl) => Resolves (afterComma dataUrl)
    | Response true ReadFails => Rejects
    | Response true ReadHangs => Pends
    end.

Definition MIN_SIZE : float := 200.

Definition candidates (dom : Dom) : list nat :=
  querySelectorAll dom "img" ++ querySelectorAll dom "canvas"
  ++ querySelectorAll dom ".paper-container, .img-view, .answer-card".

Definition area (dom : Dom) (el : nat) : float :=
  (rectWidth dom el * rectHeight dom el)%float.

(** The element is not smaller than the minimum in either direction. *)
Definition largeEnough (dom : Dom) (el : nat) : bool :=
  negb (PrimFloat.ltb (rectWidth dom el) MIN_SIZE
        || PrimFloat.ltb (rectHeight dom el) MIN_SIZE).

(** The body of the [forEach]: [best] is [(maxArea, bestEl)]. *)
Definition visit (dom : Dom) (best : float * option nat) (el : nat)
    : float * option nat :=
  if PrimFloat.ltb (rectWidth dom el) MIN_SIZE
     || PrimFloat.ltb (rectHeight dom el) MIN_SIZE then best
  else if PrimFloat.ltb best.1 (area dom el) then (area dom el, Some el)
  else best.

(** [findLargestImageElement()] *)
Definition findLargestImageElement (dom : Dom) : option nat :=
  (fold_left (visit dom) (candidates dom) (0%float, None)).2.

(** What the loop of [findLargestImageElement] keeps: [best] holds the
    area of the element it names, which is large enough and was visited,
    and no element visited that is large enough has a larger area. *)
Definition largestOf (dom : Dom) (visited : list nat) (best : float * option nat)
    : Prop :=
  match best.2 with
  | Some el =>
      el ∈ visited /\ largeEnough dom el = true /\ best.1 = area dom el
      /\ PrimFloat.ltb 0 (area dom el) = true
  | None => best.1 = 0%float
  end
  /\ forall el, el ∈ visited -> largeEnough dom el = true ->
                PrimFloat.ltb best.1 (area dom el) = false.

(** ** scrapeData and checkReady *)

Definition nameSelectors : list string :=
  [ ".student-info .name"; ".stu-name"; ".username"; "#stuName";
    "span[title*=" +:+ Content.dq +:+ "姓名" +:+ Content.dq +:+ "]" ].

(** The loop over the name selectors, started with the name so far.
    [None]: [el.innerText.trim()] throws, the element found having no
    [innerText]. *)
Fixpoint scrapeName (dom : Dom) (selectors : list string)
    (studentName : string) : option string :=
  match selectors with
  | [] => Some studentName
  | sel :: rest =>
      match Content.querySelector (page dom) sel with
      | Some el =>
          match innerText dom el with
          | Some text =>
              if Js.truthy_string (trim text) then Some (trim text)
              else scrapeName dom rest studentName
          | None => None
          end
      | None => scrapeName dom rest studentName
      end
  end.

(** [for (const sel of selectors) { const el = document.querySelector(sel);
    if (el) { targetEl = el; break; } }] *)
Fixpoint firstMatch (dom : Dom) (selectors : list string)
    (targetEl : option nat) : option nat :=
  match selectors with
  | [] => targetEl
  | sel :: rest =>
      match Content.querySelector (page dom) sel with
      | Some el => Some el
      | None => firstMatch dom rest targetEl
      end
  end.

Inductive ScrapeResult :=
| ScrapeError (error : string)
| ScrapeData (data : PageContext).

Definition notFoundError : string :=
  "未在当前视图中找到符合条件的答题卡图片".

Definition noDataError : string :=
  "已定位到元素，但无法提取图片数据 (CORS限制或格式不支持)".

(** [scrapeData()]; [now] is [Date.now()].  An exception in the loop
    over the name selectors rejects the promise of the function. *)
Definition scrapeData (dom : Dom) (fetch : string -> FetchOutcome)
    (now : nat) : Answer ScrapeResult :=
  let platform := Content.detectPlatform (Content.hostname (page dom)) in
  match scrapeName dom nameSelectors "未知学生" with
  | None => Rejects
  | Some studentName =>
  let selectors := default [] (SELECTOR_CONFIGS platform) in
  let targetEl := firstMatch dom selectors None in
  let targetEl :=
    match targetEl with
    | Some el => Some el
    | None => findLargestImageElement dom
    end in
  match targetEl with
  | None => Resolves (ScrapeError notFoundError)
  | Some targetEl =>
      let imgBase64 :=
        if decide (Content.tagName (page dom) targetEl = "CANVAS") then
          Resolves (getCanvasBase64 dom targetEl)
        else if decide (Content.tagName (page dom) targetEl = "IMG") then
          getUrlBase64 fetch (src dom targetEl)
        else
          let bgImage := backgroundImage dom targetEl in
          if Js.truthy_string bgImage && negb (bool_decide (bgImage = "none"))
          then getUrlBase64 fetch bgImage
          else Resolves None in
      match imgBase64 with
      | Rejects => Rejects
      | Pends => Pends
      | Resolves None => Resolves (ScrapeError noDataError)
      | Resolves (Some imgBase64) =>
          if Js.truthy_string imgBase64 then
            Resolves (ScrapeData
                        {| platform := platform;
                           studentName := studentName;
                           answerImageBase64 := imgBase64;
                           timestamp := Some now |})
          else Resolves (ScrapeError noDataError)
      end
  end
  end.

Record ReadyStatus := mkReadyStatus {
  ready_success : bool;
  hasImage : bool;
  ready_platform : string
}.

(** The loop of [checkReady] over the selectors, started with [found]. *)
Fixpoint anyMatch (dom : Dom) (selectors : list string) (found : bool)
    : bool :=
  match selectors with
  | [] => found
  | sel :: rest =>
      match Content.querySelector (page dom) sel with
      | Some _ => true
      | None => anyMatch dom rest found
      end
  end.

(** [checkReady()] *)
Definition checkReady (dom : Dom) : ReadyStatus :=
  let platform := Content.detectPlatform (Content.hostname (page dom)) in
  let selectors := default [] (SELECTOR_CONFIGS platform) in
  let found := anyMatch dom selectors false in
  let found :=
    if negb found then
      match findLargestImageElement dom with
      | Some _ => true
      | None => found
      end
    else found in
  {| ready_success := true; hasImage := found; ready_platform := platform |}.

(** ** The message listener *)

Inductive Request :=
| PageData                                    (* REQUEST_PAGE_DATA *)
| CheckReady                                  (* CHECK_READY *)
| FillScore (score : float) (platform : option string)   (* FILL_SCORE *)
| Other.

Inductive Reply :=
| PageReply (response : GradingView.ScanResponse)
| ReadyReply (status : ReadyStatus)
| FillReply (result : Content.FillResult)
| NoReply.

(** The listener of [chrome.runtime.onMessage]: what [sendResponse] is
    called with, and what is done to the page.  [sendResponse] is not
    called when the promise of [scrapeData] is rejected or stays pending,
    nor when [tryFillScore] throws. *)
Definition onMessage (dom : Dom) (fetch : string -> FetchOutcome) (now : nat)
    (request : Request) : Reply * list Content.DomEffect :=
  match request with
  | PageData =>
      match scrapeData dom fetch now with
      | Resolves (ScrapeData data) =>
          (PageReply (GradingView.mkScanResponse true (Some data) None), [])
      | Resolves (ScrapeError error) =>
          (PageReply
             (GradingView.mkScanResponse false None
                (Some (Js.or_string error "未知抓取错误"))), [])
      | Rejects | Pends => (NoReply, [])
      end
  | CheckReady => (ReadyReply (checkReady dom), [])
  | FillScore score platform =>
      match Content.tryFillScore (page dom) score platform with
      | (Content.FillTypeError, effects) => (NoReply, effects)
      | (result, effects) => (FillReply result, effects)
      end
  | Other => (NoReply, [])
  end.

(** ** Notions and pages for the properties *)

(** [url(...)] as a computed style gives it, the address in quotes. *)
Definition cssUrl (quote address : string) : string :=
  "url(" +:+ quote +:+ address +:+ quote +:+ ")".

(** No selector for the name finds an element with a text that is not
    blank: every element found has a text, and it is blank. *)
Definition nameless (dom : Dom) : Prop :=
  forall sel el,
    sel ∈ nameSelectors ->
    Content.querySelector (page dom) sel = Some el ->
    exists text, innerText dom el = Some text /\ isBlank text = true.

(** The loop over the name selectors throws: a selector finds an element
    without [innerText], every element that a selector before it finds
    having a text that is empty once trimmed. *)
Definition textless (dom : Dom) : Prop :=
  exists before sel after el,
    nameSelectors = before ++ sel :: after
    /\ (forall s e,
          s ∈ before -> Content.querySelector (page dom) s = Some e ->
          exists text, innerText dom e = Some text /\ trim text = "")
    /\ Content.querySelector (page dom) sel = Some el
    /\ innerText dom el = None.

(** The element the picture is read from: the first match of the
    selectors of the platform, or else the largest picture. *)
Definition located (dom : Dom) : option nat :=
  match firstMatch dom
          (default []
             (SELECTOR_CONFIGS
                (Content.detectPlatform (Content.hostname (page dom)))))
          None with
  | Some el => Some el
  | None => findLargestImageElement dom
  end.

(** The address the picture of an element is fetched from: the [src] of
    an IMG; the background image of an element that is neither a CANVAS
    nor an IMG, when it has one. *)
Definition address (dom : Dom) (el : nat) : option string :=
  if decide (Content.tagName (page dom) el = "CANVAS") then None
  else if decide (Content.tagName (page dom) el = "IMG")
       then Some (src dom el)
  else if Js.truthy_string (backgroundImage dom el)
          && negb (bool_decide (backgroundImage dom el = "none"))
       then Some (backgroundImage dom el)
  else None.

(** The picture of an element: the export of a CANVAS, or what is fetched
    from the address. *)
Definition picture (dom : Dom) (fetch : string -> FetchOutcome) (el : nat)
    : Answer (option string) :=
  if decide (Content.tagName (page dom) el = "CANVAS")
  then Resolves (getCanvasBase64 dom el)
  else match address dom el with
       | Some url => getUrlBase64 fetch url
       | None => Resolves None
       end.

(** The request neither gives a picture nor ends in an error that is
    caught: it never settles, or the body never arrives, or the reader
    fails or never fires. *)
Definition unanswered (o : FetchOutcome) : bool :=
  match o with
  | FetchHangs => true
  | Response true BlobHangs => true
  | Response true ReadFails => true
  | Response true ReadHangs => true
  | _ => false
  end.

(** A page of the first platform: element 1 is the picture of the answer
    sheet, an IMG with a data URL; element 2 holds the name of the student
    between blanks, when the page shows a name. *)
Definition sheetDom (named : bool) : Dom :=
  {| page :=
       {| Content.hostname := "www.zhixue.com";
          Content.querySelector :=
            fun sel =>
              if decide (sel = "#paperImg") then Some 1
              else if decide (sel = ".stu-name")
                   then (if named then Some 2 else None)
              else None;
          Content.offsetParentIsNull := fun _ => false;
          Content.tagName := fun el => if decide (el = 1) then "IMG" else "SPAN";
          Content.activeElement := None |};
     querySelectorAll := fun sel => if decide (sel = "img") then [1] else [];
     innerText := fun el => Some (if decide (el = 2) then " 张三 　" else "");
     rectWidth := fun _ => 800%float;
     rectHeight := fun _ => 600%float;
     src := fun _ => "data:image/png;base64,aW1hZ2U=";
     toDataURL := fun _ => None;
     backgroundImage := fun _ => "none" |}.

(** A page of the first platform on which no selector of the platform
    finds the sheet.  It has four pictures: an icon of 48 by 48, a sheet
    of 800 by 600, a sheet of 1000 by 700 and one more of the same size. *)
Definition picturesDom : Dom :=
  {| page :=
       {| Content.hostname := "www.zhixue.com";
          Content.querySelector := fun _ => None;
          Content.offsetParentIsNull := fun _ => false;
          Content.tagName := fun _ => "IMG";
          Content.activeElement := None |};
     querySelectorAll :=
       fun sel => if decide (sel = "img") then [1; 2; 3; 4] else [];
     innerText := fun _ => Some "";
     rectWidth :=
       fun el => if decide (el = 1) then 48%float
                 else if decide (el = 2) then 800%float else 1000%float;
     rectHeight :=
       fun el => if decide (el = 1) then 48%float
                 else if decide (el = 2) then 600%float else 700%float;
     src := fun _ => "https://www.zhixue.com/sheet.png";
     toDataURL := fun _ => None;
     backgroundImage := fun _ => "none" |}.

(** A page without pictures, on a host of no known platform. *)
Definition blankDom : Dom :=
  {| page :=
       {| Content.hostname := "example.org";
          Content.querySelector := fun _ => None;
          Content.offsetParentIsNull := fun _ => false;
          Content.tagName := fun _ => "DIV";
          Content.activeElement := None |};
     querySelectorAll := fun _ => [];
     innerText := fun _ => Some "";
     rectWidth := fun _ => 0%float;
     rectHeight := fun _ => 0%float;
     src := fun _ => "";
     toDataURL := fun _ => None;
     backgroundImage := fun _ => "none" |}.

(** The loop of [Scenario.ready] after a paper without a readable name
    was submitted, with the next scan in flight. *)
Definition runningAfterNameless : GradingView.State :=
  GradingView.scanPage (GradingView.render Scenario.ready)
    (GradingView.set_lastGradedNameRef (Some "未知学生")
       (GradingView.set_isBatchRunningRef true
          (GradingView.set_isBatchRunning true Scenario.ready))).

(** The tabs query gives [tab], the content script replies with
    [response], and the timer that was set fires. *)
Definition replied (tab : nat) (response : GradingView.ScanResponse)
    : list GradingView.Event :=
  [ GradingView.Resume 0 (GradingView.Tabs (Some tab));
    GradingView.Resume 0 (GradingView.PageResponse false (Some response));
    GradingView.Resume 0 (GradingView.Fires 0 "") ].

(** The page [sheetDom] with the name drawn in an SVG element, which has
    no [innerText]. *)
Definition svgNameDom : Dom :=
  {| page := page (sheetDom true);
     querySelectorAll := querySelectorAll (sheetDom true);
     innerText := fun _ => None;
     rectWidth := rectWidth (sheetDom true);
     rectHeight := rectHeight (sheetDom true);
     src := src (sheetDom true);
     toDataURL := toDataURL (sheetDom true);
     backgroundImage := backgroundImage (sheetDom true) |}.

(** No request gets through. *)
Definition offline : string -> FetchOutcome := fun _ => NetworkError.

(** No request is ever answered. *)
Definition stalled : string -> FetchOutcome := fun _ => FetchHangs.

(** Every request is answered, and no body can be read. *)
Definition readerBroken : string -> FetchOutcome :=
  fun _ => Response true ReadFails.

End Scrape.

(* ===================================================================== *)
(** * App.tsx, SettingsView.tsx, RubricDrawer: what is kept in localStorage *)
(* ===================================================================== *)

Module App.
Import Json.

Inductive Tab := Grading | Analysis | Settings.

(** The state of [App].  [gradingStrategy] has the type [GradingStrategy]
    in the source; what it holds at run time is the string that was
    stored, so it is kept as a string here. *)
Record State := mkState {
  activeTab : Tab;
  isRubricDrawerOpen : bool;
  isRubricConfigured : bool;
  rubricContent : jsstring;
  gradingStrategy : jsstring
}.

(** The values of the [useState] calls. *)
Definition initial : State :=
  mkState Grading false false [] (js "pro").

Definition RUBRIC_KEY : jsstring := js "app_rubric_content".
Definition STRATEGY_KEY : jsstring := js "app_grading_strategy".

(** The string of a strategy. *)
Definition strategyText (g : GradingStrategy) : jsstring :=
  match g with
  | flash => js "flash"
  | pro => js "pro"
  | reasoning => js "reasoning"
  end.

(** How the service takes a strategy string: [getModelName] and
    [assessStudentAnswer] tell 'reasoning' and 'pro' by name and take any
    other text the way they take 'flash' (the [default] of the switch, and
    no thinking budget). *)
Definition strategyRead (text : jsstring) : GradingStrategy :=
  if decide (text = js "reasoning") then reasoning
  else if decide (text = js "pro") then pro
  else flash.

(** White space and line terminators, as code units. *)
Definition isTrimmed (c : N) : bool :=
  ((9 <=? c) && (c <=? 13) || (c =? 32) || (c =? 160) || (c =? 5760)
   || (8192 <=? c) && (c <=? 8202) || (c =? 8232) || (c =? 8233)
   || (c =? 8239) || (c =? 8287) || (c =? 12288) || (c =? 65279))%N.

Fixpoint trimStart (s : jsstring) : jsstring :=
  match s with
  | c :: rest => if isTrimmed c then trimStart rest else s
  | [] => []
  end.

(** [s.trim()] *)
Definition trim (s : jsstring) : jsstring :=
  rev (trimStart (rev (trimStart s))).

(** The effect that runs when [App] is mounted. *)
Definition mount (localStorage : GeminiService.Storage) (s : State) : State :=
  let s :=
    match localStorage !! RUBRIC_KEY with
    | Some savedRubric =>
        if truthy savedRubric then
          mkState (activeTab s) (isRubricDrawerOpen s) true savedRubric
            (gradingStrategy s)
        else s
    | None => s
    end in
  match localStorage !! STRATEGY_KEY with
  | Some savedStrategy =>
      if truthy savedStrategy then
        let strategy :=
          if bool_decide (savedStrategy = js "gpt4")
             || bool_decide (savedStrategy = js "dual") then js "pro"
          else if bool_decide (savedStrategy = js "gemini") then js "flash"
          else savedStrategy in
        mkState (activeTab s) (isRubricDrawerOpen s) (isRubricConfigured s)
          (rubricContent s) strategy
      else s
  | None => s
  end.

(** The panel and the storage of the browser. *)
Record World := mkWorld {
  app : State;
  localStorage : GeminiService.Storage
}.

(** [handleSaveRubric(text)].  [written] tells that
    [localStorage.setItem] returns; when it throws (the quota is
    exceeded), the state is set already, nothing is stored, and the
    drawer is not closed. *)
Definition handleSaveRubric (text : jsstring) (written : bool) (w : World)
    : World :=
  let s := app w in
  if (0 <? length (trim text))%nat then
    if written then
      mkWorld (mkState (activeTab s) false true text (gradingStrategy s))
        (<[ RUBRIC_KEY := text ]> (localStorage w))
    else
      mkWorld (mkState (activeTab s) (isRubricDrawerOpen s) true text
                 (gradingStrategy s))
        (localStorage w)
  else
    mkWorld (mkState (activeTab s) false (isRubricConfigured s)
               (rubricContent s) (gradingStrategy s))
      (localStorage w).

(** [handleStrategyChange(newStrategy)]; the state is set before
    [setItem] is called, which stores the strategy when it returns
    ([written]). *)
Definition handleStrategyChange (newStrategy : GradingStrategy)
    (written : bool) (w : World) : World :=
  let s := app w in
  mkWorld (mkState (activeTab s) (isRubricDrawerOpen s)
             (isRubricConfigured s) (rubricContent s)
             (strategyText newStrategy))
    (if written
     then <[ STRATEGY_KEY := strategyText newStrategy ]> (localStorage w)
     else localStorage w).

(** What the operator does to the panel; [written] tells whether the
    [setItem] of the action returns or throws. *)
Inductive Action :=
| ShowTab (tab : Tab)                        (* a button of the top bar *)
| OpenRubric                                 (* onOpenRubric *)
| CloseRubric                                (* the drawer's back button *)
| SaveRubric (text : jsstring) (written : bool)
                                             (* the drawer's save button *)
| ChooseStrategy (strategy : GradingStrategy) (written : bool)
                                             (* a strategy option *)
| SaveConfig (config : GeminiService.AppConfig) (written : bool)
                                             (* handleSave *)
| ClearCache              (* localStorage.clear(); window.location.reload() *)
| Reload.                                    (* the panel is opened anew *)

(** The writes of the action reach the storage. *)
Definition isWritten (a : Action) : bool :=
  match a with
  | SaveRubric _ written => written
  | ChooseStrategy _ written => written
  | SaveConfig _ written => written
  | _ => true
  end.

Definition act (a : Action) (w : World) : World :=
  let s := app w in
  match a with
  | ShowTab tab =>
      mkWorld (mkState tab (isRubricDrawerOpen s) (isRubricConfigured s)
                 (rubricContent s) (gradingStrategy s)) (localStorage w)
  | OpenRubric =>
      mkWorld (mkState (activeTab s) true (isRubricConfigured s)
                 (rubricContent s) (gradingStrategy s)) (localStorage w)
  | CloseRubric =>
      mkWorld (mkState (activeTab s) false (isRubricConfigured s)
                 (rubricContent s) (gradingStrategy s)) (localStorage w)
  | SaveRubric text written => handleSaveRubric text written w
  | ChooseStrategy strategy written =>
      handleStrategyChange strategy written w
  | SaveConfig config written =>
      mkWorld s (if written
                 then GeminiService.saveAppConfig config (localStorage w)
                 else localStorage w)
  | ClearCache => mkWorld (mount ∅ initial) ∅
  | Reload => mkWorld (mount (localStorage w) initial) (localStorage w)
  end.

Definition acts (actions : list Action) (w : World) : World :=
  fold_left (fun w a => act a w) actions w.

(** The panel as it is installed: nothing is stored. *)
Definition fresh : World := mkWorld (mount ∅ initial) ∅.

(** What of the state is meant to outlast the panel. *)
Definition persistent (s : State) : bool * jsstring * jsstring :=
  (isRubricConfigured s, rubricContent s, gradingStrategy s).

(** What the panel shows is what is stored. *)
Definition stored (w : World) : Prop :=
  (if isRubricConfigured (app w)
   then localStorage w !! RUBRIC_KEY = Some (rubricContent (app w))
        /\ truthy (trim (rubricContent (app w))) = true
   else localStorage w !! RUBRIC_KEY = None
        /\ rubricContent (app w) = [])
  /\ exists strategy,
       gradingStrategy (app w) = strategyText strategy
       /\ (localStorage w !! STRATEGY_KEY = Some (strategyText strategy)
           \/ localStorage w !! STRATEGY_KEY = None /\ strategy = pro).

(** The rubric shown and the rubric stored are sound: the configured flag
    is set exactly when the text shown is not blank, and a stored text is
    not blank. *)
Definition rubricSound (w : World) : Prop :=
  isRubricConfigured (app w) = truthy (trim (rubricContent (app w)))
  /\ forall text, localStorage w !! RUBRIC_KEY = Some text ->
                  truthy (trim text) = true.

End App.

Module SettingsView.
Import Json.

(** [ModelProviderType] of types.ts *)
Inductive ModelProvider := openai | google | zhipu.

Definition providerText (p : ModelProvider) : jsstring :=
  match p with
  | openai => js "openai"
  | google => js "google"
  | zhipu => js "zhipu"
  end.

(** [PROVIDER_DEFAULTS[p].endpoint] *)
Definition defaultEndpoint (p : ModelProvider) : jsstring :=
  match p with
  | openai => js "https://api.openai.com/v1/chat/completions"
  | google => []
  | zhipu => js "https://open.bigmodel.cn/api/paas/v4/chat/completions"
  end.

(** [PROVIDER_DEFAULTS[p].model] *)
Definition defaultModel (p : ModelProvider) : jsstring :=
  match p with
  | openai => js "gpt-4o"
  | google => js "gemini-2.5-flash"
  | zhipu => js "glm-4-plus"
  end.

Inductive TestStatus := idle | testing | success | fail.

Record State := mkState {
  config : GeminiService.AppConfig;
  isSaving : bool;
  testStatus : TestStatus
}.

(** [handleProviderChange(p)] *)
Definition handleProviderChange (p : ModelProvider) (s : State) : State :=
  mkState
    {| GeminiService.provider := providerText p;
       GeminiService.endpoint := defaultEndpoint p;
       GeminiService.modelName := defaultModel p;
       GeminiService.apiKey := GeminiService.apiKey (config s) |}
    (isSaving s) idle.

(** The three text inputs. *)
Definition changeEndpoint (value : jsstring) (s : State) : State :=
  mkState
    {| GeminiService.provider := GeminiService.provider (config s);
       GeminiService.endpoint := value;
       GeminiService.modelName := GeminiService.modelName (config s);
       GeminiService.apiKey := GeminiService.apiKey (config s) |}
    (isSaving s) (testStatus s).

Definition changeModelName (value : jsstring) (s : State) : State :=
  mkState
    {| GeminiService.provider := GeminiService.provider (config s);
       GeminiService.endpoint := GeminiService.endpoint (config s);
       GeminiService.modelName := value;
       GeminiService.apiKey := GeminiService.apiKey (config s) |}
    (isSaving s) (testStatus s).

Definition changeApiKey (value : jsstring) (s : State) : State :=
  mkState
    {| GeminiService.provider := GeminiService.provider (config s);
       GeminiService.endpoint := GeminiService.endpoint (config s);
       GeminiService.modelName := GeminiService.modelName (config s);
       GeminiService.apiKey := value |}
    (isSaving s) (testStatus s).

(** [handleSave()], up to the timer that ends the feedback; [written]
    tells that the [setItem] of [saveAppConfig] returns (when it throws,
    nothing is stored). *)
Definition handleSave (written : bool) (s : State)
    (localStorage : GeminiService.Storage)
    : State * GeminiService.Storage :=
  (mkState (config s) true (testStatus s),
   if written then GeminiService.saveAppConfig (config s) localStorage
   else localStorage).

(** The configuration the service works with: [getAppConfig()] read at
    its declared type. *)
Definition configInUse (localStorage : GeminiService.Storage)
    (envKey : option jsstring) : option GeminiService.AppConfig :=
  match GeminiService.getAppConfig localStorage envKey with
  | GeminiService.Returns loaded => GeminiService.fromJson loaded
  | GeminiService.Throws _ => None
  end.

End SettingsView.

Module RubricDrawer.
Import Json.

Inductive Status := idle | processing | done.

Record State := mkState {
  qImage : option jsstring;
  aImage : option jsstring;
  rubricText : jsstring;
  status : Status
}.

(** How the call of the model ends: it fails (the request is rejected,
    the body is not JSON), or it gives the text of the reply, [None] when
    the reply has none. *)
Inductive Reply :=
| CallFails (error : string)
| Replies (text : option jsstring).

(** 生成评分标准失败。 *)
Definition noTextGoogle : jsstring :=
  [29983; 25104; 35780; 20998; 26631; 20934; 22833; 36133; 12290]%N.

(** 生成失败 *)
Definition noTextOther : jsstring := [29983; 25104; 22833; 36133]%N.

(** 生成评分标准时出错，请检查 API Key。 *)
Definition generationError : jsstring :=
  [29983; 25104; 35780; 20998; 26631; 20934; 26102; 20986; 38169; 65292;
   35831; 26816; 26597; 32; 65; 80; 73; 32; 75; 101; 121; 12290]%N.

(** [text || fallback], [text] being [undefined] when there is none. *)
Definition textOr (text : option jsstring) (fallback : jsstring) : jsstring :=
  match text with
  | Some text => or_else text fallback
  | None => fallback
  end.

(** [generateRubricFromImages(questionImageBase64, answerImageBase64)], on
    the configuration read and the end of the call of the model. *)
Definition generateRubricFromImages (config : GeminiService.AppConfig)
    (envKey : option jsstring) (reply : Reply)
    : GeminiService.Completion jsstring :=
  if decide (GeminiService.provider config = js "google") then
    match GeminiService.getGoogleClient (GeminiService.apiKey config) envKey
    with
    | None => GeminiService.Throws "未配置 Google API Key"
    | Some _ =>
        match reply with
        | CallFails error => GeminiService.Throws error
        | Replies text => GeminiService.Returns (textOr text noTextGoogle)
        end
    end
  else
    match reply with
    | CallFails error => GeminiService.Throws error
    | Replies text => GeminiService.Returns (textOr text noTextOther)
    end.

(** [handleGenerate()] after its [await]. *)
Definition handleGenerate (generated : GeminiService.Completion jsstring)
    (s : State) : State :=
  match qImage s, aImage s with
  | Some q, Some a =>
      if truthy q && truthy a then
        match generated with
        | GeminiService.Returns text =>
            mkState (qImage s) (aImage s) text done
        | GeminiService.Throws _ =>
            mkState (qImage s) (aImage s) generationError idle
        end
      else s
  | _, _ => s
  end.

(** The save button: [onSave(rubricText)], which is [handleSaveRubric]. *)
Definition save (s : State) (written : bool) (w : App.World) : App.World :=
  App.handleSaveRubric (rubricText s) written w.

(** The call gives no rubric: it fails, or the reply has no text, or the
    provider is Google and there is no key to build the client with. *)
Definition givesNoRubric (config : GeminiService.AppConfig)
    (envKey : option jsstring) (reply : Reply) : bool :=
  match reply with
  | CallFails _ => true
  | Replies None => true
  | Replies (Some text) => negb (truthy text)
  end
  || bool_decide (GeminiService.provider config = js "google")
     && bool_decide
          (GeminiService.getGoogleClient (GeminiService.apiKey config) envKey
           = None).

(** Both pictures are loaded. *)
Definition picturesLoaded (s : State) : bool :=
  match qImage s, aImage s with
  | Some q, Some a => truthy q && truthy a
  | _, _ => false
  end.

(** The drawer with the two pictures loaded. *)
Definition loaded : State :=
  mkState (Some (js "cXVlc3Rpb24=")) (Some (js "YW5zd2Vy")) [] idle.

End RubricDrawer.

(* ===================================================================== *)
(** * Properties of the history list *)
(* ===================================================================== *)

Section HistoryFacts.
Import History.

Lemma pop_snoc {A} (l : list A) (x : A) : pop (l ++ [x]) = l.
Proof. unfold pop. apply removelast_last. Qed.

Lemma pop_length {A} (l : list A) : length (pop l) = pred (length l).
Proof.
  destruct l as [|x l] using rev_ind; [done|].
  rewrite pop_snoc, length_app. simpl. lia.
Qed.

Lemma push_capped_below {A} (item : A) l :
  length l < 500 -> push_capped item l = item :: l.
Proof.
  intros Hlen. unfold push_capped.
  destruct (Nat.ltb_spec 500 (length (item :: l))) as [Hgt|_]; [|done].
  simpl in Hgt. lia.
Qed.

Lemma push_capped_full {A} (item : A) l :
  500 <= length l -> push_capped item l = pop (item :: l).
Proof.
  intros Hlen. unfold push_capped.
  destruct (Nat.ltb_spec 500 (length (item :: l))) as [_|Hle]; [done|].
  simpl in Hle. lia.
Qed.

Lemma map_item_compose {A B C} (f : A -> B) (g : B -> C) b :
  map_item g (map_item f b) = map_item (g ∘ f) b.
Proof.
  destruct b as [l sc mx c n area]. unfold map_item. cbn. f_equal.
  destruct area as [area|]; [|done]. cbn. f_equal.
  induction area as [|x area IH]; [done|]. cbn. by rewrite IH.
Qed.

Lemma map_result_compose {A B C} (f : A -> B) (g : B -> C) r :
  map_result g (map_result f r) = map_result (g ∘ f) r.
Proof.
  destruct r as [i n c no sc mx cm bd]. unfold map_result. cbn. f_equal.
  induction bd as [|b bd IH]; [done|].
  cbn. by rewrite map_item_compose, IH.
Qed.

(** The new entry as the stored text gives it back. *)
Lemma written_element item :
  written (element item) = map_result Js.json_number item.
Proof. unfold written, element. by rewrite map_result_compose. Qed.

End HistoryFacts.

(** C4.  A stored history of at most 500 entries, and a write that the
    storage takes: [recordHistory] stores the list with the new entry (the
    displayed result, with the submitted score and name and a fresh
    identifier) at its head, every entry as the stored text gives it back.
    Below 500 entries no entry is dropped; at 500 entries the last one,
    which is the oldest, is the one entry dropped.  The stored list never
    has more than 500 entries; when the storage refuses the write, it is
    the list that was there. *)
Theorem recordHistory_newest_first_capped
    (result : StudentResult) (score_ : float) (studentName_ now : string)
    (l : list StoredResult) :
  length l <= 500 ->
  let item :=
    Notions.asStored
      {| ident := now; name := studentName_; className := className result;
         studentNo := studentNo result;
         score := score_; maxScore := maxScore result;
         comment := comment result; breakdown := breakdown result |} in
  (exists l',
     History.recordHistory (Some result) score_ studentName_ now false
       (Some (HistoryArray l)) = Some (HistoryArray l')
     /\ head l' = Some item
     /\ length l' <= 500
     /\ (length l < 500 -> l' = item :: map Notions.rewritten l)
     /\ (length l = 500 ->
         exists oldest,
           last l = Some oldest
           /\ l' ++ [Notions.rewritten oldest]
              = item :: map Notions.rewritten l))
  /\ History.recordHistory (Some result) score_ studentName_ now true
       (Some (HistoryArray l)) = Some (HistoryArray l).
Proof.
  intros Hlen item. split; [|done].
  exists (map History.written
            (History.push_capped
               (History.element
                  (History.historyItem result score_ studentName_ now)) l)).
  split; [done|].
  assert (History.written
            (History.element
               (History.historyItem result score_ studentName_ now)) = item)
    as Hitem by apply written_element.
  destruct (decide (length l < 500)) as [Hlt|Hge].
  - rewrite push_capped_below by done. cbn [map]. rewrite Hitem.
    split_and!; [done | simpl; rewrite length_map; lia | done | intros; lia].
  - assert (length l = 500) as H500 by lia.
    rewrite push_capped_full by lia.
    destruct l as [|x l] using rev_ind; [simpl in H500; lia|]. clear IHl.
    rewrite app_comm_cons.
    rewrite pop_snoc. rewrite length_app in H500. simpl in H500.
    cbn [map]. rewrite Hitem.
    split_and!; [done | simpl; rewrite length_map; lia | intros; lia |].
    intros _. exists x. split; [apply last_snoc|].
    by rewrite map_app.
Qed.

Lemma recordHistory_newest_first_capped_witness :
  exists l',
    History.recordHistory
      (Some (mkStudentResult "1" "auto" None None 7%float 10%float "ok" []))
      8 "A" "2" false (Some (HistoryArray Scenario.fullHistory))
    = Some (HistoryArray l')
    /\ l' ++ [Scenario.entry 5 10]
       = mkStudentResult "2" "A" None None (Some 8%float) (Some 10%float)
           "ok" []
         :: Scenario.fullHistory.
Proof.
  destruct (recordHistory_newest_first_capped
              (mkStudentResult "1" "auto" None None 7%float 10%float "ok" [])
              8 "A" "2" Scenario.fullHistory)
    as [(l' & Hrec & _ & _ & _ & Hfull) _]; [vm_compute; lia|].
  destruct (Hfull eq_refl) as (oldest & Hlast & Hl').
  exists l'. split; [exact Hrec|].
  unfold Scenario.fullHistory in Hlast. rewrite last_snoc in Hlast.
  injection Hlast as <-. exact Hl'.
Defined.

(* ===================================================================== *)
(** * The order of the numbers *)
(* ===================================================================== *)

Section FloatOrder.

Lemma SFltb_irrefl x : SpecFloat.SFltb x x = false.
Proof.
  unfold SpecFloat.SFltb, SpecFloat.SFcompare.
  destruct x as [s|s| |s m e]; try done.
  - by destruct s.
  - destruct s; rewrite Z.compare_refl, Pos.compare_cont_refl; done.
Qed.

Lemma SFltb_trans x y z :
  SpecFloat.SFltb x y = true -> SpecFloat.SFltb y z = true ->
  SpecFloat.SFltb x z = true.
Proof.
  unfold SpecFloat.SFltb, SpecFloat.SFcompare.
  destruct x as [sx|sx| |sx mx ex], y as [sy|sy| |sy my ey],
    z as [sz|sz| |sz mz ez];
    try destruct sx; try destruct sy; try destruct sz; try done.
  - destruct (Z.compare_spec ex ey), (Z.compare_spec ey ez),
      (Z.compare_spec ex ez); subst; try done; try lia.
    change (PosDef.Pos.compare_cont Eq) with Pos.compare.
    destruct (Pos.compare_spec mx my), (Pos.compare_spec my mz),
      (Pos.compare_spec mx mz); subst; cbn; try done; lia.
  - destruct (Z.compare_spec ex ey), (Z.compare_spec ey ez),
      (Z.compare_spec ex ez); subst; try done; try lia.
    change (PosDef.Pos.compare_cont Eq) with Pos.compare.
    destruct (Pos.compare_spec mx my), (Pos.compare_spec my mz),
      (Pos.compare_spec mx mz); subst; cbn; try done; lia.
Qed.

(** Of two numbers, the first of which is below some number and the second
    of which is above some number: [a <= x] is the negation of [x < a]. *)
Lemma SFleb_negb_ltb a x b c :
  SpecFloat.SFltb x b = true -> SpecFloat.SFltb c a = true ->
  SpecFloat.SFleb a x = negb (SpecFloat.SFltb x a).
Proof.
  unfold SpecFloat.SFltb, SpecFloat.SFleb, SpecFloat.SFcompare.
  destruct x as [sx|sx| |sx mx ex], a as [sa|sa| |sa ma ea];
    try destruct sx; try destruct sa; try done;
    try (by destruct b as [?|[]| |[] ? ?]);
    try (by destruct c as [?|[]| |[] ? ?]).
  - intros _ _. rewrite (Z.compare_antisym ea ex).
    destruct (Z.compare_spec ea ex); cbn; try done.
    change (PosDef.Pos.compare_cont Eq) with Pos.compare.
    rewrite (Pos.compare_antisym ma mx).
    by destruct (Pos.compare_spec ma mx).
  - intros _ _. rewrite (Z.compare_antisym ea ex).
    destruct (Z.compare_spec ea ex); cbn; try done.
    change (PosDef.Pos.compare_cont Eq) with Pos.compare.
    rewrite (Pos.compare_antisym ma mx).
    by destruct (Pos.compare_spec ma mx).
Qed.

Lemma ltb_irrefl x : PrimFloat.ltb x x = false.
Proof. rewrite FloatAxioms.ltb_spec. apply SFltb_irrefl. Qed.

Lemma ltb_trans x y z :
  PrimFloat.ltb x y = true -> PrimFloat.ltb y z = true ->
  PrimFloat.ltb x z = true.
Proof. rewrite !FloatAxioms.ltb_spec. apply SFltb_trans. Qed.

Lemma leb_negb_ltb a x b c :
  PrimFloat.ltb x b = true -> PrimFloat.ltb c a = true ->
  PrimFloat.leb a x = negb (PrimFloat.ltb x a).
Proof.
  rewrite !FloatAxioms.ltb_spec, FloatAxioms.leb_spec.
  apply SFleb_negb_ltb.
Qed.

End FloatOrder.

(* ===================================================================== *)
(** * Properties of calculateStats *)
(* ===================================================================== *)

Section StatsFacts.
Import AnalysisView Scenario.

Lemma totalScore_from acc (history history' : list StoredResult) :
  map score history = map score history' ->
  fold_left (fun acc curr => (acc + Js.to_number (score curr))%float)
    history acc
  = fold_left (fun acc curr => (acc + Js.to_number (score curr))%float)
      history' acc.
Proof.
  revert acc history'.
  induction history as [|e history IH]; intros acc [|e' history'] Hmap;
    simplify_eq/=; [done|].
  rewrite H. by apply IH.
Qed.

Lemma passCount_scores threshold (history history' : list StoredResult) :
  map score history = map score history' ->
  passCount threshold history = passCount threshold history'.
Proof.
  unfold passCount. revert history'.
  induction history as [|e history IH]; intros [|e' history'] Hmap;
    simplify_eq/=; [done|].
  rewrite H. specialize (IH _ H0).
  destruct (Js.geb (Js.to_number (score e')) threshold); simpl; by rewrite IH.
Qed.

Lemma bucketOf_bound e : bucketOf e < 4.
Proof. unfold bucketOf. repeat case_match; lia. Qed.

Lemma bucketAt_bump buckets i j :
  j < length buckets ->
  bucketAt (bump j buckets) i
  = bucketAt buckets i + (if Nat.eqb j i then 1 else 0).
Proof.
  intros Hj. unfold bump, bucketAt.
  destruct (lookup_lt_is_Some_2 buckets j Hj) as [n Hn]. rewrite Hn.
  destruct (Nat.eqb_spec j i) as [->|Hne].
  - rewrite list_lookup_insert_eq by done. rewrite Hn. simpl. lia.
  - rewrite list_lookup_insert_ne by done. lia.
Qed.

Lemma bump_length buckets j : length (bump j buckets) = length buckets.
Proof. unfold bump. case_match; [by rewrite length_insert|done]. Qed.

Lemma fillBuckets_from buckets history i :
  length buckets = 4 ->
  bucketAt (fold_left (fun buckets s => bump (bucketOf s) buckets)
                      history buckets) i
  = bucketAt buckets i + inBucket i history.
Proof.
  revert buckets. unfold inBucket.
  induction history as [|e history IH]; intros buckets Hlen; simpl; [lia|].
  rewrite IH by (by rewrite bump_length).
  rewrite bucketAt_bump by (rewrite Hlen; apply bucketOf_bound).
  destruct (Nat.eqb (bucketOf e) i); simpl; lia.
Qed.

Lemma fillBuckets_counts history i :
  bucketAt (fillBuckets history) i = inBucket i history.
Proof.
  unfold fillBuckets. rewrite fillBuckets_from by done.
  unfold bucketAt. by destruct i as [|[|[|[|i]]]].
Qed.

(** The tests of the four buckets, by the ratio alone. *)
Lemma bucketOf_ratio e :
  Nat.eqb (bucketOf e) 0 = PrimFloat.ltb (ratio e) 0.6
  /\ Nat.eqb (bucketOf e) 1
     = PrimFloat.leb 0.6 (ratio e) && PrimFloat.ltb (ratio e) 0.75
  /\ Nat.eqb (bucketOf e) 2
     = PrimFloat.leb 0.75 (ratio e) && PrimFloat.ltb (ratio e) 0.9
  /\ Nat.eqb (bucketOf e) 3 = negb (PrimFloat.ltb (ratio e) 0.9).
Proof.
  unfold bucketOf. fold (ratio e). generalize (ratio e). intros x.
  destruct (PrimFloat.ltb x 0.6) eqn:H6.
  - assert (PrimFloat.ltb x 0.75 = true) as H75
      by (by eapply ltb_trans; [exact H6|]).
    assert (PrimFloat.ltb x 0.9 = true) as H9
      by (by eapply ltb_trans; [exact H6|]).
    rewrite H75, H9.
    rewrite (leb_negb_ltb 0.6 x 0.75 0) by done.
    rewrite (leb_negb_ltb 0.75 x 0.9 0) by done.
    by rewrite H6, H75.
  - destruct (PrimFloat.ltb x 0.75) eqn:H75.
    + assert (PrimFloat.ltb x 0.9 = true) as H9
        by (by eapply ltb_trans; [exact H75|]).
      rewrite H9.
      rewrite (leb_negb_ltb 0.6 x 0.75 0) by done.
      rewrite (leb_negb_ltb 0.75 x 0.9 0) by done.
      by rewrite H6, H75.
    + destruct (PrimFloat.ltb x 0.9) eqn:H9.
      * rewrite (leb_negb_ltb 0.75 x 0.9 0) by done.
        rewrite H75, andb_false_r. done.
      * by rewrite !andb_false_r.
Qed.

Lemma inBucket_ratios i test history :
  (forall e, Nat.eqb (bucketOf e) i = test (ratio e)) ->
  inBucket i history = ratios test history.
Proof.
  intros Htest. unfold inBucket, ratios.
  induction history as [|e history IH]; [done|].
  cbn [List.filter]. rewrite Htest.
  destruct (test (ratio e)); cbn [length]; by rewrite IH.
Qed.

End StatsFacts.

(** C5, as the specification has it: the buckets of the example history
    would be 待加油:0, 及格:1, 良好:1, 优秀:1.  They are not: 5 out of 10 is
    a ratio of 0.5, below 0.6, and is counted under 待加油. *)
Lemma example_buckets_not_as_specified :
  Scenario.bucketCounts
    (AnalysisView.stats_of (Scenario.entry 8 10)
       [Scenario.entry 5 10; Scenario.entry 9 10])
  <> [("待加油", 0); ("及格", 1); ("良好", 1); ("优秀", 1)].
Proof. vm_compute. discriminate. Qed.

(** C5, amended.  For a history whose entries have the scores 8, 5 and 9
    out of 10, in this order: the average is 7.333333333333333, which is
    7.33 to two decimals; the pass threshold is 6 and the pass rate
    66.66666666666666, which is 66.7 to one decimal; the buckets are
    待加油:1, 及格:0, 良好:1, 优秀:1. *)
Theorem example_statistics (history : list StoredResult) :
  Scenario.marks history
  = [(Some 8, Some 10); (Some 5, Some 10); (Some 9, Some 10)]%float ->
  exists first rest st,
    history = first :: rest
    /\ AnalysisView.calculateStats (Some (HistoryArray history))
       = AnalysisView.Computed st
    /\ AnalysisView.avgScore st = 7.333333333333333%float
    /\ Scenario.within 7.325 7.335 (AnalysisView.avgScore st) = true
    /\ AnalysisView.passThreshold first = 6%float
    /\ AnalysisView.passRate st = 66.66666666666666%float
    /\ Scenario.within 66.65 66.75 (AnalysisView.passRate st) = true
    /\ Scenario.bucketCounts st
       = [("待加油", 1); ("及格", 0); ("良好", 1); ("优秀", 1)].
Proof.
  intros Hmarks.
  destruct history as [|[] [|[] [|[] [|]]]]; simplify_eq/=.
  eexists _, _, _. split; [reflexivity|]. split; [reflexivity|].
  split_and!; vm_compute; reflexivity.
Qed.

Lemma example_statistics_witness :
  exists st,
    AnalysisView.calculateStats (Some (HistoryArray Scenario.exampleHistory))
    = AnalysisView.Computed st
    /\ Scenario.bucketCounts st
       = [("待加油", 1); ("及格", 0); ("良好", 1); ("优秀", 1)].
Proof.
  destruct (example_statistics Scenario.exampleHistory)
    as (first & rest & st & _ & Hcalc & _ & _ & _ & _ & _ & Hbuckets);
    [reflexivity|].
  exists st. split; [exact Hcalc|exact Hbuckets].
Defined.

(** C10.  For a history that is not empty, [first] being its most recent
    entry: the pass threshold is 0.6 times the full marks of [first], or
    0.6 times 100 when those are falsy ([null], 0 or not a number), and the
    difficulty is the average over the same full marks; the entries counted
    as passed are those whose score reaches this one threshold; the
    average, the pass rate and the difficulty are the same for two
    histories with the same scores and the same full marks of the first
    entry, whatever the full marks of the other entries.  The four buckets
    count the entries by their own ratio score/maxScore: below 0.6; from
    0.6 and below 0.75; from 0.75 and below 0.9; and not below 0.9, which
    is from 0.9 or not a number. *)
Theorem stats_threshold_from_first_entry
    (first : StoredResult) (rest : list StoredResult) :
  let st := AnalysisView.stats_of first rest in
  let reference :=
    match maxScore first with
    | Some full => if Js.falsy_number full then 100%float else full
    | None => 100%float
    end in
  AnalysisView.calculateStats (Some (HistoryArray (first :: rest)))
    = AnalysisView.Computed st
  /\ AnalysisView.passThreshold first = (reference * 0.6)%float
  /\ AnalysisView.difficulty st = (AnalysisView.avgScore st / reference)%float
  /\ AnalysisView.passRate st
     = (Js.of_nat
          (length (List.filter
                     (fun e => PrimFloat.leb (reference * 0.6)
                                 (Js.to_number (score e)))
                     (first :: rest)))
        / Js.of_nat (length (first :: rest)) * 100)%float
  /\ (forall first' rest',
        maxScore first' = maxScore first ->
        map score (first' :: rest') = map score (first :: rest) ->
        let st' := AnalysisView.stats_of first' rest' in
        AnalysisView.avgScore st' = AnalysisView.avgScore st
        /\ AnalysisView.passRate st' = AnalysisView.passRate st
        /\ AnalysisView.difficulty st' = AnalysisView.difficulty st)
  /\ Scenario.bucketCounts st
     = [ ("待加油",
          Scenario.ratios (fun x => PrimFloat.ltb x 0.6) (first :: rest));
         ("及格",
          Scenario.ratios
            (fun x => PrimFloat.leb 0.6 x && PrimFloat.ltb x 0.75)
            (first :: rest));
         ("良好",
          Scenario.ratios
            (fun x => PrimFloat.leb 0.75 x && PrimFloat.ltb x 0.9)
            (first :: rest));
         ("优秀",
          Scenario.ratios (fun x => negb (PrimFloat.ltb x 0.9))
            (first :: rest)) ].
Proof.
  intros st reference. split_and!; try reflexivity.
  - intros first' rest' Hmax Hscores st'.
    assert (length (first' :: rest') = length (first :: rest)) as Hlen.
    { by rewrite <- (length_map score), Hscores, length_map. }
    assert (AnalysisView.totalScore (first' :: rest')
            = AnalysisView.totalScore (first :: rest)) as Htotal.
    { by apply totalScore_from. }
    assert (AnalysisView.refMaxScore first' = AnalysisView.refMaxScore first)
      as Href.
    { unfold AnalysisView.refMaxScore. by rewrite Hmax. }
    subst st st'. unfold AnalysisView.stats_of. cbn [AnalysisView.avgScore
      AnalysisView.passRate AnalysisView.difficulty].
    unfold AnalysisView.passThreshold.
    rewrite Href, Htotal, Hlen.
    rewrite (passCount_scores _ _ _ Hscores). done.
  - subst st. unfold Scenario.bucketCounts, AnalysisView.stats_of.
    cbn [AnalysisView.distribution map AnalysisView.bucket_name
         AnalysisView.bucket_value].
    rewrite !fillBuckets_counts.
    rewrite (inBucket_ratios 0 (fun x => PrimFloat.ltb x 0.6))
      by (intros e; apply bucketOf_ratio).
    rewrite (inBucket_ratios 1
               (fun x => PrimFloat.leb 0.6 x && PrimFloat.ltb x 0.75))
      by (intros e; apply bucketOf_ratio).
    rewrite (inBucket_ratios 2
               (fun x => PrimFloat.leb 0.75 x && PrimFloat.ltb x 0.9))
      by (intros e; apply bucketOf_ratio).
    rewrite (inBucket_ratios 3 (fun x => negb (PrimFloat.ltb x 0.9)))
      by (intros e; apply bucketOf_ratio).
    done.
Qed.

(** 5 out of 10 and then 50: the pass rate is 50 whether the 50 are out of
    60 or out of 100, both being judged against 6; the bar of the second
    entry is 良好 when the 50 are out of 60 and 待加油 when they are out of
    100. *)
Lemma stats_threshold_from_first_entry_witness :
  AnalysisView.passRate
    (AnalysisView.stats_of (Scenario.entry 5 10) [Scenario.entry 50 60])
  = AnalysisView.passRate
      (AnalysisView.stats_of (Scenario.entry 5 10) [Scenario.entry 50 100])
  /\ AnalysisView.passRate
       (AnalysisView.stats_of (Scenario.entry 5 10) [Scenario.entry 50 100])
     = 50%float
  /\ Scenario.bucketCounts
       (AnalysisView.stats_of (Scenario.entry 5 10) [Scenario.entry 50 60])
     = [("待加油", 1); ("及格", 0); ("良好", 1); ("优秀", 0)]
  /\ Scenario.bucketCounts
       (AnalysisView.stats_of (Scenario.entry 5 10) [Scenario.entry 50 100])
     = [("待加油", 2); ("及格", 0); ("良好", 0); ("优秀", 0)].
Proof.
  destruct (stats_threshold_from_first_entry
              (Scenario.entry 5 10) [Scenario.entry 50 100])
    as (_ & _ & _ & _ & Hsame & Hbuckets).
  destruct (Hsame (Scenario.entry 5 10) [Scenario.entry 50 60])
    as (_ & Hrate & _); [reflexivity|reflexivity|].
  destruct (stats_threshold_from_first_entry
              (Scenario.entry 5 10) [Scenario.entry 50 60])
    as (_ & _ & _ & _ & _ & Hbuckets').
  split; [exact Hrate|]. split; [reflexivity|].
  split; [exact Hbuckets'|exact Hbuckets].
Defined.

(* ===================================================================== *)
(** * Properties of the JSON text and of the configuration record *)
(* ===================================================================== *)

Section JsonFacts.
Import Json.
Local Open Scope N_scope.

Lemma hexValue_hexDigit d : d < 16 -> hexValue (hexDigit d) = Some d.
Proof.
  intros Hd. unfold hexValue, hexDigit, isDigit.
  destruct (N.ltb_spec d 10).
  - replace (48 <=? 48 + d) with true by (symmetry; apply N.leb_le; lia).
    replace (48 + d <=? 57) with true by (symmetry; apply N.leb_le; lia).
    simpl. f_equal. lia.
  - replace (87 + d <=? 57) with false by (symmetry; apply N.leb_gt; lia).
    rewrite andb_false_r.
    replace (97 <=? 87 + d) with true by (symmetry; apply N.leb_le; lia).
    replace (87 + d <=? 102) with true by (symmetry; apply N.leb_le; lia).
    simpl. f_equal. lia.
Qed.

Lemma hex_digits_value c :
  c < 65536 ->
  (((c / 4096) `mod` 16 * 16 + (c / 256) `mod` 16) * 16
   + (c / 16) `mod` 16) * 16 + c `mod` 16 = c.
Proof.
  intros Hc.
  assert (c / 4096 < 16) by (apply N.Div0.div_lt_upper_bound; lia).
  rewrite (N.mod_small (c / 4096)) by done.
  change 4096 with (16 * 256). change 256 with (16 * 16).
  rewrite <- !N.Div0.div_div.
  pose proof (N.div_mod c 16 ltac:(lia)).
  pose proof (N.div_mod (c / 16) 16 ltac:(lia)).
  pose proof (N.div_mod (c / 16 / 16) 16 ltac:(lia)).
  lia.
Qed.

Lemma hex4_unicodeEscape c :
  c < 65536 ->
  hex4 (hexDigit ((c / 4096) `mod` 16)) (hexDigit ((c / 256) `mod` 16))
       (hexDigit ((c / 16) `mod` 16)) (hexDigit (c `mod` 16)) = Some c.
Proof.
  intros Hc. unfold hex4.
  rewrite !hexValue_hexDigit by (apply N.mod_lt; lia). simpl.
  f_equal. by apply hex_digits_value.
Qed.

(** A quoted code unit reads back as itself. *)
Lemma parseChars_quoteUnit c tail :
  parseChars (quoteUnit c ++ tail)
  = '(str, rest) ← parseChars tail; Some (c :: str, rest).
Proof.
  unfold quoteUnit.
  destruct (N.eqb_spec c 8) as [->|?]; [done|].
  destruct (N.eqb_spec c 9) as [->|?]; [done|].
  destruct (N.eqb_spec c 10) as [->|?]; [done|].
  destruct (N.eqb_spec c 12) as [->|?]; [done|].
  destruct (N.eqb_spec c 13) as [->|?]; [done|].
  destruct (N.eqb_spec c 34) as [->|?]; [done|].
  destruct (N.eqb_spec c 92) as [->|?]; [done|].
  destruct ((c <? 32) || isLeadingSurrogate c || isTrailingSurrogate c)
    eqn:Hesc.
  - assert (c < 65536) as Hc.
    { unfold isLeadingSurrogate, isTrailingSurrogate in Hesc.
      apply orb_prop in Hesc as [Hesc|Hesc];
        [apply orb_prop in Hesc as [Hesc|Hesc]|].
      - apply N.ltb_lt in Hesc. lia.
      - apply andb_prop in Hesc as [_ Hesc]. apply N.leb_le in Hesc. lia.
      - apply andb_prop in Hesc as [_ Hesc]. apply N.leb_le in Hesc. lia. }
    unfold unicodeEscape. cbn [app parseChars].
    change (92 =? 34) with false. change (92 =? 92) with true.
    change (117 =? 117) with true. cbv iota.
    by rewrite hex4_unicodeEscape.
  - apply orb_false_elim in Hesc as [Hesc _].
    apply orb_false_elim in Hesc as [Hesc _].
    cbn [app parseChars].
    destruct (N.eqb_spec c 34); [done|].
    destruct (N.eqb_spec c 92); [done|].
    by rewrite Hesc.
Qed.

Lemma surrogate_verbatim c tail :
  (isLeadingSurrogate c || isTrailingSurrogate c) = true ->
  parseChars (c :: tail)
  = '(str, rest) ← parseChars tail; Some (c :: str, rest).
Proof.
  intros Hs.
  assert (55296 <= c) as Hc.
  { unfold isLeadingSurrogate, isTrailingSurrogate in Hs.
    apply orb_prop in Hs as [Hs|Hs];
      apply andb_prop in Hs as [Hs _]; apply N.leb_le in Hs; lia. }
  cbn [parseChars].
  destruct (N.eqb_spec c 34); [lia|].
  destruct (N.eqb_spec c 92); [lia|].
  destruct (N.ltb_spec c 32); [lia|done].
Qed.

Lemma quoteBody_two c d rest :
  quoteBody (c :: d :: rest)
  = if isLeadingSurrogate c && isTrailingSurrogate d
    then c :: d :: quoteBody rest
    else quoteUnit c ++ quoteBody (d :: rest).
Proof. reflexivity. Qed.

(** The body of a quoted string, followed by the closing quote, reads back
    as the string, whatever text follows. *)
Lemma parseChars_quoteBody s tail :
  parseChars (quoteBody s ++ 34 :: tail) = Some (s, tail).
Proof.
  remember (length s) as n eqn:Hn.
  revert s Hn. induction (lt_wf n) as [n _ IH]. intros s Hn.
  destruct s as [|c [|d rest]].
  - done.
  - cbn [quoteBody]. by rewrite parseChars_quoteUnit.
  - rewrite quoteBody_two.
    destruct (isLeadingSurrogate c && isTrailingSurrogate d) eqn:Hpair.
    + apply andb_prop in Hpair as [Hc Hd].
      cbn [app].
      rewrite surrogate_verbatim by (by rewrite Hc).
      rewrite surrogate_verbatim by (rewrite Hd; apply orb_true_r).
      assert (length rest < n)%nat as Hlt by (subst n; simpl; lia).
      by rewrite (IH _ Hlt rest eq_refl).
    + rewrite <- app_assoc. rewrite parseChars_quoteUnit.
      assert (length (d :: rest) < n)%nat as Hlt by (subst n; simpl; lia).
      by rewrite (IH _ Hlt (d :: rest) eq_refl).
Qed.

Lemma parseChars_QuoteJSONString s tail :
  exists body,
    QuoteJSONString s ++ tail = 34 :: body
    /\ parseChars body = Some (s, tail).
Proof.
  exists (quoteBody s ++ 34 :: tail). split.
  - unfold QuoteJSONString. by rewrite <- app_comm_cons, <- app_assoc.
  - apply parseChars_quoteBody.
Qed.

Lemma parseValue_string f s tail :
  parseValue (S f) (QuoteJSONString s ++ tail) = Some (JString s, tail).
Proof.
  destruct (parseChars_QuoteJSONString s tail) as (body & -> & Hbody).
  cbn [parseValue skipWs]. change (isWhitespace 34) with false. cbv iota.
  change (34 =? 34) with true. cbv iota. by rewrite Hbody.
Qed.

(** A member with a string value, followed by a comma. *)
Lemma parseMembers_more f k v tail :
  parseMembers (S (S f))
    (QuoteJSONString k ++ 58 :: QuoteJSONString v ++ 44 :: tail)
  = '(ms, rest) ← parseMembers (S f) tail; Some ((k, JString v) :: ms, rest).
Proof.
  destruct (parseChars_QuoteJSONString k
              (58 :: QuoteJSONString v ++ 44 :: tail)) as (body & -> & Hbody).
  remember (S f) as f' eqn:Hf'.
  cbn [parseMembers skipWs]. change (isWhitespace 34) with false. cbv iota.
  change (34 =? 34) with true. cbv iota. rewrite Hbody.
  cbn [mbind option_bind skipWs]. change (isWhitespace 58) with false.
  cbv iota. change (58 =? 58) with true. cbv iota.
  subst f'. rewrite parseValue_string.
  cbn [mbind option_bind skipWs]. change (isWhitespace 44) with false.
  cbv iota. change (44 =? 44) with true. cbv iota. done.
Qed.

(** The last member of an object, followed by the closing brace. *)
Lemma parseMembers_last f k v tail :
  parseMembers (S (S f))
    (QuoteJSONString k ++ 58 :: QuoteJSONString v ++ 125 :: tail)
  = Some ([(k, JString v)], tail).
Proof.
  destruct (parseChars_QuoteJSONString k
              (58 :: QuoteJSONString v ++ 125 :: tail)) as (body & -> & Hbody).
  remember (S f) as f' eqn:Hf'.
  cbn [parseMembers skipWs]. change (isWhitespace 34) with false. cbv iota.
  change (34 =? 34) with true. cbv iota. rewrite Hbody.
  cbn [mbind option_bind skipWs]. change (isWhitespace 58) with false.
  cbv iota. change (58 =? 58) with true. cbv iota.
  subst f'. rewrite parseValue_string.
  cbn [mbind option_bind skipWs]. change (isWhitespace 125) with false.
  cbv iota. change (125 =? 44) with false. change (125 =? 125) with true.
  cbv iota. done.
Qed.

(** An object of four string members reads back as written. *)
Lemma parse_stringify_strings4 k1 v1 k2 v2 k3 v3 k4 v4 :
  let v := JObject [ (k1, JString v1); (k2, JString v2);
                     (k3, JString v3); (k4, JString v4) ] in
  parse (stringify v) = Some v.
Proof.
  intros v. subst v.
  assert (stringify (JObject [ (k1, JString v1); (k2, JString v2);
                               (k3, JString v3); (k4, JString v4) ])
          = 123 :: QuoteJSONString k1 ++ 58 :: QuoteJSONString v1 ++ 44 ::
                   QuoteJSONString k2 ++ 58 :: QuoteJSONString v2 ++ 44 ::
                   QuoteJSONString k3 ++ 58 :: QuoteJSONString v3 ++ 44 ::
                   QuoteJSONString k4 ++ 58 :: QuoteJSONString v4 ++ 125 :: [])
    as ->.
  { cbn [stringify map joinComma fst snd].
    repeat (rewrite <- app_assoc; cbn [app]). reflexivity. }
  unfold parse.
  set (text := QuoteJSONString k1 ++ _).
  assert (5 <= length text)%nat as Hlen.
  { subst text. unfold QuoteJSONString.
    repeat (rewrite ?length_app; cbn [length app]). lia. }
  cbn [length].
  destruct (length text) as [|[|[|[|[|f]]]]]; [lia..|]. clear Hlen.
  cbn [parseValue skipWs]. change (isWhitespace 123) with false. cbv iota.
  change (123 =? 34) with false. change (123 =? 123) with true. cbv iota.
  assert (exists d r, skipWs text = d :: r /\ (d =? 125) = false)
    as (d & r & -> & ->).
  { subst text. unfold QuoteJSONString. rewrite <- !app_comm_cons.
    eexists _, _. split; reflexivity. }
  subst text.
  rewrite 3!parseMembers_more. rewrite parseMembers_last.
  reflexivity.
Qed.

End JsonFacts.

(** C7.  A configuration saved with [saveAppConfig] is what [getAppConfig]
    returns next, whatever else localStorage holds: the same provider,
    endpoint, model name and key, read through the stored JSON text. *)
Theorem config_save_then_load
    (config : GeminiService.AppConfig)
    (localStorage : gmap Json.jsstring Json.jsstring)
    (envKey : option Json.jsstring) :
  exists loaded,
    GeminiService.getAppConfig
      (GeminiService.saveAppConfig config localStorage) envKey
    = GeminiService.Returns loaded
    /\ GeminiService.fromJson loaded = Some config
    /\ GeminiService.stringField (Json.js "provider") loaded
       = Some (GeminiService.provider config)
    /\ GeminiService.stringField (Json.js "endpoint") loaded
       = Some (GeminiService.endpoint config)
    /\ GeminiService.stringField (Json.js "modelName") loaded
       = Some (GeminiService.modelName config)
    /\ GeminiService.stringField (Json.js "apiKey") loaded
       = Some (GeminiService.apiKey config).
Proof.
  exists (GeminiService.toJson config). split.
  - unfold GeminiService.getAppConfig, GeminiService.saveAppConfig.
    rewrite lookup_insert_eq.
    unfold GeminiService.toJson. rewrite parse_stringify_strings4.
    reflexivity.
  - destruct config as [p e m a]. split_and!; reflexivity.
Qed.

(** C9.  With a provider other than 'google', the request of
    [assessStudentAnswer] is the chat completion with [config.modelName] as
    its model, the same for the three strategies, and carries no thinking
    budget; [getModelName] gives [config.modelName] as well.  With the
    provider 'google' and a key to build the client with, strategy flash
    asks gemini-2.5-flash without a thinking budget, pro asks
    gemini-3-pro-preview with a budget of 2048 and reasoning asks
    gemini-3-pro-preview with a budget of 16384. *)
Theorem strategy_selects_model_for_google_only
    (config : GeminiService.AppConfig) (envKey : option Json.jsstring)
    (studentImageBase64 rubricText : Json.jsstring) :
  (GeminiService.provider config <> Json.js "google" ->
   forall strategy,
     GeminiService.assessStudentAnswer config envKey studentImageBase64
       rubricText strategy
     = GeminiService.Returns
         (GeminiService.ChatCompletion
            (GeminiService.endpoint config) (GeminiService.apiKey config)
            (GeminiService.modelName config) rubricText studentImageBase64
            true)
     /\ GeminiService.getModelName strategy config
        = GeminiService.modelName config)
  /\ (GeminiService.provider config = Json.js "google" ->
      forall clientKey,
        GeminiService.getGoogleClient (GeminiService.apiKey config) envKey
        = Some clientKey ->
        GeminiService.assessStudentAnswer config envKey studentImageBase64
          rubricText flash
        = GeminiService.Returns
            (GeminiService.GenerateContent clientKey
               (Json.js "gemini-2.5-flash") rubricText studentImageBase64
               None)
        /\ GeminiService.assessStudentAnswer config envKey
             studentImageBase64 rubricText pro
           = GeminiService.Returns
               (GeminiService.GenerateContent clientKey
                  (Json.js "gemini-3-pro-preview") rubricText
                  studentImageBase64 (Some 2048%N))
        /\ GeminiService.assessStudentAnswer config envKey
             studentImageBase64 rubricText reasoning
           = GeminiService.Returns
               (GeminiService.GenerateContent clientKey
                  (Json.js "gemini-3-pro-preview") rubricText
                  studentImageBase64 (Some 16384%N))).
Proof.
  split.
  - intros Hother strategy.
    unfold GeminiService.assessStudentAnswer, GeminiService.getModelName.
    repeat case_decide; done.
  - intros Hgoogle clientKey Hclient.
    unfold GeminiService.assessStudentAnswer, GeminiService.getModelName.
    rewrite Hclient. repeat case_decide; done.
Qed.

Lemma strategy_selects_model_for_google_only_witness :
  GeminiService.assessStudentAnswer Scenario.openaiConfig None
    (Json.js "img") (Json.js "rubric") reasoning
  = GeminiService.Returns
      (GeminiService.ChatCompletion
         (Json.js "https://api.openai.com/v1/chat/completions")
         (Json.js "sk-test") (Json.js "gpt-4o") (Json.js "rubric")
         (Json.js "img") true)
  /\ GeminiService.assessStudentAnswer Scenario.googleConfig None
       (Json.js "img") (Json.js "rubric") pro
     = GeminiService.Returns
         (GeminiService.GenerateContent (Json.js "AIza-test")
            (Json.js "gemini-3-pro-preview") (Json.js "rubric")
            (Json.js "img") (Some 2048%N)).
Proof.
  destruct (strategy_selects_model_for_google_only Scenario.openaiConfig None
              (Json.js "img") (Json.js "rubric")) as [Hother _].
  destruct (strategy_selects_model_for_google_only Scenario.googleConfig None
              (Json.js "img") (Json.js "rubric")) as [_ Hgoogle].
  split.
  - destruct (Hother ltac:(vm_compute; discriminate) reasoning) as [Hreq _].
    exact Hreq.
  - destruct (Hgoogle eq_refl (Json.js "AIza-test") eq_refl)
      as (_ & Hpro & _).
    exact Hpro.
Defined.

(* ===================================================================== *)
(** * Properties of tryFillScore *)
(* ===================================================================== *)

Section ContentFacts.
Import Content Scenario.

(** When no selector finds a displayed element, the loop ends with what
    the last selector found, displayed or not. *)
Lemma selectInput_no_visible page selectors input :
  (forall sel el, sel ∈ selectors -> querySelector page sel = Some el ->
                  offsetParentIsNull page el = true) ->
  selectInput page selectors input
  = match last selectors with
    | Some sel => querySelector page sel
    | None => input
    end.
Proof.
  revert input.
  induction selectors as [|sel rest IH]; intros input Hhidden; [done|].
  cbn [selectInput].
  assert (selectInput page rest (querySelector page sel)
          = match last rest with
            | Some sel' => querySelector page sel'
            | None => querySelector page sel
            end) as Hrest.
  { apply IH. intros sel' el Hin. apply Hhidden. by right. }
  destruct (querySelector page sel) as [el|] eqn:Hq.
  - rewrite (Hhidden sel el) by (done || left). cbn [negb].
    rewrite Hrest. destruct rest as [|sel' rest]; [done|].
    rewrite last_cons_cons.
    destruct (last (sel' :: rest)) eqn:Hl; [done|]. by apply last_None in Hl.
  - rewrite Hrest. destruct rest as [|sel' rest]; [done|].
    rewrite last_cons_cons.
    destruct (last (sel' :: rest)) eqn:Hl; [done|]. by apply last_None in Hl.
Qed.

Lemma last_selectorsFor platform :
  last (selectorsFor platform) = Some scorePlaceholderSelector.
Proof.
  unfold selectorsFor. rewrite last_app. reflexivity.
Qed.

(** What of the claim holds, for a hint under whose name the table
    inherits nothing: when no selector finds a displayed element and the
    last selector finds no element at all, the focused INPUT is written,
    and without one the call fails and touches nothing. *)
Lemma tryFillScore_falls_back page score platform :
  Js.truthy_string platform = true ->
  spreadThrows platform = false ->
  noVisibleMatch page platform ->
  querySelector page scorePlaceholderSelector = None ->
  tryFillScore page score (Some platform)
  = match activeElement page with
    | Some active =>
        if decide (tagName page active = "INPUT")
        then (FillSuccess, fills active score)
        else (FillFailure "未找到可见的打分输入框", [])
    | None => (FillFailure "未找到可见的打分输入框", [])
    end.
Proof.
  intros Hhint Hown Hhidden Hlast. unfold tryFillScore.
  rewrite Hhint, Hown.
  rewrite selectInput_no_visible by done.
  rewrite last_selectorsFor, Hlast.
  destruct (activeElement page) as [active|]; [|done].
  destruct (decide (tagName page active = "INPUT")) as [Htag|Htag]; [|done].
  by rewrite decide_True.
Qed.

End ContentFacts.

(** C8, at the page that breaks it.  No selector finds a displayed element
    and the focus is on a displayed INPUT, element 2; yet the score goes
    into element 1, the input that is not displayed and that the last
    selector found, and the call reports success. *)
Theorem tryFillScore_writes_hidden_match :
  Scenario.noVisibleMatch Scenario.hiddenMatchPage "ZHIXUE"
  /\ Content.activeElement Scenario.hiddenMatchPage = Some 2
  /\ Content.tagName Scenario.hiddenMatchPage 2 = "INPUT"
  /\ Content.offsetParentIsNull Scenario.hiddenMatchPage 2 = false
  /\ Content.offsetParentIsNull Scenario.hiddenMatchPage 1 = true
  /\ Content.tryFillScore Scenario.hiddenMatchPage 8 None
     = (Content.FillSuccess, Scenario.fills 1 8)
  /\ Content.tryFillScore Scenario.hiddenMatchPage 8 (Some "ZHIXUE")
     = (Content.FillSuccess, Scenario.fills 1 8).
Proof.
  split_and!; try reflexivity.
  intros sel el _ Hq. cbn in Hq. case_decide; simplify_eq. reflexivity.
Qed.

(* ===================================================================== *)
(** * Properties of the grading loop *)
(* ===================================================================== *)

(** The state the scenarios start from is one the panel gets into. *)
Lemma ready_reachable :
  GradingView.run Scenario.trialPassThenBatch
    (GradingView.changeMode Trial Scenario.initial)
  = Some Scenario.ready.
Proof. vm_compute. reflexivity. Qed.

Lemma run_cons e evs s :
  GradingView.run (e :: evs) s
  = GradingView.step e s ≫= GradingView.run evs.
Proof. reflexivity. Qed.

Lemma run_app evs1 : forall evs2 a b c,
  GradingView.run evs1 a = Some b ->
  GradingView.run evs2 b = Some c ->
  GradingView.run (evs1 ++ evs2) a = Some c.
Proof.
  induction evs1 as [|e evs1 IH]; intros evs2 a b c H1 H2.
  - by simplify_eq/=.
  - cbn in *. destruct (GradingView.step e a); [|done]. cbn in *. eauto.
Qed.

Lemma countIf_app {A} (f : A -> bool) l1 l2 :
  Scenario.countIf f (l1 ++ l2)
  = Scenario.countIf f l1 + Scenario.countIf f l2.
Proof. unfold Scenario.countIf. by rewrite List.filter_app, length_app. Qed.

(** Runs the first event of a run on a state given by its fields. *)
Ltac run_step :=
  rewrite run_cons;
  match goal with
  | |- context [GradingView.step ?e ?S] =>
      let X := eval lazy -[bool_decide Nat.add app Js.truthy_string
                           studentName platform answerImageBase64]
               in (GradingView.step e S) in
      change (GradingView.step e S) with X
  end;
  cbn [mbind option_bind app].

Ltac by_fields s :=
  destruct s as [mode0 status0 pageContext0 result0 errorMsg0 showEvidence0
                 active0 health0 running0 batchCount0 scanWaitCount0 ref0
                 last0 props0 [runtime0 tabs0] history0 full0 pending0
                 effects0].

Section BatchPolling.
Import GradingView Scenario.

Variables (r : Render) (tab : nat) (lastName : string).

Lemma scanPage_in_flight s :
  isBatchRunningRef s = true ->
  lastGradedNameRef s = Some lastName ->
  runtimeSendMessage (chrome s) = true ->
  tabs (chrome s) = true ->
  pending s = [] ->
  scanInFlight r lastName (scanPage r s)
  /\ effects (scanPage r s) = effects s ++ [TabsQuery]
  /\ scanWaitCount (scanPage r s) = scanWaitCount s.
Proof.
  intros Hrun Hlast Hruntime Htabs Hpending.
  unfold scanInFlight, scanPage. rewrite Hrun. cbn.
  rewrite Hruntime, Htabs. cbn. rewrite Hpending. by repeat split.
Qed.

(** One round of waiting: the page still shows the student graded last. *)
Lemma waiting_round s ctx :
  scanInFlight r lastName s ->
  studentName ctx = lastName ->
  exists s',
    run (answered tab ctx ++ retryFires) s = Some s'
    /\ scanInFlight r lastName s'
    /\ scanWaitCount s' = scanWaitCount s + 1
    /\ effects s'
       = effects s ++ [ SendMessage tab REQUEST_PAGE_DATA;
                        SetTimeout (ScanPage r) 1500; TabsQuery ].
Proof.
  intros (Hrun & Hlast & Hruntime & Htabs & Hpending) Hname.
  by_fields s. cbn in Hrun, Hlast, Hruntime, Htabs, Hpending. subst.
  eexists. split.
  - unfold answered, retryFires. cbn [app].
    run_step. run_step. rewrite bool_decide_eq_true_2 by done.
    run_step. reflexivity.
  - cbn. rewrite <- !app_assoc. by repeat split.
Qed.

Lemma waiting_rounds same : forall s,
  scanInFlight r lastName s ->
  Forall (fun ctx => studentName ctx = lastName) same ->
  exists s',
    run (waiting tab same) s = Some s'
    /\ scanInFlight r lastName s'
    /\ scanWaitCount s' = scanWaitCount s + length same
    /\ effects s' = effects s ++ waitingEffects r tab (length same).
Proof.
  induction same as [|ctx same IH]; intros s Hs Hsame.
  - exists s. cbn. rewrite app_nil_r. split_and!; [done|done|lia|done].
  - apply Forall_cons in Hsame as [Hctx Hsame].
    destruct (waiting_round s ctx Hs Hctx)
      as (s1 & Hrun1 & Hs1 & Hcount1 & Heff1).
    destruct (IH s1 Hs1 Hsame) as (s' & Hrun' & Hs' & Hcount' & Heff').
    exists s'. split_and!; [|done| |].
    + cbn [waiting]. rewrite app_assoc. by eapply run_app.
    + rewrite Hcount', Hcount1. cbn [length]. lia.
    + rewrite Heff', Heff1. cbn [length waitingEffects].
      by rewrite <- !app_assoc.
Qed.

(** The page shows a student other than the one graded last: the counter
    is reset and the page data goes to [handlePageData]. *)
Lemma new_student s ctx :
  scanInFlight r lastName s ->
  studentName ctx <> lastName ->
  exists s',
    run (answered tab ctx) s = Some s'
    /\ scanWaitCount s' = 0
    /\ pageContext s' = Some ctx
    /\ countIf isScanTimer (effects s') = countIf isScanTimer (effects s)
    /\ (isRubricConfigured (r_props r) = true ->
        Js.truthy_string (currentRubric (r_props r)) = true ->
        status s' = grading
        /\ pending s' = [Grading r ctx]
        /\ effects s'
           = effects s ++ [ SendMessage tab REQUEST_PAGE_DATA;
                            Assess (answerImageBase64 ctx)
                              (currentRubric (r_props r))
                              (gradingStrategy (r_props r)) ]).
Proof.
  intros (Hrun & Hlast & Hruntime & Htabs & Hpending) Hname.
  by_fields s. cbn in Hrun, Hlast, Hruntime, Htabs, Hpending. subst.
  destruct r as [rmode rctx rres rhealth [rconf rrubric rstrategy]].
  unfold answered. eexists. split.
  - run_step. run_step. rewrite bool_decide_eq_false_2 by congruence.
    cbn [run]. reflexivity.
  - cbn [r_props isRubricConfigured currentRubric gradingStrategy].
    unfold handlePageData.
    cbn [r_props isRubricConfigured currentRubric r_mode].
    destruct rconf, (Js.truthy_string rrubric),
      (bool_decide (rmode = Batch));
      lazy -[Nat.add app countIf];
      rewrite ?countIf_app;
      cbv [countIf List.filter length isScanTimer];
      rewrite <- ?app_assoc;
      (split_and!; [done|done|lia|]); intros; by repeat split.
Qed.

End BatchPolling.

Section StoppedLoop.
Import GradingView Scenario.

Lemma countIf_delete {A} (f : A -> bool) (l : list A) k p :
  l !! k = Some p ->
  countIf f (delete k l) + (if f p then 1 else 0) = countIf f l.
Proof.
  intros Hk.
  rewrite <- (take_drop_middle l k p Hk) at 2.
  rewrite delete_take_drop, !countIf_app.
  change (p :: drop (S k) l) with ([p] ++ drop (S k) l).
  rewrite countIf_app. unfold countIf at 4. cbn.
  destruct (f p); cbn; lia.
Qed.

Ltac by_render r :=
  destruct r as [rmode rctx rres rhealth [rconf rrubric rstrategy]].

(** Settles [settled] between two states given by their fields. *)
Ltac settle :=
  unfold settled;
  lazy -[bool_decide Nat.add Nat.le app Js.truthy_string Js.or_string
         countIf pretty History.recordHistory];
  rewrite ?countIf_app;
  repeat match goal with
         | |- context [countIf ?f ?l] =>
             is_var l; generalize (countIf f l); intro
         end;
  cbv [countIf List.filter length isFill isScanTimer isSubmitTimer
       submitWaits];
  split_and!; try done; lia.

Lemma handleScanError_stopped r msg s :
  isBatchRunningRef s = false -> settled 0 s (handleScanError r msg s).
Proof. intros Hstop. by_fields s. cbn in Hstop. subst. settle. Qed.

Lemma handlePageData_stopped r data s :
  isBatchRunningRef s = false -> settled 0 s (handlePageData r data s).
Proof.
  intros Hstop. by_fields s. cbn in Hstop. subst. by_render r.
  unfold handlePageData.
  cbn [r_props isRubricConfigured currentRubric r_mode].
  destruct rconf, (Js.truthy_string rrubric), (bool_decide (rmode = Batch));
    settle.
Qed.

Lemma scanPage_stopped r s :
  isBatchRunningRef s = false -> settled 0 s (scanPage r s).
Proof.
  intros Hstop. by_fields s. cbn in Hstop. subst.
  destruct runtime0, tabs0; settle.
Qed.

Lemma mockScan_stopped r random s :
  isBatchRunningRef s = false -> settled 0 s (mockScan r random s).
Proof.
  intros Hstop. unfold mockScan. rewrite Hstop, andb_false_r.
  exact (handlePageData_stopped r _ (set_scanWaitCount 0 s) Hstop).
Qed.

Lemma onScanTabs_stopped r activeTab s :
  isBatchRunningRef s = false -> settled 0 s (onScanTabs r activeTab s).
Proof.
  intros Hstop. destruct activeTab as [tab|].
  - by_fields s. settle.
  - by apply handleScanError_stopped.
Qed.

Lemma onPageResponse_stopped r lastError response s :
  isBatchRunningRef s = false ->
  settled 0 s (onPageResponse r lastError response s).
Proof.
  intros Hstop. unfold onPageResponse. rewrite Hstop. cbn [andb].
  destruct lastError; [by apply handleScanError_stopped|].
  destruct (scanData response) as [data|];
    [|by apply handleScanError_stopped].
  exact (handlePageData_stopped r data (set_scanWaitCount 0 s) Hstop).
Qed.

Lemma handleSubmitScore_stopped r score name now s :
  isBatchRunningRef s = false ->
  settled 1 s (handleSubmitScore r score name now s).
Proof.
  intros Hstop. by_fields s. cbn in Hstop. subst. by_render r.
  unfold handleSubmitScore. cbn [r_pageContext r_mode].
  destruct rctx as [ctx|], tabs0, (bool_decide (rmode = Batch));
    try destruct (Js.truthy_string (platform ctx)); settle.
Qed.

Lemma onFillTabs_stopped r score activeTab s :
  isBatchRunningRef s = false ->
  settled 1 s (onFillTabs r score activeTab s).
Proof.
  intros Hstop. by_fields s. cbn in Hstop. subst. by_render r.
  destruct activeTab, rctx; settle.
Qed.

Lemma onFillResponse_stopped r score filled s :
  isBatchRunningRef s = false ->
  settled 0 s (onFillResponse r score filled s).
Proof.
  intros Hstop. by_fields s. cbn in Hstop. subst. by_render r.
  unfold onFillResponse. cbn [r_mode].
  destruct (bool_decide (rmode = Trial)), filled; settle.
Qed.

Lemma onGraded_stopped r ctx res s :
  isBatchRunningRef s = false -> settled 0 s (onGraded r ctx res s).
Proof.
  intros Hstop. by_fields s. cbn in Hstop. subst. by_render r.
  unfold onGraded. cbn [r_mode].
  destruct res, (bool_decide (rmode = Batch)); settle.
Qed.

(** What one continuation does when it resumes with the flag clear. *)
Lemma resume_stopped p i s s' :
  isBatchRunningRef s = false ->
  resume p i s = Some s' ->
  settled (if submitWaits p then 1 else 0) s s'.
Proof.
  intros Hstop Hresume.
  destruct p as [[r|r|r sc nm]|r|r|r sc|r sc|r ctx], i; try discriminate;
    cbn [resume] in Hresume; simplify_eq; cbn [submitWaits].
  - by apply scanPage_stopped.
  - by apply mockScan_stopped.
  - by apply handleSubmitScore_stopped.
  - by apply onScanTabs_stopped.
  - by apply onPageResponse_stopped.
  - by apply onFillTabs_stopped.
  - by apply onFillResponse_stopped.
  - by apply onGraded_stopped.
Qed.

(** The same for a step of the event loop, which also takes the
    continuation off the list of those that wait. *)
Lemma step_stopped k i s s' :
  isBatchRunningRef s = false ->
  step (Resume k i) s = Some s' ->
  isBatchRunningRef s' = false
  /\ batchCount s' = batchCount s
  /\ lastGradedNameRef s' = lastGradedNameRef s
  /\ countIf isScanTimer (effects s') = countIf isScanTimer (effects s)
  /\ countIf isSubmitTimer (effects s') = countIf isSubmitTimer (effects s)
  /\ countIf isFill (effects s) <= countIf isFill (effects s')
  /\ countIf isFill (effects s') + countIf submitWaits (pending s')
     <= countIf isFill (effects s) + countIf submitWaits (pending s).
Proof.
  intros Hstop Hstep. cbn [step] in Hstep.
  destruct (pending s !! k) as [p|] eqn:Hk; [|done]. cbn in Hstep.
  apply resume_stopped in Hstep; [|done].
  destruct Hstep as (H1 & H2 & H3 & H4 & H5 & H6 & _ & H8).
  cbn [effects pending batchCount lastGradedNameRef set_pending]
    in H2, H3, H4, H5, H6, H8.
  pose proof (countIf_delete submitWaits (pending s) k p Hk).
  split_and!; try done. lia.
Qed.

(** A run of continuations that starts with the flag clear. *)
Lemma run_stopped events : forall s s',
  isBatchRunningRef s = false ->
  Forall (fun e => isResume e = true) events ->
  run events s = Some s' ->
  isBatchRunningRef s' = false
  /\ lastGradedNameRef s' = lastGradedNameRef s
  /\ countIf isFill (effects s') + countIf submitWaits (pending s')
     <= countIf isFill (effects s) + countIf submitWaits (pending s)
  /\ (countIf submitWaits (pending s) = 0 -> idleSince s s')
  /\ countIf isScanTimer (effects s') = countIf isScanTimer (effects s)
  /\ countIf isSubmitTimer (effects s') = countIf isSubmitTimer (effects s)
  /\ batchCount s' = batchCount s.
Proof.
  induction events as [|e events IH]; intros s s' Hstop Hevents Hrun.
  - cbn in Hrun. simplify_eq. unfold idleSince. split_and!; done.
  - apply Forall_cons in Hevents as [He Hevents].
    destruct e as [k i| | | | | | | |]; try discriminate.
    rewrite run_cons in Hrun.
    destruct (step (Resume k i) s) as [s1|] eqn:Hstep; [|done].
    cbn in Hrun.
    destruct (step_stopped k i s s1 Hstop Hstep)
      as (Hstop1 & Hcount1 & Hlast1 & Hscan1 & Hsub1 & Hmono1 & Hpot1).
    destruct (IH s1 s' Hstop1 Hevents Hrun)
      as (Hstop' & Hlast' & Hpot' & Hidle' & Hscan' & Hsub' & Hcount').
    split_and!; try congruence; try lia.
    intros Hnone. unfold idleSince in *.
    destruct Hidle' as (Hf & _); [lia|].
    split_and!; [lia|congruence|congruence|congruence].
Qed.

End StoppedLoop.

(** C1.  The loop is running, the student graded last is [lastName], and a
    scan is started.  The page answers [length same] times with the name
    [lastName] and then with another name.  Each of the first answers bumps
    the wait counter and sets one retry timer, [length same] timers in
    all and no grading call; when the new name arrives the counter is back
    at 0, no further timer is set, and the page data is handed on: with a
    rubric configured the grading call for it is in flight. *)
Theorem batch_poll_waits_for_new_student
    (s : GradingView.State) (r : GradingView.Render) (tab : nat)
    (lastName : string) (same : list PageContext) (next : PageContext) :
  GradingView.isBatchRunningRef s = true ->
  GradingView.lastGradedNameRef s = Some lastName ->
  GradingView.runtimeSendMessage (GradingView.chrome s) = true ->
  GradingView.tabs (GradingView.chrome s) = true ->
  GradingView.pending s = [] ->
  Forall (fun ctx => studentName ctx = lastName) same ->
  studentName next <> lastName ->
  exists waited final,
    GradingView.run (Scenario.waiting tab same) (GradingView.scanPage r s)
    = Some waited
    /\ GradingView.scanWaitCount waited
       = GradingView.scanWaitCount s + length same
    /\ GradingView.effects waited
       = GradingView.effects s
         ++ GradingView.TabsQuery
            :: Scenario.waitingEffects r tab (length same)
    /\ Scenario.countIf Scenario.isScanTimer (GradingView.effects waited)
       = Scenario.countIf Scenario.isScanTimer (GradingView.effects s)
         + length same
    /\ Scenario.countIf Scenario.isAssess (GradingView.effects waited)
       = Scenario.countIf Scenario.isAssess (GradingView.effects s)
    /\ GradingView.run (Scenario.answered tab next) waited = Some final
    /\ GradingView.scanWaitCount final = 0
    /\ GradingView.pageContext final = Some next
    /\ Scenario.countIf Scenario.isScanTimer (GradingView.effects final)
       = Scenario.countIf Scenario.isScanTimer (GradingView.effects s)
         + length same
    /\ (GradingView.isRubricConfigured (GradingView.r_props r) = true ->
        Js.truthy_string (GradingView.currentRubric (GradingView.r_props r))
        = true ->
        GradingView.status final = GradingView.grading
        /\ GradingView.pending final = [GradingView.Grading r next]
        /\ GradingView.effects final
           = GradingView.effects waited
             ++ [ GradingView.SendMessage tab GradingView.REQUEST_PAGE_DATA;
                  GradingView.Assess (answerImageBase64 next)
                    (GradingView.currentRubric (GradingView.r_props r))
                    (GradingView.gradingStrategy (GradingView.r_props r)) ]).
Proof.
  intros Hrun Hlast Hruntime Htabs Hpending Hsame Hnext.
  destruct (scanPage_in_flight r lastName s Hrun Hlast Hruntime Htabs Hpending)
    as (Hflight & Heff0 & Hcount0).
  destruct (waiting_rounds r tab lastName same _ Hflight Hsame)
    as (waited & Hwaited & Hflight' & Hcount & Heff).
  destruct (new_student r tab lastName waited next Hflight' Hnext)
    as (final & Hfinal & Hzero & Hctx & Htimers & Hgrade).
  assert (forall n,
            Scenario.countIf Scenario.isScanTimer
              (Scenario.waitingEffects r tab n) = n
            /\ Scenario.countIf Scenario.isAssess
                 (Scenario.waitingEffects r tab n) = 0) as Hn.
  { induction n as [|n [IH1 IH2]]; [done|].
    unfold Scenario.countIf in *. cbn. by rewrite IH1, IH2. }
  pose proof (@countIf_app GradingView.Effect) as Happ.
  rewrite Heff0 in Heff. rewrite <- app_assoc in Heff. cbn [app] in Heff.
  assert (Scenario.countIf Scenario.isScanTimer (GradingView.effects waited)
          = Scenario.countIf Scenario.isScanTimer (GradingView.effects s)
            + length same) as Hretries.
  { rewrite Heff, Happ.
    change (GradingView.TabsQuery :: ?l) with ([GradingView.TabsQuery] ++ l).
    rewrite Happ. destruct (Hn (length same)) as [-> _]. cbn. lia. }
  exists waited, final.
  split_and!; try done.
  - rewrite Hcount, Hcount0. done.
  - rewrite Heff, Happ.
    change (GradingView.TabsQuery :: ?l) with ([GradingView.TabsQuery] ++ l).
    rewrite Happ. destruct (Hn (length same)) as [_ ->]. cbn. lia.
  - by rewrite Htimers.
Qed.

Lemma batch_poll_waits_for_new_student_witness :
  exists waited final,
    GradingView.run
      (Scenario.waiting 1 [Scenario.pageOf "A"; Scenario.pageOf "A"])
      (GradingView.scanPage (GradingView.render Scenario.ready)
         Scenario.runningAfterA)
    = Some waited
    /\ GradingView.scanWaitCount waited = 2
    /\ GradingView.run (Scenario.answered 1 (Scenario.pageOf "B")) waited
       = Some final
    /\ GradingView.scanWaitCount final = 0
    /\ GradingView.status final = GradingView.grading.
Proof.
  destruct (batch_poll_waits_for_new_student Scenario.runningAfterA
              (GradingView.render Scenario.ready) 1 "A"
              [Scenario.pageOf "A"; Scenario.pageOf "A"]
              (Scenario.pageOf "B"))
    as (waited & final & Hwaited & Hcount & _ & _ & _ & Hfinal & Hzero
        & _ & _ & Hgrade);
    [reflexivity | reflexivity | reflexivity | reflexivity | reflexivity
    | repeat constructor | vm_compute; discriminate |].
  destruct (Hgrade eq_refl eq_refl) as (Hstatus & _).
  exists waited, final.
  split; [exact Hwaited|]. split; [exact Hcount|].
  split; [exact Hfinal|]. split; [exact Hzero|exact Hstatus].
Defined.

(** C2.  The grading call fails while the batch flag is set: the flag and
    the [isBatchRunning] state are cleared, the error message and the error
    status are shown, and the callback leaves nothing behind: no timer, no
    scan, no second grading call, no new continuation.  Whatever
    continuations resume afterwards, the flag stays clear, no timer for a
    scan is set and no paper is counted. *)
Theorem grading_failure_halts_batch
    (s : GradingView.State) (k : nat) (r : GradingView.Render)
    (ctx : PageContext) :
  GradingView.pending s !! k = Some (GradingView.Grading r ctx) ->
  GradingView.isBatchRunningRef s = true ->
  exists s',
    GradingView.step (GradingView.Resume k (GradingView.Graded None)) s
    = Some s'
    /\ GradingView.isBatchRunningRef s' = false
    /\ GradingView.isBatchRunning s' = false
    /\ GradingView.status s' = GradingView.error
    /\ GradingView.errorMsg s'
       = Some "AI 服务响应异常，批量阅卷已安全暂停。"
    /\ GradingView.effects s' = GradingView.effects s
    /\ GradingView.pending s' = delete k (GradingView.pending s)
    /\ GradingView.batchCount s' = GradingView.batchCount s
    /\ (forall events s'',
          Forall (fun e => Scenario.isResume e = true) events ->
          GradingView.run events s' = Some s'' ->
          GradingView.isBatchRunningRef s'' = false
          /\ Scenario.countIf Scenario.isScanTimer (GradingView.effects s'')
             = Scenario.countIf Scenario.isScanTimer (GradingView.effects s)
          /\ GradingView.batchCount s'' = GradingView.batchCount s).
Proof.
  intros Hk Hrun.
  exists (GradingView.onGraded r ctx None
            (GradingView.set_pending (delete k (GradingView.pending s)) s)).
  split.
  - unfold GradingView.step. rewrite Hk. reflexivity.
  - unfold GradingView.onGraded.
    cbn [GradingView.isBatchRunningRef GradingView.set_pending].
    rewrite Hrun. split_and!; try reflexivity.
    intros events s'' Hevents Hrun''.
    apply run_stopped in Hrun''; [|reflexivity|done].
    destruct Hrun'' as (Hstop & _ & _ & _ & Hscan & _ & Hcount).
    split_and!; done.
Qed.

Lemma grading_failure_halts_batch_witness :
  exists s',
    GradingView.step (GradingView.Resume 0 (GradingView.Graded None))
      (GradingView.set_isBatchRunningRef true
         (GradingView.schedule
            (GradingView.Grading (GradingView.render Scenario.ready)
               (Scenario.pageOf "B"))
            Scenario.ready))
    = Some s'
    /\ GradingView.isBatchRunningRef s' = false
    /\ GradingView.pending s' = [].
Proof.
  destruct (grading_failure_halts_batch
              (GradingView.set_isBatchRunningRef true
                 (GradingView.schedule
                    (GradingView.Grading (GradingView.render Scenario.ready)
                       (Scenario.pageOf "B"))
                    Scenario.ready))
              0 (GradingView.render Scenario.ready) (Scenario.pageOf "B"))
    as (s' & Hstep & Hflag & _ & _ & _ & _ & Hpending & _);
    [reflexivity|reflexivity|].
  exists s'. split; [exact Hstep|]. split; [exact Hflag|exact Hpending].
Defined.

(** C3.  A scan of the page fails: there is no active tab, or the content
    script cannot be reached, or its reply has no page data, or, in
    [scanPage] itself, the call of [chrome.tabs.query] throws.  With the
    batch flag set the callback sets exactly one timer for [scanPage]
    after 2000 ms and leaves the error display as it is; with the flag
    clear it sets the error message to the text of the failure (a fixed
    text for each of the four ways, but the error text of the reply when
    the reply names one) and the error status, and schedules nothing. *)
Theorem scan_failure_error_iff_not_running
    (r : GradingView.Render) (s : GradingView.State) :
  (forall f, Scenario.isFailure f ->
     let s' := Scenario.afterFailure r f s in
     if GradingView.isBatchRunningRef s
     then Scenario.retriedOnce r s s'
          /\ GradingView.scanWaitCount s'
             = match f with
               | Scenario.NoPageData _ => GradingView.scanWaitCount s + 1
               | _ => GradingView.scanWaitCount s
               end
     else Scenario.shownAsError (Scenario.failureText f) s s')
  /\ (GradingView.runtimeSendMessage (GradingView.chrome s) = true ->
      GradingView.tabs (GradingView.chrome s) = false ->
      let s' := GradingView.scanPage r s in
      if GradingView.isBatchRunningRef s
      then GradingView.effects s'
           = GradingView.effects s
             ++ [GradingView.SetTimeout (GradingView.ScanPage r) 2000]
           /\ GradingView.pending s'
              = GradingView.pending s
                ++ [GradingView.Timer (GradingView.ScanPage r)]
           /\ GradingView.errorMsg s' = None
           /\ GradingView.status s' = GradingView.status s
      else Scenario.shownAsError "插件通信发生未知错误" s s').
Proof.
  split.
  - intros f Hf s'. subst s'.
    destruct (GradingView.isBatchRunningRef s) eqn:Hrun.
    + destruct f as [|response|response]; cbn in Hf |- *;
        unfold GradingView.onPageResponse, GradingView.handleScanError;
        rewrite ?Hf, Hrun; repeat split.
    + destruct f as [|response|response]; cbn in Hf |- *;
        unfold GradingView.onPageResponse, GradingView.handleScanError;
        rewrite ?Hf, Hrun; [repeat split..|].
      destruct response as [[ok data [[|c e]|]]|]; repeat split.
  - intros Hruntime Htabs s'. subst s'. unfold GradingView.scanPage.
    destruct (GradingView.isBatchRunningRef s) eqn:Hrun; cbn.
    + rewrite Hruntime, Htabs. cbn.
      unfold GradingView.handleScanError. cbn. rewrite Hrun.
      repeat split.
    + rewrite Hruntime, Htabs. cbn.
      unfold GradingView.handleScanError. cbn. rewrite Hrun.
      repeat split; eauto.
Qed.

Lemma scan_failure_error_iff_not_running_witness :
  Scenario.shownAsError "no image" Scenario.ready
    (Scenario.afterFailure (GradingView.render Scenario.ready)
       (Scenario.NoPageData
          (Some (GradingView.mkScanResponse false None (Some "no image"))))
       Scenario.ready)
  /\ Scenario.retriedOnce (GradingView.render Scenario.ready)
       (GradingView.set_isBatchRunningRef true Scenario.ready)
       (Scenario.afterFailure (GradingView.render Scenario.ready)
          Scenario.NoActiveTab
          (GradingView.set_isBatchRunningRef true Scenario.ready)).
Proof.
  split.
  - exact (proj1 (scan_failure_error_iff_not_running
                    (GradingView.render Scenario.ready) Scenario.ready)
             (Scenario.NoPageData
                (Some (GradingView.mkScanResponse false None
                         (Some "no image"))))
             eq_refl).
  - exact (proj1
             (proj1 (scan_failure_error_iff_not_running
                       (GradingView.render Scenario.ready)
                       (GradingView.set_isBatchRunningRef true
                          Scenario.ready))
                Scenario.NoActiveTab I)).
Defined.

(** C6, as the specification has it: once the flag is cleared, no
    continuation that resumes submits a score.  From [ready] the batch is
    started, student B is graded 8, and the operator pauses within the
    800 ms before the submission: the flag is clear and no score has been
    sent.  The submission timer still fires, and its callback, which does
    not read the flag before it fills, sends FILL_SCORE with 8 and records
    student B in the history. *)
Lemma pending_submit_survives_pause :
  exists paused final,
    GradingView.run Scenario.pausedBeforeSubmit Scenario.ready = Some paused
    /\ GradingView.isBatchRunningRef paused = false
    /\ Scenario.countIf Scenario.isFill (GradingView.effects paused) = 0
    /\ GradingView.grading_history paused = None
    /\ GradingView.run Scenario.submitTimerRuns paused = Some final
    /\ GradingView.isBatchRunningRef final = false
    /\ last (GradingView.effects final)
       = Some (GradingView.SendMessage 1 (GradingView.FILL_SCORE 8 "ZHIXUE"))
    /\ Scenario.countIf Scenario.isFill (GradingView.effects final) = 1
    /\ (exists item,
          GradingView.grading_history final = Some (HistoryArray [item])
          /\ name item = "B" /\ score item = Some 8%float)
    /\ ~ Scenario.idleSince paused final.
Proof.
  eexists _, _. split; [vm_compute; reflexivity|].
  split; [reflexivity|]. split; [reflexivity|]. split; [reflexivity|].
  split; [vm_compute; reflexivity|].
  split; [reflexivity|]. split; [reflexivity|]. split; [reflexivity|].
  split; [eexists; split; [reflexivity|split; reflexivity]|].
  intros (Hfill & _). vm_compute in Hfill. discriminate.
Qed.

(** C6, amended.  With the flag clear, whichever continuation resumes (a
    timer, the callback of a scan, the callback of the grading call) leaves
    the flag clear, counts no paper, keeps the name graded last and sets no
    timer for a scan or for an automatic submission; unless it is the
    timer of an automatic submission that was set before, or the tabs query
    of one, it sends no FILL_SCORE and starts no submission.  Over any run
    of continuations the FILL_SCORE messages sent are at most the
    submissions that were waiting when the flag was cleared: with none
    waiting, none is sent. *)
Theorem stopped_loop_only_finishes_waiting_submits (s : GradingView.State) :
  GradingView.isBatchRunningRef s = false ->
  (forall p i s',
     GradingView.resume p i s = Some s' ->
     Scenario.settled (if Scenario.submitWaits p then 1 else 0) s s')
  /\ (forall events s',
        Forall (fun e => Scenario.isResume e = true) events ->
        GradingView.run events s = Some s' ->
        GradingView.isBatchRunningRef s' = false
        /\ GradingView.lastGradedNameRef s' = GradingView.lastGradedNameRef s
        /\ Scenario.countIf Scenario.isFill (GradingView.effects s')
           + Scenario.countIf Scenario.submitWaits (GradingView.pending s')
           <= Scenario.countIf Scenario.isFill (GradingView.effects s)
              + Scenario.countIf Scenario.submitWaits (GradingView.pending s)
        /\ (Scenario.countIf Scenario.submitWaits (GradingView.pending s) = 0
            -> Scenario.idleSince s s')
        /\ Scenario.countIf Scenario.isScanTimer (GradingView.effects s')
           = Scenario.countIf Scenario.isScanTimer (GradingView.effects s)
        /\ Scenario.countIf Scenario.isSubmitTimer (GradingView.effects s')
           = Scenario.countIf Scenario.isSubmitTimer (GradingView.effects s)
        /\ GradingView.batchCount s' = GradingView.batchCount s).
Proof.
  intros Hstop. split.
  - intros p i s' Hresume. exact (resume_stopped p i s s' Hstop Hresume).
  - intros events s' Hevents Hrun.
    exact (run_stopped events s s' Hstop Hevents Hrun).
Qed.

(** The loop is paused while the grading call for student B is in
    flight; the call then succeeds with 8 marks: the result is displayed,
    and nothing is submitted, scheduled or counted. *)
Lemma stopped_loop_only_finishes_waiting_submits_witness :
  exists s',
    GradingView.run
      [GradingView.Resume 0
         (GradingView.Graded (Some (Scenario.gradedWith 8)))]
      Scenario.pausedWhileGrading = Some s'
    /\ GradingView.status s' = GradingView.review
    /\ GradingView.isBatchRunningRef s' = false
    /\ Scenario.idleSince Scenario.pausedWhileGrading s'.
Proof.
  destruct (GradingView.run
              [GradingView.Resume 0
                 (GradingView.Graded (Some (Scenario.gradedWith 8)))]
              Scenario.pausedWhileGrading) as [s'|] eqn:Hrun;
    [|vm_compute in Hrun; discriminate].
  exists s'. split; [reflexivity|].
  split; [vm_compute in Hrun; by injection Hrun as <-|].
  destruct (stopped_loop_only_finishes_waiting_submits
              Scenario.pausedWhileGrading eq_refl) as [_ Hruns].
  destruct (Hruns [GradingView.Resume 0
                     (GradingView.Graded (Some (Scenario.gradedWith 8)))] s'
              ltac:(repeat constructor) Hrun)
    as (Hstop & _ & _ & Hidle & _).
  split; [exact Hstop|]. apply Hidle. reflexivity.
Defined.

(* ===================================================================== *)
(** * Invariants of the grading loop *)
(* ===================================================================== *)

Section LoopInvariants.
Import GradingView Scenario Notions.

Ltac by_render r :=
  destruct r as [rmode rctx rres rhealth [rconf rrubric rstrategy]].

Ltac keep :=
  unfold kept, flagsAgree, allBorn, rubricsGiven;
  lazy -[bool_decide Nat.add Nat.le app Js.truthy_string Js.or_string
         countIf pretty History.recordHistory renderOf forallb
         assessHasRubric DEFAULT_GENERIC_RUBRIC offPlatform];
  rewrite ?countIf_app, ?Forall_app, ?forallb_app;
  cbn [forallb assessHasRubric andb];
  repeat match goal with
         | H : Js.truthy_string _ = _ |- _ => rewrite H; clear H
         end;
  repeat match goal with
         | |- context [forallb ?f ?l] =>
             is_var l; generalize (forallb f l); intro
         end;
  repeat match goal with
         | |- context [countIf ?f ?l] =>
             is_var l; generalize (countIf f l); intro
         end;
  cbv [countIf List.filter length offPlatform];
  rewrite ?bool_decide_eq_true_2 by reflexivity;
  cbn [negb];
  split_and!; intros; simplify_eq;
  try done; try lia; try (by left);
  try (by right; eexists _, _, _, _);
  try (split_and?; try done; repeat constructor; done).

Lemma handleScanError_kept Q r msg s : kept Q r s (handleScanError r msg s).
Proof. by_fields s. destruct ref0; keep. Qed.

Lemma handlePageData_kept Q r data s : kept Q r s (handlePageData r data s).
Proof.
  by_fields s. by_render r. unfold handlePageData.
  cbn [r_props isRubricConfigured currentRubric r_mode].
  destruct rconf, (Js.truthy_string rrubric) eqn:Hrubric,
    (bool_decide (rmode = Batch)), ref0; keep.
Qed.

Lemma scanPage_kept Q r s : kept Q r s (scanPage r s).
Proof. by_fields s. destruct ref0, runtime0, tabs0; keep. Qed.

Lemma mockScan_kept Q r random s : kept Q r s (mockScan r random s).
Proof.
  unfold mockScan.
  destruct (bool_decide _ && isBatchRunningRef s) eqn:Hwait.
  - by_fields s. keep.
  - exact (handlePageData_kept Q r _ (set_scanWaitCount 0 s)).
Qed.

Lemma onScanTabs_kept Q r activeTab s : kept Q r s (onScanTabs r activeTab s).
Proof.
  destruct activeTab as [tab|]; [|apply handleScanError_kept].
  by_fields s. keep.
Qed.

Lemma onPageResponse_kept Q r lastError response s :
  kept Q r s (onPageResponse r lastError response s).
Proof.
  unfold onPageResponse.
  destruct lastError; [apply handleScanError_kept|].
  destruct (scanData response) as [data|].
  - destruct (isBatchRunningRef s && bool_decide _) eqn:Hwait.
    + by_fields s. keep.
    + exact (handlePageData_kept Q r data (set_scanWaitCount 0 s)).
  - destruct (isBatchRunningRef s) eqn:Hrun; [|apply handleScanError_kept].
    by_fields s. keep.
Qed.

Lemma handleSubmitScore_kept Q r score name now s :
  kept Q r s (handleSubmitScore r score name now s).
Proof.
  by_fields s. by_render r. unfold handleSubmitScore.
  cbn [r_pageContext r_mode].
  destruct rctx as [ctx|], tabs0, (bool_decide (rmode = Batch)), ref0;
    try destruct (Js.truthy_string (platform ctx)); keep.
Qed.

Lemma onFillTabs_kept Q r score activeTab s :
  kept Q r s (onFillTabs r score activeTab s).
Proof. by_fields s. by_render r. destruct activeTab, rctx; keep. Qed.

Lemma onFillResponse_kept Q r score filled s :
  kept Q r s (onFillResponse r score filled s).
Proof.
  by_fields s. by_render r. unfold onFillResponse. cbn [r_mode].
  destruct (bool_decide (rmode = Trial)), filled; keep.
Qed.

Lemma onGraded_kept Q r ctx res s : kept Q r s (onGraded r ctx res s).
Proof.
  by_fields s. by_render r. unfold onGraded. cbn [r_mode].
  destruct res, (bool_decide (rmode = Batch)), ref0; keep.
Qed.

Lemma resume_kept Q p i s s' :
  resume p i s = Some s' -> kept Q (renderOf p) s s'.
Proof.
  intros Hresume.
  destruct p as [[r|r|r sc nm]|r|r|r sc|r sc|r ctx], i; try discriminate;
    cbn [resume] in Hresume; simplify_eq; cbn [renderOf].
  - apply scanPage_kept.
  - apply mockScan_kept.
  - apply handleSubmitScore_kept.
  - apply onScanTabs_kept.
  - apply onPageResponse_kept.
  - apply onFillTabs_kept.
  - apply onFillResponse_kept.
  - apply onGraded_kept.
Qed.

Lemma recordHistory_within_cap res score name now full stored :
  historyWithinCap stored ->
  historyWithinCap (History.recordHistory res score name now full stored).
Proof.
  intros Hcap. unfold History.recordHistory.
  destruct res as [res|]; [|done].
  destruct full; [by destruct stored as [[| |l]|]|].
  destruct stored as [[| |l]|]; try done; cbn [historyWithinCap] in *;
    rewrite length_map.
  - destruct (decide (length l < 500)).
    + rewrite push_capped_below by done. cbn. lia.
    + rewrite push_capped_full by lia. rewrite pop_length. cbn. lia.
  - rewrite push_capped_below by (cbn; lia). cbn. lia.
Qed.

Lemma startBatch_rubricsGiven r s :
  rubricsGiven s -> rubricsGiven (startBatch r s).
Proof.
  intros Hgiven. unfold startBatch. case_match.
  - by_fields s. unfold rubricsGiven in *. cbn in *.
    rewrite forallb_app, Hgiven. done.
  - apply (scanPage_kept (fun _ => True)). by_fields s. exact Hgiven.
Qed.

Lemma changeMode_rubricsGiven m s :
  rubricsGiven s -> rubricsGiven (changeMode m s).
Proof.
  intros Hgiven. unfold changeMode. destruct m.
  - apply (scanPage_kept (fun _ => True)). by_fields s. exact Hgiven.
  - by_fields s. exact Hgiven.
Qed.

(** What a step of the event loop keeps, whichever event it is. *)
Lemma step_kept e s s' :
  step e s = Some s' ->
  (flagsAgree s -> flagsAgree s')
  /\ (runsInBatchMode s -> runsInBatchMode s')
  /\ (historyWithinCap (grading_history s) ->
      historyWithinCap (grading_history s'))
  /\ (rubricsGiven s -> rubricsGiven s')
  /\ (unreadable (grading_history s) ->
      grading_history s' = grading_history s).
Proof.
  intros Hstep.
  assert (forall r, (grading_history s' = grading_history s
                     \/ exists score name now full,
                          grading_history s'
                          = History.recordHistory r score name now full
                              (grading_history s)) ->
                    unreadable (grading_history s) ->
                    grading_history s' = grading_history s) as Hunreadable.
  { intros r [Hsame|(sc & nm & nw & fl & Hrec)] Hbad; [done|].
    rewrite Hrec. destruct r; [|done].
    by destruct fl, Hbad as [-> | ->]. }
  destruct e as [k i| | | |now|m|h|p|full].
  - cbn [step] in Hstep.
    destruct (pending s !! k) as [p|] eqn:Hk; [|done]. cbn in Hstep.
    destruct (resume_kept (fun _ => True) p i _ s' Hstep)
      as (Hmode & Hagree & Hflag & _ & Hhist & _ & Hgiven).
    replace (grading_history (set_pending (delete k (pending s)) s))
      with (grading_history s) in Hhist by (by by_fields s).
    split_and!.
    + intros Hflags. apply Hagree. by_fields s. exact Hflags.
    + intros Hbatch Hrun. rewrite Hmode. apply Hflag in Hrun.
      by_fields s. auto.
    + intros Hcap.
      destruct Hhist as [->|(sc & nm & nw & fl & ->)]; [done|].
      by apply recordHistory_within_cap.
    + intros Hrubrics. apply Hgiven. by_fields s. exact Hrubrics.
    + by apply (Hunreadable (r_result (renderOf p))).
  - cbn [step] in Hstep.
    destruct (bool_decide (mode s = Batch)) eqn:Hmode; [|done].
    destruct (isBatchRunning s) eqn:Hrunning; [done|].
    destruct (rubric (health s)) eqn:Hrubric; [|done].
    cbn in Hstep. simplify_eq.
    apply bool_decide_eq_true_1 in Hmode.
    split_and!; [| | |apply startBatch_rubricsGiven|].
    + unfold flagsAgree. intros Hflags. by_fields s.
      destruct health0 as [api0 rubric0 pageLink0].
      unfold startBatch, render. cbn in *. subst.
      destruct api0, pageLink0, runtime0, tabs0; done.
    + intros _ _. by_fields s.
      destruct health0 as [api0 rubric0 pageLink0].
      unfold startBatch, render. cbn in *. subst.
      destruct api0, pageLink0, runtime0, tabs0; done.
    + by_fields s. destruct health0 as [api0 rubric0 pageLink0].
      unfold startBatch, render. cbn in *. subst.
      destruct api0, pageLink0, runtime0, tabs0; done.
    + intros _. by_fields s. destruct health0 as [api0 rubric0 pageLink0].
      unfold startBatch, render. cbn in *. subst.
      destruct api0, pageLink0, runtime0, tabs0; done.
  - cbn [step] in Hstep. case_match; simplify_eq.
    by_fields s. unfold flagsAgree, runsInBatchMode. cbn. split_and!; done.
  - cbn [step] in Hstep. case_match; simplify_eq.
    destruct (scanPage_kept (fun _ => True) (render s) s)
      as (Hmode & Hagree & Hflag & _ & Hhist & _ & Hgiven).
    split_and!; [done| | |done|by apply (Hunreadable (r_result (render s)))].
    + intros Hbatch Hrun. rewrite Hmode. auto.
    + destruct Hhist as [->|(sc & nm & nw & fl & Hrec)]; [done|].
      rewrite Hrec. apply recordHistory_within_cap.
  - cbn [step] in Hstep. destruct (result s) as [res|] eqn:Hres; [|done].
    cbn in Hstep. case_match; simplify_eq.
    destruct (handleSubmitScore_kept (fun _ => True) (render s) (score res)
                (name res) now s)
      as (Hmode & Hagree & Hflag & _ & Hhist & _ & Hgiven).
    split_and!; [done| | |done|by apply (Hunreadable (r_result (render s)))].
    + intros Hbatch Hrun. rewrite Hmode. auto.
    + destruct Hhist as [->|(sc & nm & nw & fl & Hrec)]; [done|].
      rewrite Hrec. apply recordHistory_within_cap.
  - cbn [step] in Hstep. case_match; simplify_eq; [done|].
    split_and!; [| | |apply changeMode_rubricsGiven|];
      by_fields s; unfold changeMode;
      destruct m, runtime0, tabs0;
      unfold flagsAgree, runsInBatchMode; cbn; done.
  - cbn [step] in Hstep. simplify_eq. by_fields s. done.
  - cbn [step] in Hstep. simplify_eq. by_fields s. done.
  - cbn [step] in Hstep. simplify_eq. by_fields s. done.
Qed.

Lemma run_kept events : forall s s',
  run events s = Some s' ->
  (flagsAgree s -> flagsAgree s')
  /\ (runsInBatchMode s -> runsInBatchMode s')
  /\ (historyWithinCap (grading_history s) ->
      historyWithinCap (grading_history s'))
  /\ (rubricsGiven s -> rubricsGiven s')
  /\ (unreadable (grading_history s) ->
      grading_history s' = grading_history s).
Proof.
  induction events as [|e events IH]; intros s s' Hrun.
  - cbn in Hrun. by simplify_eq.
  - rewrite run_cons in Hrun.
    destruct (step e s) as [s1|] eqn:Hstep; [|done]. cbn in Hrun.
    destruct (step_kept e s s1 Hstep) as (H1 & H2 & H3 & H4 & H5).
    destruct (IH s1 s' Hrun) as (H1' & H2' & H3' & H4' & H5').
    split_and!; auto.
    intros Hbad. rewrite <- (H5 Hbad). apply H5'. by rewrite (H5 Hbad).
Qed.

(** A step that resumes a continuation keeps what the renders of the
    waiting continuations have in common, and acts for one of them. *)
Lemma resume_step_born Q k i s s' :
  allBorn Q s ->
  step (Resume k i) s = Some s' ->
  allBorn Q s'
  /\ exists r, Q r
     /\ (grading_history s' = grading_history s
         \/ exists score name now full,
              grading_history s'
              = History.recordHistory (r_result r) score name now full
                  (grading_history s))
     /\ countIf (offPlatform (r_pageContext r)) (effects s')
        = countIf (offPlatform (r_pageContext r)) (effects s).
Proof.
  intros Hborn Hstep. cbn [step] in Hstep.
  destruct (pending s !! k) as [p|] eqn:Hk; [|done]. cbn in Hstep.
  destruct (resume_kept Q p i _ s' Hstep)
    as (_ & _ & _ & Hkeeps & Hhist & Hfill & _).
  assert (Q (renderOf p)) as Hp.
  { unfold allBorn in Hborn. rewrite Forall_lookup in Hborn. eauto. }
  split.
  - apply Hkeeps; [done|]. unfold allBorn in *.
    replace (pending (set_pending (delete k (pending s)) s))
      with (delete k (pending s)) by (by by_fields s).
    by apply Forall_delete.
  - exists (renderOf p). split; [done|].
    replace (grading_history (set_pending (delete k (pending s)) s))
      with (grading_history s) in Hhist by (by by_fields s).
    replace (effects (set_pending (delete k (pending s)) s))
      with (effects s) in Hfill by (by by_fields s).
    done.
Qed.

(** A scan leaves only a continuation of its render behind, and changes
    neither the history nor the FILL_SCORE messages. *)
Lemma scanPage_born Q r s :
  Q r ->
  allBorn Q s ->
  allBorn Q (scanPage r s)
  /\ grading_history (scanPage r s) = grading_history s
  /\ forall start,
       countIf (offPlatform start) (effects (scanPage r s))
       = countIf (offPlatform start) (effects s).
Proof.
  intros Hq Hborn. by_fields s. unfold allBorn in *.
  destruct ref0, runtime0, tabs0;
    lazy -[Nat.add app countIf renderOf offPlatform] in Hborn |- *;
    (split; [|split; [reflexivity|]]).
  all: try (intros start; rewrite ?countIf_app;
            cbv [countIf List.filter length offPlatform]; lia).
  all: try exact Hborn.
  all: apply Forall_app; (split; [exact Hborn|]).
  all: constructor; [exact Hq|constructor].
Qed.

(** Starting the batch leaves only continuations of the render of the
    click behind, and changes neither the history nor the FILL_SCORE
    messages. *)
Lemma startBatch_born Q s :
  Q (render s) ->
  allBorn Q s ->
  allBorn Q (startBatch (render s) s)
  /\ grading_history (startBatch (render s) s) = grading_history s
  /\ forall start,
       countIf (offPlatform start) (effects (startBatch (render s) s))
       = countIf (offPlatform start) (effects s).
Proof.
  intros Hq Hborn. unfold startBatch.
  destruct (negb (api (r_health (render s)))
            || negb (rubric (r_health (render s)))
            || negb (pageLink (r_health (render s)))).
  - split_and!.
    + by by_fields s.
    + by by_fields s.
    + intros start. by_fields s. unfold perform.
      cbn [effects set_effects]. rewrite countIf_app. cbn. lia.
  - destruct (scanPage_born Q (render s)
                (set_lastGradedNameRef None
                   (set_scanWaitCount 0
                      (set_batchCount 0
                         (set_isBatchRunningRef true
                            (set_isBatchRunning true s))))) Hq)
      as (Hborn' & Hhist & Hfill).
    { by by_fields s. }
    split_and!; [exact Hborn'| |].
    + rewrite Hhist. by by_fields s.
    + intros start. rewrite Hfill. by by_fields s.
Qed.

Lemma pop_elem_of {A} (x : A) l : x ∈ History.pop l -> x ∈ l.
Proof.
  destruct l as [|y l _] using rev_ind; [done|].
  rewrite pop_snoc. set_solver.
Qed.

Lemma push_capped_elem_of {A} (e item : A) l :
  e ∈ History.push_capped item l -> e = item \/ e ∈ l.
Proof.
  unfold History.push_capped. case_match.
  - intros Hin%pop_elem_of. set_solver.
  - set_solver.
Qed.

(** A number that the stored text gave back is given back as it is. *)
Lemma json_value_number x : Js.json_value (Js.json_number x) = Js.json_number x.
Proof.
  unfold Js.json_number.
  destruct (PrimFloat.is_nan x || PrimFloat.is_infinity x)%bool eqn:Hfin;
    [done|].
  destruct (PrimFloat.eqb x 0) eqn:Hzero; [done|].
  cbn. unfold Js.json_number. by rewrite Hfin, Hzero.
Qed.

Lemma json_value_idem x : Js.json_value (Js.json_value x) = Js.json_value x.
Proof. destruct x as [x|]; [apply json_value_number|done]. Qed.

Lemma map_item_ext {A B} (f g : A -> B) b :
  (forall x, f x = g x) -> map_item f b = map_item g b.
Proof.
  intros Hfg. destruct b as [l sc mx c n area]. unfold map_item. cbn.
  rewrite !Hfg. f_equal.
  destruct area as [area|]; [|done]. cbn. f_equal.
  induction area as [|x area IH]; [done|]. cbn. by rewrite Hfg, IH.
Qed.

Lemma map_result_ext {A B} (f g : A -> B) r :
  (forall x, f x = g x) -> map_result f r = map_result g r.
Proof.
  intros Hfg. destruct r as [i n c no sc mx cm bd]. unfold map_result. cbn.
  rewrite !Hfg. f_equal.
  induction bd as [|b bd IH]; [done|].
  cbn. by rewrite (map_item_ext f g b), IH.
Qed.

Lemma rewritten_idem e : rewritten (rewritten e) = rewritten e.
Proof.
  unfold rewritten. rewrite map_result_compose.
  apply map_result_ext. intros x. apply json_value_idem.
Qed.

Lemma rewritten_asStored res : rewritten (asStored res) = asStored res.
Proof.
  unfold rewritten, asStored. rewrite map_result_compose.
  apply map_result_ext. intros x. apply json_value_number.
Qed.

(** An entry written from a result is still one after a later write. *)
Lemma copiedFrom_rewritten res e :
  copiedFrom res e -> copiedFrom res (rewritten e).
Proof.
  intros (Hclass & Hno & Hmax & Hcomment & Hbreakdown).
  pose proof (rewritten_asStored res) as Hstored.
  unfold copiedFrom. split_and!; try done.
  - change (maxScore (rewritten e)) with (Js.json_value (maxScore e)).
    rewrite Hmax.
    change (Js.json_value (maxScore (asStored res)))
      with (maxScore (rewritten (asStored res))).
    by rewrite Hstored.
  - change (breakdown (rewritten e))
      with (map (map_item Js.json_value) (breakdown e)).
    rewrite Hbreakdown.
    change (map (map_item Js.json_value) (breakdown (asStored res)))
      with (breakdown (rewritten (asStored res))).
    by rewrite Hstored.
Qed.

Lemma keptOrCopied_rewritten start stored e :
  keptOrCopied start stored e -> keptOrCopied start stored (rewritten e).
Proof.
  intros [(e0 & Hin & [->| ->])|(res & -> & Hcopied)].
  - left. exists e0. auto.
  - left. exists e0. rewrite rewritten_idem. auto.
  - right. exists res. split; [done|]. by apply copiedFrom_rewritten.
Qed.

(** The entries after [recordHistory] are the ones before, and at most
    one written from [result]. *)
Lemma recordHistory_entries res score name now full stored e :
  e ∈ entriesOf (History.recordHistory res score name now full stored) ->
  keptOrCopied res stored e.
Proof.
  unfold History.recordHistory, keptOrCopied.
  destruct res as [res|]; [|intros; left; exists e; auto].
  assert (forall l,
            e ∈ map History.written
                  (History.push_capped
                     (History.element
                        (History.historyItem res score name now)) l) ->
            (exists e0, e0 ∈ l /\ (e = e0 \/ e = rewritten e0))
            \/ exists res0, Some res = Some res0 /\ copiedFrom res0 e)
    as Hwritten.
  { intros l (e1 & -> & [->|Hin]%push_capped_elem_of)%list_elem_of_fmap.
    - right. exists res. split; [done|].
      rewrite written_element. by repeat split.
    - left. exists e1. split; [done|]. by right. }
  destruct full.
  - intros He. left. exists e. split; [|by left].
    by destruct stored as [[| |l]|].
  - destruct stored as [[| |l]|]; cbn [entriesOf].
    + intros He. left. exists e. auto.
    + intros He. left. exists e. auto.
    + apply Hwritten.
    + intros He. destruct (Hwritten [] He) as [(e0 & Hin & _)|Hnew];
        [by apply elem_of_nil in Hin|by right].
Qed.

(** An entry kept or copied since a later state was kept or copied since
    an earlier one. *)
Lemma keptOrCopied_trans start stored stored1 e :
  (forall e0, e0 ∈ entriesOf stored1 -> keptOrCopied start stored e0) ->
  keptOrCopied start stored1 e ->
  keptOrCopied start stored e.
Proof.
  intros Hfirst [(e0 & Hin & [->| ->])|Hnew]; [| |by right].
  - by apply Hfirst.
  - apply keptOrCopied_rewritten. by apply Hfirst.
Qed.

Lemma resumes_born start ctx events : forall s s',
  forallb unattended events = true ->
  allBorn (fun r => r_result r = start /\ r_pageContext r = ctx) s ->
  run events s = Some s' ->
  (start = None -> grading_history s' = grading_history s)
  /\ (forall e, e ∈ entriesOf (grading_history s') ->
                keptOrCopied start (grading_history s) e)
  /\ countIf (offPlatform ctx) (effects s')
     = countIf (offPlatform ctx) (effects s).
Proof.
  induction events as [|ev events IH]; intros s s' Hres Hborn Hrun.
  - cbn in Hrun. simplify_eq. split_and!; [done| |done].
    intros e He. left. exists e. auto.
  - rewrite run_cons in Hrun.
    destruct (step ev s) as [s1|] eqn:Hstep; [|done]. cbn in Hrun.
    cbn [forallb] in Hres. apply andb_true_iff in Hres as [Hev Hres].
    destruct ev as [k i| | | | | | | |full]; try discriminate.
    2: { cbn [step] in Hstep. simplify_eq.
         destruct (IH (set_storageFull full s) s' Hres) as (H1 & H2 & H3);
           [by by_fields s|done|].
         replace (grading_history (set_storageFull full s))
           with (grading_history s) in * by (by by_fields s).
         replace (effects (set_storageFull full s))
           with (effects s) in * by (by by_fields s).
         done. }
    destruct (resume_step_born _ k i s s1 Hborn Hstep)
      as (Hborn1 & r & [Hr Hc] & Hhist & Hfill).
    destruct (IH s1 s' Hres Hborn1 Hrun) as (Hnone & Hentries & Hfills).
    rewrite Hr in Hhist. rewrite Hc in Hfill.
    split_and!.
    + intros ->. rewrite Hnone by done.
      destruct Hhist as [->|(sc & nm & nw & fl & ->)]; done.
    + intros e He. apply (keptOrCopied_trans _ _ (grading_history s1));
        [|by apply Hentries].
      intros e0 He0.
      destruct Hhist as [Hsame|(sc & nm & nw & fl & Hrec)].
      * left. exists e0. rewrite <- Hsame. auto.
      * rewrite Hrec in He0. by apply recordHistory_entries in He0.
    + by rewrite Hfills.
Qed.

End LoopInvariants.

Lemma unscanned_reachable :
  GradingView.run Cases.firstScanFails
    (GradingView.changeMode Trial Scenario.initial)
  = Some Cases.unscanned.
Proof. vm_compute. reflexivity. Qed.

(** X1. The [isBatchRunning] state, which the panel shows, and the ref
    [isBatchRunningRef], which the loop reads, never come apart: when they
    agree before a run of events (clicks, mode changes, timers, replies),
    they agree after it. *)
Theorem running_flag_agrees_with_ref events s s' :
  Notions.flagsAgree s ->
  GradingView.run events s = Some s' ->
  Notions.flagsAgree s'.
Proof. intros Hflags Hrun. by apply (run_kept events s s' Hrun). Qed.

Lemma running_flag_agrees_with_ref_witness :
  exists s',
    GradingView.run Scenario.pausedBeforeSubmit Scenario.ready = Some s'
    /\ GradingView.isBatchRunning s' = GradingView.isBatchRunningRef s'.
Proof.
  destruct (GradingView.run Scenario.pausedBeforeSubmit Scenario.ready)
    as [s'|] eqn:Hrun; [|vm_compute in Hrun; discriminate].
  exists s'. split; [reflexivity|].
  exact (running_flag_agrees_with_ref Scenario.pausedBeforeSubmit
           Scenario.ready s' eq_refl Hrun).
Defined.

(** X2. The loop runs only in batch mode: when the ref is set, the mode is
    batch, and every event keeps it so (a change of mode stops the loop,
    and the start button is there in batch mode only). *)
Theorem loop_runs_only_in_batch_mode events s s' :
  Notions.runsInBatchMode s ->
  GradingView.run events s = Some s' ->
  GradingView.isBatchRunningRef s' = true ->
  GradingView.mode s' = Batch.
Proof. intros Hbatch Hrun. by apply (run_kept events s s' Hrun). Qed.

Lemma loop_runs_only_in_batch_mode_witness :
  exists s',
    GradingView.run Cases.oneBatchPaper Scenario.ready = Some s'
    /\ GradingView.isBatchRunningRef s' = true
    /\ GradingView.mode s' = Batch.
Proof.
  destruct (GradingView.run Cases.oneBatchPaper Scenario.ready)
    as [s'|] eqn:Hrun; [|vm_compute in Hrun; discriminate].
  assert (GradingView.isBatchRunningRef s' = true) as Href.
  { vm_compute in Hrun. injection Hrun as <-. reflexivity. }
  exists s'. split; [reflexivity|]. split; [exact Href|].
  apply (loop_runs_only_in_batch_mode Cases.oneBatchPaper Scenario.ready s');
    [discriminate | exact Hrun | exact Href].
Defined.

(** X3. The stored history never grows past 500 entries: when the
    'grading_history' entry is absent or an array of at most 500 results,
    it is an array of at most 500 results (or still absent) after every
    run of events. *)
Theorem history_stays_within_cap events s s' :
  Notions.historyWithinCap (GradingView.grading_history s) ->
  GradingView.run events s = Some s' ->
  Notions.historyWithinCap (GradingView.grading_history s').
Proof. intros Hcap Hrun. by apply (run_kept events s s' Hrun). Qed.

(** A history of 500 entries, and one paper through the batch: the
    history has 500 entries again, student B first. *)
Lemma history_stays_within_cap_witness :
  exists s' first rest,
    GradingView.run Cases.oneBatchPaper Cases.readyAtCap = Some s'
    /\ Notions.historyWithinCap (GradingView.grading_history s')
    /\ GradingView.grading_history s' = Some (HistoryArray (first :: rest))
    /\ name first = "B"
    /\ length (first :: rest) = 500.
Proof.
  destruct (GradingView.run Cases.oneBatchPaper Cases.readyAtCap)
    as [s'|] eqn:Hrun; [|vm_compute in Hrun; discriminate].
  pose proof (history_stays_within_cap Cases.oneBatchPaper Cases.readyAtCap
                s' ltac:(vm_compute; lia) Hrun) as Hcap.
  vm_compute in Hrun. injection Hrun as <-.
  eexists _, _, _. split; [reflexivity|]. split; [exact Hcap|].
  split; [reflexivity|]. split; reflexivity.
Defined.

(** X4. A history that cannot be read is never repaired: when the
    'grading_history' entry holds a text that does not parse, or a value
    that is not an array, no event changes it, so nothing is recorded,
    and the analysis panel keeps failing on it or reporting no data. *)
Theorem unreadable_history_is_never_repaired events s s' :
  Notions.unreadable (GradingView.grading_history s) ->
  GradingView.run events s = Some s' ->
  GradingView.grading_history s' = GradingView.grading_history s
  /\ AnalysisView.insightRequest
       (AnalysisView.calculateStats (GradingView.grading_history s')) = None.
Proof.
  intros Hbad Hrun.
  assert (GradingView.grading_history s' = GradingView.grading_history s)
    as Hsame by (by apply (run_kept events s s' Hrun)).
  split; [exact Hsame|]. rewrite Hsame. by destruct Hbad as [-> | ->].
Qed.

Lemma unreadable_history_is_never_repaired_witness :
  exists s',
    GradingView.run Cases.oneBatchPaper
      (GradingView.set_grading_history (Some Unparsable) Scenario.ready)
    = Some s'
    /\ GradingView.batchCount s' = 1
    /\ GradingView.grading_history s' = Some Unparsable.
Proof.
  destruct (GradingView.run Cases.oneBatchPaper
              (GradingView.set_grading_history (Some Unparsable)
                 Scenario.ready)) as [s'|] eqn:Hrun;
    [|vm_compute in Hrun; discriminate].
  exists s'. split; [reflexivity|]. split.
  - vm_compute in Hrun. injection Hrun as <-. reflexivity.
  - exact (proj1 (unreadable_history_is_never_repaired Cases.oneBatchPaper
                    (GradingView.set_grading_history (Some Unparsable)
                       Scenario.ready) s' (or_introl eq_refl) Hrun)).
Defined.

(** X5. The grading service is never called with an empty rubric: when no
    call so far carried one, none does after a run of events, whatever
    the parent passes as rubric (the panel falls back to the generic
    rubric, or stops the batch). *)
Theorem grading_never_called_with_empty_rubric events s s' :
  Notions.rubricsGiven s ->
  GradingView.run events s = Some s' ->
  Notions.rubricsGiven s'.
Proof. intros Hgiven Hrun. by apply (run_kept events s s' Hrun). Qed.

Lemma grading_never_called_with_empty_rubric_witness :
  exists s',
    GradingView.run (Scenario.answered 1 (Scenario.pageOf "A"))
      (GradingView.changeMode Trial Cases.noRubric) = Some s'
    /\ Scenario.countIf Scenario.isAssess (GradingView.effects s') = 1
    /\ Notions.rubricsGiven s'.
Proof.
  destruct (GradingView.run (Scenario.answered 1 (Scenario.pageOf "A"))
              (GradingView.changeMode Trial Cases.noRubric))
    as [s'|] eqn:Hrun; [|vm_compute in Hrun; discriminate].
  exists s'. split; [reflexivity|]. split.
  - vm_compute in Hrun. injection Hrun as <-. reflexivity.
  - exact (grading_never_called_with_empty_rubric
             (Scenario.answered 1 (Scenario.pageOf "A"))
             (GradingView.changeMode Trial Cases.noRubric) s' eq_refl Hrun).
Defined.

(** X6. A batch writes its history entries from the result that was on
    the panel when Start was clicked: every entry the history has after
    the batch was started and its continuations ran (the storage taking
    the writes or refusing them) is an entry from before (as it was, or
    as a write of the list gives it back), or has
    the class name, the student number, the comment and, as the stored
    text gives them back, the full marks and the breakdown of that result;
    when the panel showed no result, the history is not changed at all. *)
Theorem batch_history_copies_result_of_start events s s' :
  GradingView.pending s = [] ->
  forallb Notions.unattended events = true ->
  GradingView.run (GradingView.ClickStart :: events) s = Some s' ->
  (GradingView.result s = None ->
   GradingView.grading_history s' = GradingView.grading_history s)
  /\ forall e,
       e ∈ Notions.entriesOf (GradingView.grading_history s') ->
       Notions.keptOrCopied (GradingView.result s)
         (GradingView.grading_history s) e.
Proof.
  intros Hnone Hres Hrun. rewrite run_cons in Hrun.
  destruct (GradingView.step GradingView.ClickStart s) as [s1|] eqn:Hstep;
    [|done].
  cbn in Hrun. cbn [GradingView.step] in Hstep.
  case_match; simplify_eq.
  destruct (startBatch_born
              (fun r => GradingView.r_result r = GradingView.result s
                        /\ GradingView.r_pageContext r
                           = GradingView.pageContext s) s)
    as (Hborn & Hhist & _).
  { by by_fields s. }
  { unfold Notions.allBorn. rewrite Hnone. constructor. }
  destruct (resumes_born _ _ events _ s' Hres Hborn Hrun)
    as (Hsame & Hentries & _).
  rewrite Hhist in Hsame, Hentries. done.
Qed.

(** From [ready], which shows the result of student A, student B is
    graded and submitted: the entry written has the fields of the result
    of A.  From [unscanned], which shows no result, nothing is written. *)
Lemma batch_history_copies_result_of_start_witness :
  (exists s' e,
     GradingView.run Cases.oneBatchPaper Scenario.ready = Some s'
     /\ GradingView.grading_history s' = Some (HistoryArray [e])
     /\ name e = "B"
     /\ exists res, GradingView.result Scenario.ready = Some res
                    /\ Notions.copiedFrom res e)
  /\ exists s',
       GradingView.run Cases.oneBatchPaper Cases.unscanned = Some s'
       /\ GradingView.batchCount s' = 1
       /\ GradingView.grading_history s' = None.
Proof.
  split.
  - destruct (GradingView.run Cases.oneBatchPaper Scenario.ready)
      as [s'|] eqn:Hrun; [|vm_compute in Hrun; discriminate].
    destruct (batch_history_copies_result_of_start Cases.gradeAndSubmitB
                Scenario.ready s' eq_refl eq_refl Hrun) as [_ Hentries].
    vm_compute in Hrun. injection Hrun as <-.
    eexists _, _. split; [reflexivity|]. split; [reflexivity|].
    split; [reflexivity|].
    destruct (Hentries _ ltac:(left)) as [(e0 & Hin & _)|Hcopied];
      [by apply elem_of_nil in Hin|exact Hcopied].
  - destruct (GradingView.run Cases.oneBatchPaper Cases.unscanned)
      as [s'|] eqn:Hrun; [|vm_compute in Hrun; discriminate].
    exists s'. split; [reflexivity|]. split.
    + vm_compute in Hrun. injection Hrun as <-. reflexivity.
    + destruct (batch_history_copies_result_of_start Cases.gradeAndSubmitB
                  Cases.unscanned s' eq_refl eq_refl Hrun) as [Hsame _].
      exact (Hsame eq_refl).
Defined.

(** X7. A batch fills scores in for the platform of the page data that
    was on the panel when Start was clicked: the batch and its
    continuations send no FILL_SCORE message for another platform, and
    none at all when the panel had no page data. *)
Theorem batch_fills_for_platform_of_start events s s' :
  GradingView.pending s = [] ->
  forallb Notions.unattended events = true ->
  GradingView.run (GradingView.ClickStart :: events) s = Some s' ->
  Scenario.countIf (Notions.offPlatform (GradingView.pageContext s))
    (GradingView.effects s')
  = Scenario.countIf (Notions.offPlatform (GradingView.pageContext s))
      (GradingView.effects s).
Proof.
  intros Hnone Hres Hrun. rewrite run_cons in Hrun.
  destruct (GradingView.step GradingView.ClickStart s) as [s1|] eqn:Hstep;
    [|done].
  cbn in Hrun. cbn [GradingView.step] in Hstep.
  case_match; simplify_eq.
  destruct (startBatch_born
              (fun r => GradingView.r_result r = GradingView.result s
                        /\ GradingView.r_pageContext r
                           = GradingView.pageContext s) s)
    as (Hborn & _ & Hfill).
  { by by_fields s. }
  { unfold Notions.allBorn. rewrite Hnone. constructor. }
  destruct (resumes_born _ _ events _ s' Hres Hborn Hrun)
    as (_ & _ & Hfills).
  by rewrite Hfills, Hfill.
Qed.

(** From [ready], whose page data are of the first platform, the one
    FILL_SCORE message of the batch is for that platform.  From
    [unscanned], which has no page data, no FILL_SCORE message is sent. *)
Lemma batch_fills_for_platform_of_start_witness :
  (exists s',
     GradingView.run Cases.oneBatchPaperFilled Scenario.ready = Some s'
     /\ last (GradingView.effects s')
        = Some (GradingView.SendMessage 1 (GradingView.FILL_SCORE 8 "ZHIXUE"))
     /\ Scenario.countIf Scenario.isFill (GradingView.effects s') = 1
     /\ Scenario.countIf
          (Notions.offPlatform (Some (Scenario.pageOf "A")))
          (GradingView.effects s') = 0)
  /\ exists s',
       GradingView.run Cases.oneBatchPaper Cases.unscanned = Some s'
       /\ GradingView.lastGradedNameRef s' = Some "B"
       /\ Scenario.countIf Scenario.isFill (GradingView.effects s') = 0.
Proof.
  split.
  - destruct (GradingView.run Cases.oneBatchPaperFilled Scenario.ready)
      as [s'|] eqn:Hrun; [|vm_compute in Hrun; discriminate].
    exists s'. split; [reflexivity|].
    pose proof (batch_fills_for_platform_of_start
                  (Cases.gradeAndSubmitB
                   ++ [GradingView.Resume 0 (GradingView.Tabs (Some 1))])
                  Scenario.ready s' eq_refl eq_refl Hrun) as Hoff.
    split; [vm_compute in Hrun; by injection Hrun as <-|].
    split; [vm_compute in Hrun; by injection Hrun as <-|].
    exact Hoff.
  - destruct (GradingView.run Cases.oneBatchPaper Cases.unscanned)
      as [s'|] eqn:Hrun; [|vm_compute in Hrun; discriminate].
    exists s'. split; [reflexivity|]. split.
    + vm_compute in Hrun. injection Hrun as <-. reflexivity.
    + exact (batch_fills_for_platform_of_start Cases.gradeAndSubmitB
               Cases.unscanned s' eq_refl eq_refl Hrun).
Defined.

(* ===================================================================== *)
(** * More properties of the score filling *)
(* ===================================================================== *)

Section FillingFacts.
Import Content Scenario Filling.

Lemma append_cons c s t : String c s +:+ t = String c (s +:+ t).
Proof. reflexivity. Qed.

Lemma startsWith_spec s p :
  startsWith s p = true <-> exists after, s = p +:+ after.
Proof.
  revert s. induction p as [|a p IH]; intros s.
  - destruct s; cbn; (split; [intros _; by eexists|done]).
  - destruct s as [|b s]; cbn.
    + split; [done|]. by intros [after ?].
    + case_decide as Hab.
      * subst. rewrite IH. split; intros [after Heq]; exists after.
        -- by rewrite Heq.
        -- rewrite append_cons in Heq. by simplify_eq.
      * split; [done|]. intros [after Heq].
        rewrite append_cons in Heq. by simplify_eq.
Qed.

Lemma includes_spec sub s : includes s sub = true <-> occursIn sub s.
Proof.
  unfold occursIn. induction s as [|c s IH].
  - cbn [includes]. rewrite orb_false_r, startsWith_spec. split.
    + intros [after ->]. by exists "", after.
    + intros (before & after & Heq). destruct before; [by eauto|done].
  - cbn [includes]. rewrite orb_true_iff, startsWith_spec, IH. split.
    + intros [[after ->]|(before & after & ->)].
      * by exists "", after.
      * by exists (String c before), after.
    + intros (before & after & Heq). destruct before as [|b before].
      * left. by exists after.
      * right. rewrite append_cons in Heq. simplify_eq.
        by exists before, after.
Qed.

Lemma selectInput_first_displayed page before : forall sel after el input,
  noneDisplayed page before ->
  findsDisplayed page sel el ->
  selectInput page (before ++ sel :: after) input = Some el.
Proof.
  induction before as [|s before IH]; intros sel after el input Hnone [Hq Hv].
  - cbn. by rewrite Hq, Hv.
  - cbn [app selectInput].
    assert (noneDisplayed page before) as Hrest.
    { intros s' e Hin. apply Hnone. by right. }
    destruct (querySelector page s) as [e|] eqn:Hs.
    + destruct (offsetParentIsNull page e) eqn:He; cbn [negb].
      * by apply IH.
      * exfalso. apply (Hnone s e); [by left|done].
    + by apply IH.
Qed.

Lemma selectInput_found page selectors : forall input el,
  selectInput page selectors input = Some el ->
  input = Some el \/ exists sel, sel ∈ selectors
                                 /\ querySelector page sel = Some el.
Proof.
  induction selectors as [|sel rest IH]; intros input el Hsel; [by left|].
  cbn [selectInput] in Hsel. right.
  destruct (querySelector page sel) as [e|] eqn:Hq.
  - destruct (negb (offsetParentIsNull page e)).
    + simplify_eq. exists sel. split; [by left|done].
    + destruct (IH _ _ Hsel) as [Hin|(sel' & Hin & Hq')].
      * simplify_eq. exists sel. split; [by left|done].
      * exists sel'. split; [by right|done].
  - destruct (IH _ _ Hsel) as [Hin|(sel' & Hin & Hq')]; [done|].
    exists sel'. split; [by right|done].
Qed.

End FillingFacts.

(** X8. The selectors are ranked: the element that the first selector
    with a displayed match finds gets the score, the selectors of the
    platform coming before the generic ones, whatever a later selector
    finds and wherever the focus is; when that element is not an INPUT the
    call fails and writes nothing.  This is so for every platform tag
    under which the table inherits nothing; under the name of an inherited
    property the call throws before it looks at the page. *)
Theorem tryFillScore_first_displayed_match
    page score platformHint before sel after el :
  Content.selectorsFor (Filling.platformFor page platformHint)
  = before ++ sel :: after ->
  Filling.noneDisplayed page before ->
  Filling.findsDisplayed page sel el ->
  Content.tryFillScore page score platformHint
  = if bool_decide (Filling.platformFor page platformHint
                    ∈ Content.OBJECT_PROTOTYPE)
    then (Content.FillTypeError, [])
    else if decide (Content.tagName page el = "INPUT")
         then (Content.FillSuccess, Scenario.fills el score)
         else (Content.FillFailure "操作输入框时发生异常", []).
Proof.
  intros Hsels Hnone Hfound. unfold Content.tryFillScore.
  fold (Filling.platformFor page platformHint). rewrite Hsels.
  unfold Content.spreadThrows. case_bool_decide; [done|].
  rewrite (selectInput_first_displayed page before sel after el) by done.
  reflexivity.
Qed.

(** On the page with three inputs the score goes to the match of the
    platform's selector; with the hint 'constructor' the call throws. *)
Lemma tryFillScore_first_displayed_match_witness :
  Content.tryFillScore Filling.rankedPage 8 None
  = (Content.FillSuccess, Scenario.fills 1 8)
  /\ Content.tryFillScore Filling.rankedPage 8 (Some "constructor")
     = (Content.FillTypeError, []).
Proof.
  split.
  - apply (tryFillScore_first_displayed_match Filling.rankedPage 8 None
             [ ".score-input"; ".score-box input"; ".postil-score input";
               "input[ng-model=" +:+ Content.dq +:+ "score" +:+ Content.dq
               +:+ "]" ]
             ".mark-input"
             (default [] (Content.SCORE_INPUT_CONFIGS "GENERIC")) 1).
    + reflexivity.
    + intros sel el Hin [Hq _].
      repeat (apply elem_of_cons in Hin as [->|Hin];
              [vm_compute in Hq; discriminate|]).
      by apply elem_of_nil in Hin.
    + split; reflexivity.
  - apply (tryFillScore_first_displayed_match Filling.rankedPage 8
             (Some "constructor") []
             ("input[type=" +:+ Content.dq +:+ "number" +:+ Content.dq
              +:+ "]")
             [ "input.score"; "input.mark";
               "input[placeholder*=" +:+ Content.dq +:+ "分" +:+ Content.dq
               +:+ "]";
               "input[placeholder*=" +:+ Content.dq +:+ "score"
               +:+ Content.dq +:+ "]" ] 2).
    + reflexivity.
    + intros sel el Hin. by apply elem_of_nil in Hin.
    + split; reflexivity.
Defined.

(** X9. [tryFillScore] writes into one INPUT element or into nothing.
    Under a platform tag that names a property the table inherits, the
    call throws and has not touched the page.  Under any other tag it
    returns: a call that reports success has set the value of one element
    and sent it the four events, the element is an INPUT, and it is the
    focused element or one a selector of the list found; a call that
    reports failure has not touched the page. *)
Theorem tryFillScore_writes_one_input_or_nothing page score platformHint :
  let platform := Filling.platformFor page platformHint in
  (platform ∈ Content.OBJECT_PROTOTYPE
   /\ Content.tryFillScore page score platformHint
      = (Content.FillTypeError, []))
  \/ ((platform ∉ Content.OBJECT_PROTOTYPE)
      /\ ((exists el,
             Content.tryFillScore page score platformHint
             = (Content.FillSuccess, Scenario.fills el score)
             /\ Content.tagName page el = "INPUT"
             /\ (Content.activeElement page = Some el
                 \/ exists sel,
                      sel ∈ Content.selectorsFor platform
                      /\ Content.querySelector page sel = Some el))
          \/ (exists error,
                Content.tryFillScore page score platformHint
                = (Content.FillFailure error, [])))).
Proof.
  intros platform. unfold Content.tryFillScore.
  fold (Filling.platformFor page platformHint). fold platform.
  unfold Content.spreadThrows. case_bool_decide as Hown; [by left|].
  right. split; [done|].
  destruct (Content.selectInput page _ None) as [el|] eqn:Hsel.
  - apply selectInput_found in Hsel as [?|Hsel]; [done|].
    case_decide as Htag; [left|right; eauto].
    exists el. split_and!; [done|done|by right].
  - destruct (Content.activeElement page) as [active|]; [|right; eauto].
    case_decide as Htag; [|right; eauto].
    rewrite decide_True by done. left. exists active.
    split_and!; [done|done|by left].
Qed.

(** X10. [detectPlatform] goes by what occurs in the host name: ZHIXUE when
    'zhixue' occurs in it; otherwise HAOFENSHU when 'haofenshu' or '7net'
    occurs; otherwise GENERIC.  The tag is always one that the table of
    score selectors has an entry for. *)
Theorem detectPlatform_by_host_name host :
  (Content.detectPlatform host = "ZHIXUE"
   <-> Filling.occursIn "zhixue" host)
  /\ (Content.detectPlatform host = "HAOFENSHU"
      <-> ~ Filling.occursIn "zhixue" host
          /\ (Filling.occursIn "haofenshu" host
              \/ Filling.occursIn "7net" host))
  /\ (Content.detectPlatform host = "GENERIC"
      <-> ~ Filling.occursIn "zhixue" host
          /\ ~ Filling.occursIn "haofenshu" host
          /\ ~ Filling.occursIn "7net" host)
  /\ is_Some (Content.SCORE_INPUT_CONFIGS (Content.detectPlatform host)).
Proof.
  rewrite <- !includes_spec. unfold Content.detectPlatform.
  destruct (Content.includes host "zhixue"),
    (Content.includes host "haofenshu"), (Content.includes host "7net");
    cbn [orb]; (split_and!; [| | |by eexists]); split; try done;
    try (intros [? ?]; done); try (intros (? & ? & ?); done);
    try (intros [? [?|?]]; done); try (by intros; split_and!; eauto).
Qed.

(* ===================================================================== *)
(** * More properties of calculateStats *)
(* ===================================================================== *)

Section ReportFacts.
Import AnalysisView Scenario Report.

Lemma inBucket_partition history :
  inBucket 0 history + inBucket 1 history + inBucket 2 history
  + inBucket 3 history = length history.
Proof.
  unfold inBucket. induction history as [|e history IH]; [done|].
  cbn [List.filter length].
  pose proof (bucketOf_bound e) as Hb.
  destruct (bucketOf e) as [|[|[|[|n]]]]; cbn [Nat.eqb length]; lia.
Qed.

Lemma SFcompare_refl_nan f :
  SpecFloat.SFeqb f f = false -> f = SpecFloat.S754_nan.
Proof.
  unfold SpecFloat.SFeqb.
  destruct f as [s|s| |s m e]; cbn; try done.
  - by destruct s.
  - destruct s; rewrite Z.compare_refl, Pos.compare_cont_refl; done.
Qed.

(** A comparison with something that is not a number is false. *)
Lemma ltb_nan x y : PrimFloat.is_nan x = true -> PrimFloat.ltb x y = false.
Proof.
  unfold PrimFloat.is_nan. rewrite negb_true_iff, FloatAxioms.eqb_spec.
  intros Hnan%SFcompare_refl_nan.
  rewrite FloatAxioms.ltb_spec, Hnan. reflexivity.
Qed.

Lemma bucketOf_nan e :
  PrimFloat.is_nan (ratio e) = true -> bucketOf e = 3.
Proof.
  intros Hnan. unfold bucketOf. fold (ratio e). by rewrite !ltb_nan.
Qed.

(** The full marks the report goes by when the first entry was written
    from a result with the full marks [full]. *)
Lemma refMaxScore_asStored (res : StudentResult) :
  refMaxScore (Notions.asStored res)
  = if (PrimFloat.is_nan (maxScore res) || PrimFloat.is_infinity (maxScore res)
        || PrimFloat.eqb (maxScore res) 0)%bool
    then 100%float else maxScore res.
Proof.
  unfold refMaxScore, Notions.asStored. cbn [maxScore map_result].
  unfold Js.json_number, Js.or_json, Js.or_number, Js.falsy_number.
  destruct (PrimFloat.is_nan (maxScore res)) eqn:Hnan; [done|].
  destruct (PrimFloat.is_infinity (maxScore res)); [done|].
  destruct (PrimFloat.eqb (maxScore res) 0) eqn:Hzero; [done|].
  cbn. by rewrite Hzero, Hnan.
Qed.

Lemma pop_cons {A} (x y : A) l : History.pop (x :: y :: l) = x :: History.pop (y :: l).
Proof. reflexivity. Qed.

End ReportFacts.

(** X11. The chart accounts for every entry of the history exactly once:
    the values of the four bars add up to [count].  An entry whose ratio
    score/maxScore is not a number (0 marks out of 0, or both missing) is
    not left out: it is counted under 优秀. *)
Theorem chart_counts_every_entry_once
    (first : StoredResult) (rest : list StoredResult) :
  let st := AnalysisView.stats_of first rest in
  Report.charted st = AnalysisView.count st
  /\ AnalysisView.count st = length (first :: rest)
  /\ forall e, PrimFloat.is_nan (Scenario.ratio e) = true ->
               AnalysisView.bucketOf e = 3.
Proof.
  intros st. split_and!; [|done|apply bucketOf_nan].
  subst st. unfold Report.charted, AnalysisView.stats_of.
  cbn [AnalysisView.distribution AnalysisView.count map foldr
       AnalysisView.bucket_value].
  rewrite !fillBuckets_counts.
  pose proof (inBucket_partition (first :: rest)). lia.
Qed.

(** X12. Recording feeds the report: once [recordHistory] has written an
    entry for a result into a readable history of at most 500 entries,
    [calculateStats] does not report missing data; the entry just written
    is the first of the history, so the pass threshold is 0.6 times the
    full marks of that result, and 0.6 times 100 when those are 0, not a
    number or infinite (the stored text has [null] for them); the count is
    one more than before until it stays at 500.  When the storage refuses
    the write, the history is as it was. *)
Theorem recorded_entry_sets_the_threshold
    (result : StudentResult) (score_ : float) (studentName_ now : string)
    (stored : option Blob) :
  Notions.historyWithinCap stored ->
  let item := Report.historyItem result score_ studentName_ now in
  let written :=
    History.recordHistory (Some result) score_ studentName_ now false stored
  in
  (exists rest,
     written = Some (HistoryArray (item :: rest))
     /\ AnalysisView.calculateStats written
        = AnalysisView.Computed (AnalysisView.stats_of item rest)
     /\ AnalysisView.passThreshold item
        = ((if PrimFloat.is_nan (maxScore result)
               || PrimFloat.is_infinity (maxScore result)
               || PrimFloat.eqb (maxScore result) 0
            then 100 else maxScore result) * 0.6)%float
     /\ AnalysisView.count (AnalysisView.stats_of item rest)
        = Nat.min (S (length (Notions.entriesOf stored))) 500)
  /\ History.recordHistory (Some result) score_ studentName_ now true stored
     = stored.
Proof.
  intros Hcap item written. split; [|by destruct stored as [[| |l]|]].
  assert (exists rest,
            map History.written
              (History.push_capped
                 (History.element
                    (History.historyItem result score_ studentName_ now))
                 (Notions.entriesOf stored)) = item :: rest
            /\ S (length rest)
               = Nat.min (S (length (Notions.entriesOf stored))) 500)
    as (rest & Hpush & Hlen).
  { assert (forall l, length l <= 500 ->
              exists rest : list StoredResult,
                map History.written
                  (History.push_capped
                     (History.element
                        (History.historyItem result score_ studentName_ now))
                     l) = item :: rest
                /\ S (length rest) = Nat.min (S (length l)) 500) as Hl.
    { intros l Hle. destruct (decide (length l < 500)) as [Hlt|Hge].
      - exists (map History.written l). rewrite push_capped_below by done.
        cbn [map]. rewrite written_element, length_map. split; [done|lia].
      - rewrite push_capped_full by lia.
        destruct l as [|y l]; [cbn in Hge; lia|].
        rewrite pop_cons. eexists. cbn [map]. rewrite written_element.
        split; [done|].
        rewrite length_map, pop_length. cbn [length] in *. lia. }
    destruct stored as [[| |l]|]; try done; cbn [Notions.entriesOf].
    - by apply Hl.
    - apply Hl. cbn. lia. }
  exists rest.
  assert (written = Some (HistoryArray (item :: rest))) as Hrec.
  { subst written. unfold History.recordHistory.
    destruct stored as [[| |l]|]; try done;
      cbn [Notions.entriesOf] in Hpush; by rewrite Hpush. }
  rewrite Hrec. split_and!; [done|done| |].
  - unfold AnalysisView.passThreshold, item, Report.historyItem.
    by rewrite refMaxScore_asStored.
  - cbn [AnalysisView.stats_of AnalysisView.count length]. exact Hlen.
Qed.

(** A result with infinite full marks is recorded before an entry of 90
    out of 100: the stored text has no full marks for it, and the pass
    threshold of the report is 60. *)
Lemma recorded_entry_sets_the_threshold_witness :
  exists rest,
    AnalysisView.calculateStats
      (History.recordHistory (Some Report.unbounded) 8 "B" "2" false
         (Some (HistoryArray [Scenario.entry 90 100])))
    = AnalysisView.Computed
        (AnalysisView.stats_of
           (Report.historyItem Report.unbounded 8 "B" "2") rest)
    /\ maxScore (Report.historyItem Report.unbounded 8 "B" "2") = None
    /\ AnalysisView.passThreshold
         (Report.historyItem Report.unbounded 8 "B" "2")
       = 60%float.
Proof.
  destruct (recorded_entry_sets_the_threshold Report.unbounded 8
              "B" "2" (Some (HistoryArray [Scenario.entry 90 100])))
    as [(rest & _ & Hstats & Hpass & _) _]; [cbn; lia|].
  exists rest. split; [exact Hstats|]. split; [reflexivity|].
  rewrite Hpass. reflexivity.
Defined.

(* ===================================================================== *)
(** * Properties of the scraping *)
(* ===================================================================== *)

Section ScrapeFacts.
Import Content Scrape.

Variable dom : Dom.

Lemma visit_largestOf visited best el :
  largestOf dom visited best ->
  largestOf dom (visited ++ [el]) (visit dom best el).
Proof.
  intros [Hbest Hmax]. unfold visit.
  destruct (PrimFloat.ltb (rectWidth dom el) MIN_SIZE
            || PrimFloat.ltb (rectHeight dom el) MIN_SIZE) eqn:Hsmall.
  - split.
    + destruct best.2; [|done].
      destruct Hbest as (Hin & Hbest). split; [|done].
      apply elem_of_app. by left.
    + intros c [Hc|Hc%list_elem_of_singleton]%elem_of_app Hlarge; [auto|].
      subst. unfold largeEnough in Hlarge. by rewrite Hsmall in Hlarge.
  - destruct (PrimFloat.ltb best.1 (area dom el)) eqn:Hlt.
    + split; cbn [fst snd].
      * split_and!;
          [ apply elem_of_app; right; by apply list_elem_of_singleton
          | by unfold largeEnough; rewrite Hsmall | done | ].
        destruct best.2 as [b|].
        -- destruct Hbest as (_ & _ & Hb & Hpos). rewrite Hb in Hlt.
           by eapply ltb_trans.
        -- by rewrite Hbest in Hlt.
      * intros c [Hc|Hc%list_elem_of_singleton]%elem_of_app Hlarge.
        -- destruct (PrimFloat.ltb (area dom el) (area dom c)) eqn:Hc';
             [|done].
           rewrite <- (Hmax c Hc Hlarge). symmetry. by eapply ltb_trans.
        -- subst. apply ltb_irrefl.
    + split.
      * destruct best.2; [|done].
        destruct Hbest as (Hin & Hbest). split; [|done].
        apply elem_of_app. by left.
      * intros c [Hc|Hc%list_elem_of_singleton]%elem_of_app Hlarge; [auto|].
        by subst.
Qed.

Lemma fold_largestOf rest : forall visited best,
  largestOf dom visited best ->
  largestOf dom (visited ++ rest) (fold_left (visit dom) rest best).
Proof.
  induction rest as [|el rest IH]; intros visited best Hbest.
  - by rewrite app_nil_r.
  - cbn [fold_left].
    replace (visited ++ el :: rest) with ((visited ++ [el]) ++ rest)
      by (by rewrite <- app_assoc).
    apply IH. by apply visit_largestOf.
Qed.

Lemma findLargest_largestOf :
  largestOf dom (candidates dom)
    (fold_left (visit dom) (candidates dom) (0%float, None)).
Proof.
  apply (fold_largestOf (candidates dom) []). split; [done|].
  intros el Hel. by apply elem_of_nil in Hel.
Qed.

(** The loop of [checkReady] finds a match when the loop of [scrapeData]
    does. *)
Lemma anyMatch_firstMatch selectors :
  anyMatch dom selectors false
  = bool_decide (is_Some (firstMatch dom selectors None)).
Proof.
  induction selectors as [|sel rest IH]; cbn [anyMatch firstMatch].
  - rewrite bool_decide_eq_false_2; [done|]. by intros [? ?].
  - destruct (querySelector (page dom) sel); [|done].
    by rewrite bool_decide_eq_true_2.
Qed.

Lemma scrapeName_truthy selectors : forall name found,
  Js.truthy_string name = true ->
  scrapeName dom selectors name = Some found ->
  Js.truthy_string found = true.
Proof.
  induction selectors as [|sel rest IH]; intros name found Hname Hfound.
  - cbn in Hfound. by simplify_eq.
  - cbn [scrapeName] in Hfound.
    destruct (querySelector (page dom) sel); [|by eapply IH].
    destruct (innerText dom _) as [text|]; [|done].
    destruct (Js.truthy_string (trim text)) eqn:Htrim; [|by eapply IH].
    by simplify_eq.
Qed.

Lemma scrapeName_nameless selectors name :
  (forall sel el, sel ∈ selectors ->
                  querySelector (page dom) sel = Some el ->
                  exists text, innerText dom el = Some text
                               /\ isBlank text = true) ->
  scrapeName dom selectors name = Some name.
Proof.
  induction selectors as [|sel rest IH]; intros Hblank; [done|].
  cbn [scrapeName].
  assert (scrapeName dom rest name = Some name) as Hrest.
  { apply IH. intros s e Hin. apply Hblank. by right. }
  destruct (querySelector (page dom) sel) as [el|] eqn:Hq; [|done].
  destruct (Hblank sel el) as (text & -> & Hel); [by left|done|].
  unfold isBlank in Hel. apply negb_true_iff in Hel.
  unfold trim. destruct (trimStart text); [done|done].
Qed.

(** The loop over the name selectors throws exactly at an element
    without a text that comes after blank texts only. *)
Lemma scrapeName_throws selectors name :
  scrapeName dom selectors name = None
  <-> exists before sel after el,
        selectors = before ++ sel :: after
        /\ (forall s e,
              s ∈ before -> querySelector (page dom) s = Some e ->
              exists text, innerText dom e = Some text /\ trim text = "")
        /\ querySelector (page dom) sel = Some el
        /\ innerText dom el = None.
Proof.
  induction selectors as [|sel0 rest IH].
  - split; [done|]. intros (before & ? & ? & ? & Heq & _).
    by destruct before.
  - cbn [scrapeName].
    assert ((exists before sel after el,
               rest = before ++ sel :: after
               /\ (forall s e,
                     s ∈ before -> querySelector (page dom) s = Some e ->
                     exists text, innerText dom e = Some text
                                  /\ trim text = "")
               /\ querySelector (page dom) sel = Some el
               /\ innerText dom el = None) ->
            (forall e, querySelector (page dom) sel0 = Some e ->
                       exists text, innerText dom e = Some text
                                    /\ trim text = "") ->
            exists before sel after el,
              sel0 :: rest = before ++ sel :: after
              /\ (forall s e,
                    s ∈ before -> querySelector (page dom) s = Some e ->
                    exists text, innerText dom e = Some text
                                 /\ trim text = "")
              /\ querySelector (page dom) sel = Some el
              /\ innerText dom el = None) as Hlater.
    { intros (before & sel & after & el & -> & Hblank & Hq & Htext) Hfirst.
      exists (sel0 :: before), sel, after, el. split_and!; try done.
      intros s e [->|Hin]%elem_of_cons; [apply Hfirst|by apply Hblank]. }
    assert ((exists before sel after el,
               sel0 :: rest = before ++ sel :: after
               /\ (forall s e,
                     s ∈ before -> querySelector (page dom) s = Some e ->
                     exists text, innerText dom e = Some text
                                  /\ trim text = "")
               /\ querySelector (page dom) sel = Some el
               /\ innerText dom el = None) ->
            (exists el, querySelector (page dom) sel0 = Some el
                        /\ innerText dom el = None)
            \/ ((forall e, querySelector (page dom) sel0 = Some e ->
                           exists text, innerText dom e = Some text
                                        /\ trim text = "")
                /\ exists before sel after el,
                     rest = before ++ sel :: after
                     /\ (forall s e,
                           s ∈ before ->
                           querySelector (page dom) s = Some e ->
                           exists text, innerText dom e = Some text
                                        /\ trim text = "")
                     /\ querySelector (page dom) sel = Some el
                     /\ innerText dom el = None)) as Hsplit.
    { intros (before & sel & after & el & Heq & Hblank & Hq & Htext).
      destruct before as [|s0 before]; simplify_eq/=.
      - left. eauto.
      - right. split.
        + intros e He. apply (Hblank s0); [by left|done].
        + exists before, sel, after, el. split_and!; try done.
          intros s e Hin. apply Hblank. by right. }
    destruct (querySelector (page dom) sel0) as [el0|] eqn:Hq0.
    + destruct (innerText dom el0) as [text|] eqn:Htext0.
      * destruct (Js.truthy_string (trim text)) eqn:Htrim.
        -- split; [done|]. intros Hex.
           destruct (Hsplit Hex) as [(el & ? & ?)|[Hfirst _]];
             [by simplify_eq|].
           destruct (Hfirst el0 eq_refl) as (text' & ? & Hempty).
           simplify_eq. by rewrite Hempty in Htrim.
        -- rewrite IH. split.
           ++ intros Hex. apply Hlater; [done|].
              intros e ?. simplify_eq. exists text. split; [done|].
              by destruct (trim text).
           ++ intros Hex.
              destruct (Hsplit Hex) as [(el & ? & ?)|[_ Hrest]];
                [by simplify_eq|done].
      * split; [intros _|done].
        exists [], sel0, rest, el0. split_and!; try done.
        intros s e Hin. by apply elem_of_nil in Hin.
    + rewrite IH. split.
      * intros Hex. apply Hlater; [done|]. intros e ?. done.
      * intros Hex.
        destruct (Hsplit Hex) as [(el & ? & ?)|[_ Hrest]]; [done|done].
Qed.

Lemma scrapeName_textless :
  scrapeName dom nameSelectors "未知学生" = None <-> textless dom.
Proof. apply scrapeName_throws. Qed.

(** [scrapeData] by its three steps: the name, the element, the
    picture. *)
Lemma scrapeData_steps fetch now :
  scrapeData dom fetch now
  = match scrapeName dom nameSelectors "未知学生" with
    | None => Rejects
    | Some studentName =>
        match located dom with
        | None => Resolves (ScrapeError notFoundError)
        | Some el =>
            match picture dom fetch el with
            | Rejects => Rejects
            | Pends => Pends
            | Resolves None => Resolves (ScrapeError noDataError)
            | Resolves (Some imgBase64) =>
                if Js.truthy_string imgBase64 then
                  Resolves
                    (ScrapeData
                       {| platform :=
                            detectPlatform (hostname (page dom));
                          studentName := studentName;
                          answerImageBase64 := imgBase64;
                          timestamp := Some now |})
                else Resolves (ScrapeError noDataError)
            end
        end
    end.
Proof.
  unfold scrapeData, located, picture, address.
  destruct (scrapeName dom nameSelectors "未知学生"); [|done].
  destruct (match firstMatch dom _ None with
            | Some el => Some el
            | None => findLargestImageElement dom
            end) as [el|]; [|done].
  destruct (decide (tagName (page dom) el = "CANVAS")); [done|].
  destruct (decide (tagName (page dom) el = "IMG")); [done|].
  by destruct (Js.truthy_string (backgroundImage dom el)
               && negb (bool_decide (backgroundImage dom el = "none"))).
Qed.

(** A fetched picture is missing without an error exactly when the
    request is not answered. *)
Lemma getUrlBase64_unanswered fetch url :
  match getUrlBase64 fetch url with
  | Resolves _ =>
      startsWith url "data:image" = false ->
      unanswered (fetch (cleanUrl url)) = false
  | _ =>
      startsWith url "data:image" = false
      /\ unanswered (fetch (cleanUrl url)) = true
  end.
Proof.
  unfold getUrlBase64.
  destruct (startsWith url "data:image"); [done|].
  by destruct (fetch (cleanUrl url)) as [| |[|] [| | | |]].
Qed.

(** The locating step is the search of [checkReady]. *)
Lemma hasImage_located :
  hasImage (checkReady dom) = bool_decide (is_Some (located dom)).
Proof.
  unfold checkReady, located. cbn [hasImage].
  rewrite anyMatch_firstMatch.
  destruct (firstMatch dom _ None) as [el|].
  - rewrite !bool_decide_eq_true_2 by eauto. done.
  - rewrite bool_decide_eq_false_2 by (by intros [? ?]). cbn [negb].
    destruct (findLargestImageElement dom) as [el|].
    + by rewrite bool_decide_eq_true_2 by eauto.
    + by rewrite bool_decide_eq_false_2 by (by intros [? ?]).
Qed.

End ScrapeFacts.

Section UrlFacts.
Import Content Scrape.

Lemma append_String c s t : String c s +:+ t = String c (s +:+ t).
Proof. reflexivity. Qed.

Lemma append_empty t : "" +:+ t = t.
Proof. reflexivity. Qed.

Lemma list_ascii_of_string_app s t :
  String.list_ascii_of_string (s +:+ t)
  = String.list_ascii_of_string s ++ String.list_ascii_of_string t.
Proof.
  induction s as [|c s IH]; [done|].
  rewrite append_String. cbn. by rewrite IH.
Qed.

Lemma length_list_ascii_of_string s :
  length (String.list_ascii_of_string s) = String.length s.
Proof. induction s as [|c s IH]; cbn; [done|by rewrite IH]. Qed.

Lemma stripUrlClose_quoted address q :
  isQuote q = true ->
  stripUrlClose (address +:+ String q ")") = address.
Proof.
  intros Hq. unfold stripUrlClose.
  rewrite list_ascii_of_string_app, rev_app_distr. cbn [app rev
    String.list_ascii_of_string].
  rewrite bool_decide_eq_true_2 by done. rewrite Hq.
  by rewrite rev_involutive, String.string_of_list_ascii_of_string.
Qed.

Lemma stripUrlClose_shortens u :
  String.length (stripUrlClose (u +:+ ")")) <= String.length u.
Proof.
  unfold stripUrlClose.
  rewrite list_ascii_of_string_app, rev_app_distr. cbn [app rev
    String.list_ascii_of_string].
  rewrite bool_decide_eq_true_2 by done.
  rewrite <- (length_list_ascii_of_string u).
  rewrite <- (length_rev (String.list_ascii_of_string u)).
  destruct (rev (String.list_ascii_of_string u)) as [|q before];
    [cbn; lia|].
  destruct (isQuote q);
    rewrite <- length_list_ascii_of_string,
      String.list_ascii_of_string_of_list_ascii, length_rev; cbn; lia.
Qed.

Lemma length_append s t :
  String.length (s +:+ t) = String.length s + String.length t.
Proof.
  induction s as [|c s IH]; [done|].
  rewrite append_String. cbn. by rewrite IH.
Qed.

End UrlFacts.

(** X13. The light for the page and the scan go by the same search:
    [scrapeData] ends with the error that no answer sheet was found
    exactly when the element check of [checkReady] reports no image and
    the search for the name before it has not thrown (it throws at an
    element that has no [innerText]; the promise is then rejected).  A
    green light does not promise that the picture can be read as well. *)
Theorem ready_light_matches_scrape dom fetch now :
  Scrape.scrapeData dom fetch now
  = Scrape.Resolves (Scrape.ScrapeError Scrape.notFoundError)
  <-> Scrape.hasImage (Scrape.checkReady dom) = false
      /\ ~ Scrape.textless dom.
Proof.
  rewrite scrapeData_steps, hasImage_located, <- scrapeName_textless.
  destruct (Scrape.scrapeName dom _ _) as [name|].
  - destruct (Scrape.located dom) as [el|].
    + rewrite bool_decide_eq_true_2 by eauto.
      split; [|by intros [? _]]. intros Hscrape. exfalso.
      repeat case_match; simplify_eq.
    + rewrite bool_decide_eq_false_2 by (by intros [? ?]). done.
  - split; [done|]. by intros [_ ?].
Qed.

(** A page without pictures: the scan reports that no sheet was found.
    A page with the name in an SVG element: the scan reports nothing. *)
Lemma ready_light_matches_scrape_witness :
  Scrape.scrapeData Scrape.blankDom Scrape.offline 5
  = Scrape.Resolves (Scrape.ScrapeError Scrape.notFoundError)
  /\ Scrape.hasImage (Scrape.checkReady Scrape.picturesDom) = true
  /\ Scrape.scrapeData Scrape.svgNameDom Scrape.offline 5 = Scrape.Rejects.
Proof.
  split; [|split; reflexivity].
  apply (proj2 (ready_light_matches_scrape Scrape.blankDom Scrape.offline 5)).
  split; [reflexivity|].
  intros (before & sel & after & el & _ & _ & Hq & _). discriminate Hq.
Defined.

(** X14. Page data that [scrapeData] returns are complete: the picture is
    not empty, the name is not empty (the name found on the page, or
    未知学生), so the panel's fallback for a missing name is never needed;
    the time is the one of the call; the platform is the one detected
    from the host name, and [tryFillScore] on the same page tries the same
    selectors with this platform as its hint as it does without a hint. *)
Theorem scraped_page_data_are_complete dom fetch now data :
  Scrape.scrapeData dom fetch now = Scrape.Resolves (Scrape.ScrapeData data) ->
  Js.truthy_string (answerImageBase64 data) = true
  /\ Js.truthy_string (studentName data) = true
  /\ Js.or_string (studentName data) "未知学生" = studentName data
  /\ timestamp data = Some now
  /\ platform data
     = Content.detectPlatform (Content.hostname (Scrape.page dom))
  /\ forall score,
       Content.tryFillScore (Scrape.page dom) score (Some (platform data))
       = Content.tryFillScore (Scrape.page dom) score None.
Proof.
  rewrite scrapeData_steps. intros Hscrape.
  assert (forall score,
            Content.tryFillScore (Scrape.page dom) score
              (Some (Content.detectPlatform
                       (Content.hostname (Scrape.page dom))))
            = Content.tryFillScore (Scrape.page dom) score None) as Hhint.
  { intros score. unfold Content.tryFillScore.
    assert (Js.truthy_string
              (Content.detectPlatform (Content.hostname (Scrape.page dom)))
            = true) as ->; [|done].
    unfold Content.detectPlatform. by repeat case_match. }
  destruct (Scrape.scrapeName dom Scrape.nameSelectors "未知学生")
    as [name|] eqn:Hfound; [|done].
  assert (Js.truthy_string name = true) as Hname.
  { by apply (scrapeName_truthy dom Scrape.nameSelectors "未知学生"). }
  clear Hfound.
  set (tag := Content.detectPlatform (Content.hostname (Scrape.page dom)))
    in *.
  clearbody tag.
  repeat case_match; simplify_eq; cbn [answerImageBase64 studentName
    platform timestamp]; unfold Js.or_string; rewrite Hname;
    by split_and!.
Qed.

Lemma scraped_page_data_are_complete_witness :
  Scrape.scrapeData (Scrape.sheetDom true) Scrape.offline 5
  = Scrape.Resolves
      (Scrape.ScrapeData (mkPageContext "ZHIXUE" "张三" "aW1hZ2U=" (Some 5)))
  /\ Js.truthy_string "aW1hZ2U=" = true.
Proof.
  split; [reflexivity|].
  exact (proj1 (scraped_page_data_are_complete (Scrape.sheetDom true)
                  Scrape.offline 5
                  (mkPageContext "ZHIXUE" "张三" "aW1hZ2U=" (Some 5))
                  eq_refl)).
Defined.

(** X15. [findLargestImageElement] returns a largest picture: the element
    it returns is one of the candidates, at least 200 wide and 200 high,
    of a positive area, and no candidate of at least that size has a
    larger area; it returns none only when no candidate of at least that
    size has a positive area. *)
Theorem findLargestImageElement_returns_a_largest dom :
  match Scrape.findLargestImageElement dom with
  | Some el =>
      el ∈ Scrape.candidates dom
      /\ Scrape.largeEnough dom el = true
      /\ PrimFloat.ltb 0 (Scrape.area dom el) = true
      /\ forall other,
           other ∈ Scrape.candidates dom ->
           Scrape.largeEnough dom other = true ->
           PrimFloat.ltb (Scrape.area dom el) (Scrape.area dom other) = false
  | None =>
      forall other,
        other ∈ Scrape.candidates dom ->
        Scrape.largeEnough dom other = true ->
        PrimFloat.ltb 0 (Scrape.area dom other) = false
  end.
Proof.
  destruct (findLargest_largestOf dom) as [Hbest Hmax].
  unfold Scrape.findLargestImageElement.
  destruct (fold_left _ _ _) as [maxArea [el|]]; cbn [fst snd] in *.
  - destruct Hbest as (Hin & Hlarge & -> & Hpos). by split_and!.
  - by subst.
Qed.

Lemma findLargestImageElement_returns_a_largest_witness :
  Scrape.findLargestImageElement Scrape.picturesDom = Some 3
  /\ PrimFloat.ltb (Scrape.area Scrape.picturesDom 3)
       (Scrape.area Scrape.picturesDom 4) = false.
Proof.
  split; [reflexivity|].
  pose proof (findLargestImageElement_returns_a_largest Scrape.picturesDom)
    as Hlargest.
  change (Scrape.findLargestImageElement Scrape.picturesDom) with (Some 3)
    in Hlargest.
  destruct Hlargest as (_ & _ & _ & Hmax).
  apply Hmax; [|reflexivity].
  change (Scrape.candidates Scrape.picturesDom) with [1; 2; 3; 4].
  repeat constructor.
Defined.

(** X16. The address of a background picture is unwrapped before it is
    fetched: [cleanUrl] turns [url(...)] with the address in double or
    single quotes, the form a computed style has, into the address.  The
    same cleaning is applied to the [src] of an IMG: an address that does
    not start with [url(] and ends with a closing parenthesis does not
    come through unchanged. *)
Theorem cleanUrl_unwraps_css_url quote address :
  quote = Content.dq \/ quote = "'" ->
  Scrape.cleanUrl (Scrape.cssUrl quote address) = address
  /\ forall plain,
       Content.startsWith (plain +:+ ")") "url(" = false ->
       Scrape.cleanUrl (plain +:+ ")") <> plain +:+ ")".
Proof.
  intros Hquote. split.
  - unfold Scrape.cleanUrl, Scrape.cssUrl, Scrape.stripUrlOpen.
    destruct Hquote as [->| ->]; unfold Content.dq;
      rewrite !append_String, !append_empty;
      cbn [Content.startsWith Scrape.dropBytes decide_rel];
      rewrite !decide_True by done;
      match goal with
      | |- context [Scrape.isQuote ?c] =>
          replace (Scrape.isQuote c) with true by (by vm_compute)
      end;
      by apply stripUrlClose_quoted.
  - intros plain Hplain Hsame.
    unfold Scrape.cleanUrl, Scrape.stripUrlOpen in Hsame.
    rewrite Hplain in Hsame.
    pose proof (stripUrlClose_shortens plain) as Hshort.
    rewrite Hsame, length_append in Hshort. cbn in Hshort. lia.
Qed.

Lemma cleanUrl_unwraps_css_url_witness :
  Scrape.cleanUrl
    ("url(" +:+ Content.dq +:+ "https://www.zhixue.com/sheet.png"
     +:+ Content.dq +:+ ")")
  = "https://www.zhixue.com/sheet.png"
  /\ Scrape.cleanUrl "https://www.zhixue.com/sheet(1)"
     <> "https://www.zhixue.com/sheet(1)".
Proof.
  destruct (cleanUrl_unwraps_css_url Content.dq
              "https://www.zhixue.com/sheet.png") as [Hclean Hplain];
    [by left|].
  split; [exact Hclean|].
  exact (Hplain "https://www.zhixue.com/sheet(1" eq_refl).
Defined.

(** X17. An error of the scrape reaches the teacher as it is: the
    listener replies to REQUEST_PAGE_DATA with the error text of
    [scrapeData], one of its two messages, and the panel, when no batch
    is running, shows exactly this text with the error status. *)
Theorem scrape_error_is_shown_by_the_panel dom fetch now error r s :
  Scrape.scrapeData dom fetch now
  = Scrape.Resolves (Scrape.ScrapeError error) ->
  GradingView.isBatchRunningRef s = false ->
  exists response,
    Scrape.onMessage dom fetch now Scrape.PageData
    = (Scrape.PageReply response, [])
    /\ GradingView.errorMsg
         (GradingView.onPageResponse r false (Some response) s)
       = Some error
    /\ GradingView.status
         (GradingView.onPageResponse r false (Some response) s)
       = GradingView.error
    /\ (error = Scrape.notFoundError \/ error = Scrape.noDataError).
Proof.
  intros Hscrape Hstop.
  assert (error = Scrape.notFoundError \/ error = Scrape.noDataError)
    as Herror.
  { rewrite scrapeData_steps in Hscrape.
    repeat case_match; simplify_eq; auto. }
  eexists. unfold Scrape.onMessage. rewrite Hscrape.
  split; [reflexivity|].
  assert (Js.or_string error "未知抓取错误" = error) as ->.
  { by destruct Herror as [-> | ->]. }
  assert (Js.or_string error "未在页面上定位到答题卡图片" = error) as Htext.
  { by destruct Herror as [-> | ->]. }
  unfold GradingView.onPageResponse, GradingView.scanData,
    GradingView.scanErrorText, GradingView.handleScanError.
  cbn [GradingView.success GradingView.error_]. rewrite Hstop, Htext.
  by_fields s. by split_and!.
Qed.

Lemma scrape_error_is_shown_by_the_panel_witness :
  exists response,
    Scrape.onMessage Scrape.picturesDom Scrape.offline 5 Scrape.PageData
    = (Scrape.PageReply response, [])
    /\ GradingView.errorMsg
         (GradingView.onPageResponse (GradingView.render Scenario.initial)
            false (Some response) Scenario.initial)
       = Some Scrape.noDataError.
Proof.
  destruct (scrape_error_is_shown_by_the_panel Scrape.picturesDom
              Scrape.offline 5 Scrape.noDataError
              (GradingView.render Scenario.initial) Scenario.initial
              eq_refl eq_refl) as (response & Hreply & Hmsg & _).
  exists response. split; [exact Hreply|exact Hmsg].
Defined.

(** X18. Papers without a readable name block the batch: when no name
    selector finds a text on the page, [scrapeData] names the student
    未知学生; once a paper under this name was submitted, the loop takes
    the page data of every further such paper for the student it has
    just graded, counts one more wait, sets the timer for the next scan
    and does not call the grading service. *)
Theorem nameless_papers_block_the_batch dom fetch now data r tab s :
  Scrape.nameless dom ->
  Scrape.scrapeData dom fetch now = Scrape.Resolves (Scrape.ScrapeData data) ->
  Scenario.scanInFlight r "未知学生" s ->
  studentName data = "未知学生"
  /\ exists response s',
       Scrape.onMessage dom fetch now Scrape.PageData
       = (Scrape.PageReply response, [])
       /\ GradingView.run (Scrape.replied tab response) s = Some s'
       /\ GradingView.scanWaitCount s' = GradingView.scanWaitCount s + 1
       /\ Scenario.countIf Scenario.isAssess (GradingView.effects s')
          = Scenario.countIf Scenario.isAssess (GradingView.effects s)
       /\ Scenario.scanInFlight r "未知学生" s'.
Proof.
  intros Hnameless Hscrape Hflight.
  assert (studentName data = "未知学生") as Hname.
  { rewrite scrapeData_steps in Hscrape.
    rewrite (scrapeName_nameless dom Scrape.nameSelectors) in Hscrape
      by exact Hnameless.
    repeat case_match; simplify_eq; done. }
  split; [exact Hname|].
  destruct (waiting_round r tab "未知学生" s data Hflight Hname)
    as (s' & Hrun & Hflight' & Hcount & Heffects).
  exists (Scenario.found data), s'.
  unfold Scrape.onMessage. rewrite Hscrape.
  split_and!; [done|exact Hrun|exact Hcount| |exact Hflight'].
  rewrite Heffects, countIf_app. cbn. lia.
Qed.

Lemma nameless_papers_block_the_batch_witness :
  exists s',
    GradingView.run
      (Scrape.replied 1
         (Scenario.found
            (mkPageContext "ZHIXUE" "未知学生" "aW1hZ2U=" (Some 5))))
      Scrape.runningAfterNameless = Some s'
    /\ GradingView.scanWaitCount s' = 1.
Proof.
  destruct (nameless_papers_block_the_batch (Scrape.sheetDom false)
              Scrape.offline 5
              (mkPageContext "ZHIXUE" "未知学生" "aW1hZ2U=" (Some 5))
              (GradingView.render Scenario.ready) 1
              Scrape.runningAfterNameless)
    as (_ & response & s' & Hreply & Hrun & Hcount & _).
  - intros sel el Hin Hq.
    repeat (apply elem_of_cons in Hin as [->|Hin];
            [vm_compute in Hq; discriminate|]).
    by apply elem_of_nil in Hin.
  - reflexivity.
  - repeat split; reflexivity.
  - exists s'. injection Hreply as <-. split; [exact Hrun|exact Hcount].
Defined.

(** X19. What becomes of a request for page data.  The listener does
    nothing to the page.  When it replies, it replies with the page data,
    or with success false and an error text.  It never replies in two
    cases, and in these only: the search for the name throws at an
    element without [innerText]; or the picture of the element located
    has an address that is not a data URL, and the request for the
    cleaned address never settles, or its body never arrives, or reading
    the body fails or never ends (the promise of the reader is returned
    from inside the [try], so its rejection passes the [catch]). *)
Theorem page_request_is_answered_or_never dom fetch now :
  let reply := Scrape.onMessage dom fetch now Scrape.PageData in
  reply.2 = []
  /\ match reply.1 with
     | Scrape.PageReply response =>
         GradingView.success response = true
         /\ is_Some (GradingView.data response)
         \/ GradingView.success response = false
            /\ exists error, GradingView.error_ response = Some error
                             /\ Js.truthy_string error = true
     | Scrape.NoReply => True
     | _ => False
     end
  /\ (reply.1 = Scrape.NoReply
      <-> Scrape.textless dom
          \/ exists el url,
               Scrape.located dom = Some el
               /\ Scrape.address dom el = Some url
               /\ Content.startsWith url "data:image" = false
               /\ Scrape.unanswered (fetch (Scrape.cleanUrl url)) = true).
Proof.
  intros reply. subst reply. unfold Scrape.onMessage.
  rewrite scrapeData_steps, <- scrapeName_textless.
  destruct (Scrape.scrapeName dom _ _) as [name|];
    [|cbn [fst snd]; split_and!; [done|done|split; [by left|done]]].
  destruct (Scrape.located dom) as [el|]; cbn [fst snd].
  2: { split; [done|]. split; [right; split; [done|]; eexists; split; reflexivity|].
       split; [done|]. by intros [?|(? & ? & ? & _)]. }
  unfold Scrape.picture.
  destruct (decide (Content.tagName (Scrape.page dom) el = "CANVAS"))
    as [Hcanvas|Hcanvas].
  { assert (Scrape.address dom el = None) as Haddr
      by (unfold Scrape.address; by rewrite decide_True).
    destruct (Scrape.getCanvasBase64 dom el) as [img|];
      [destruct (Js.truthy_string img)|]; cbn [fst snd];
      (split; [done|]);
      (split; [first [by left; split; [|eexists]
                     |by right; split; [|eexists]]|]);
      (split; [done|]);
      intros [?|(? & ? & ? & ? & _)]; [done|by simplify_eq..]. }
  destruct (Scrape.address dom el) as [url|] eqn:Haddr.
  2: { cbn [fst snd]. split; [done|]. split; [right; split; [done|]; eexists; split; reflexivity|].
       split; [done|].
       intros [?|(? & ? & ? & ? & _)]; [done|by simplify_eq]. }
  pose proof (getUrlBase64_unanswered fetch url) as Hurl.
  destruct (Scrape.getUrlBase64 fetch url) as [[img|]| |];
    [destruct (Js.truthy_string img)| | |]; cbn [fst snd].
  - split; [done|]. split; [by left; split; [|eexists]|].
    split; [done|]. intros [?|(? & ? & ? & ? & Hdata & Hsilent)]; [done|].
    simplify_eq. by rewrite Hurl in Hsilent.
  - split; [done|]. split; [by right; split; [|eexists]|].
    split; [done|]. intros [?|(? & ? & ? & ? & Hdata & Hsilent)]; [done|].
    simplify_eq. by rewrite Hurl in Hsilent.
  - split; [done|]. split; [by right; split; [|eexists]|].
    split; [done|]. intros [?|(? & ? & ? & ? & Hdata & Hsilent)]; [done|].
    simplify_eq. by rewrite Hurl in Hsilent.
  - split; [done|]. split; [done|]. split; [intros _|done].
    right. exists el, url. by destruct Hurl.
  - split; [done|]. split; [done|]. split; [intros _|done].
    right. exists el, url. by destruct Hurl.
Qed.

(** Four pages that get no reply: the reader fails; the request never
    settles; the name is in an SVG element.  And a page that gets one
    although no request gets through. *)
Lemma page_request_is_answered_or_never_witness :
  (Scrape.onMessage Scrape.picturesDom Scrape.readerBroken 5 Scrape.PageData).1
  = Scrape.NoReply
  /\ (Scrape.onMessage Scrape.picturesDom Scrape.stalled 5 Scrape.PageData).1
     = Scrape.NoReply
  /\ (Scrape.onMessage Scrape.svgNameDom Scrape.offline 5 Scrape.PageData).1
     = Scrape.NoReply
  /\ (Scrape.onMessage Scrape.picturesDom Scrape.offline 5 Scrape.PageData).1
     <> Scrape.NoReply.
Proof.
  split_and!.
  - apply (proj2 (proj2 (page_request_is_answered_or_never
                           Scrape.picturesDom Scrape.readerBroken 5))).
    right. exists 3, "https://www.zhixue.com/sheet.png".
    by split_and!.
  - apply (proj2 (proj2 (page_request_is_answered_or_never
                           Scrape.picturesDom Scrape.stalled 5))).
    right. exists 3, "https://www.zhixue.com/sheet.png".
    by split_and!.
  - apply (proj2 (proj2 (page_request_is_answered_or_never
                           Scrape.svgNameDom Scrape.offline 5))).
    left. exists [".student-info .name"], ".stu-name",
      [".username"; "#stuName";
       "span[title*=" +:+ Content.dq +:+ "姓名" +:+ Content.dq +:+ "]"], 2.
    split_and!; try reflexivity.
    intros s e ->%list_elem_of_singleton Hq. discriminate Hq.
  - discriminate.
Defined.

(* ===================================================================== *)
(** * Properties of what is kept in localStorage *)
(* ===================================================================== *)

Section StorageFacts.
Import Json App.

Lemma keys_apart :
  RUBRIC_KEY <> STRATEGY_KEY
  /\ RUBRIC_KEY <> GeminiService.STORAGE_KEY_CONFIG
  /\ STRATEGY_KEY <> GeminiService.STORAGE_KEY_CONFIG.
Proof. by split_and!. Qed.

Lemma strategyText_truthy g : truthy (strategyText g) = true.
Proof. by destruct g. Qed.

Lemma strategyText_not_legacy g :
  bool_decide (strategyText g = js "gpt4")
  || bool_decide (strategyText g = js "dual") = false
  /\ bool_decide (strategyText g = js "gemini") = false.
Proof. by destruct g. Qed.

Lemma trim_truthy text :
  truthy (trim text) = true -> truthy text = true.
Proof. by destruct text. Qed.

Lemma length_truthy (text : jsstring) :
  (0 <? length text)%nat = truthy text.
Proof. by destruct text. Qed.

(** What is shown is what is stored: the first state is so, and every
    action keeps it so. *)
Lemma fresh_stored : stored fresh.
Proof.
  split; [by split|]. exists pro. split; [done|]. right. by split.
Qed.

Lemma mount_stored storage s :
  stored (mkWorld s storage) ->
  persistent (mount storage initial) = persistent s.
Proof.
  destruct s as [tab drawer configured content strategy].
  intros [Hrubric (g & Hg & Hstrategy)].
  cbn [app localStorage isRubricConfigured rubricContent gradingStrategy]
    in *.
  subst. unfold mount, persistent, initial.
  cbn [isRubricConfigured rubricContent gradingStrategy activeTab
       isRubricDrawerOpen].
  destruct configured.
  - destruct Hrubric as [-> Htrim]. rewrite (trim_truthy _ Htrim).
    destruct Hstrategy as [-> |[-> ->]]; [|done].
    rewrite strategyText_truthy.
    destruct (strategyText_not_legacy g) as [-> ->]. done.
  - destruct Hrubric as [-> ->].
    destruct Hstrategy as [-> |[-> ->]]; [|done].
    rewrite strategyText_truthy.
    destruct (strategyText_not_legacy g) as [-> ->]. done.
Qed.

Lemma act_stored a w : isWritten a = true -> stored w -> stored (act a w).
Proof.
  destruct keys_apart as (Hrs & Hrc & Hsc).
  destruct w as [[tab drawer configured content strategy] storage].
  intros Hwritten Hstored.
  pose proof Hstored as [Hrubric (g & Hg & Hstrategy)].
  cbn [app localStorage isRubricConfigured rubricContent gradingStrategy]
    in Hrubric, Hg, Hstrategy.
  subst.
  destruct a as [tab'| | |text written|g' written|config written| |];
    cbn [isWritten] in Hwritten; subst; try exact Hstored.
  - unfold act, handleSaveRubric; cbn [app localStorage].
    rewrite length_truthy.
    destruct (truthy (trim text)) eqn:Htext; [|exact Hstored].
    split; cbn [app localStorage isRubricConfigured rubricContent
                gradingStrategy].
    + by rewrite lookup_insert_eq.
    + exists g. split; [done|]. by rewrite lookup_insert_ne.
  - split; unfold act, handleStrategyChange;
      cbn [app localStorage isRubricConfigured rubricContent
           gradingStrategy].
    + rewrite lookup_insert_ne by done. exact Hrubric.
    + exists g'. split; [done|]. left. by rewrite lookup_insert_eq.
  - split; unfold act, GeminiService.saveAppConfig;
      cbn [app localStorage isRubricConfigured rubricContent
           gradingStrategy].
    + rewrite lookup_insert_ne by done. exact Hrubric.
    + exists g. split; [done|]. by rewrite lookup_insert_ne.
  - apply fresh_stored.
  - pose proof (mount_stored _ _ Hstored) as Hsame.
    unfold act. cbn [app localStorage].
    destruct (mount storage initial) as [t d c r s] eqn:Hmount.
    unfold persistent in Hsame.
    cbn [isRubricConfigured rubricContent gradingStrategy] in Hsame.
    simplify_eq. split;
      cbn [app localStorage isRubricConfigured rubricContent
           gradingStrategy]; [exact Hrubric|by exists g].
Qed.

Lemma acts_stored actions : forall w,
  forallb isWritten actions = true -> stored w -> stored (acts actions w).
Proof.
  induction actions as [|a actions IH]; intros w Hwritten Hw; [done|].
  cbn [forallb] in Hwritten. apply andb_true_iff in Hwritten as [Ha Hrest].
  cbn. apply IH; [done|]. by apply act_stored.
Qed.

(** The rubric stays sound, whether the writes reach the storage or
    not. *)
Lemma fresh_rubricSound : rubricSound fresh.
Proof. split; [done|]. intros text Htext. done. Qed.

Lemma mount_rubric storage s :
  isRubricConfigured (mount storage s)
  = match storage !! RUBRIC_KEY with
    | Some saved => if truthy saved then true else isRubricConfigured s
    | None => isRubricConfigured s
    end
  /\ rubricContent (mount storage s)
     = match storage !! RUBRIC_KEY with
       | Some saved => if truthy saved then saved else rubricContent s
       | None => rubricContent s
       end.
Proof.
  unfold mount.
  destruct (storage !! RUBRIC_KEY) as [saved|];
    [destruct (truthy saved)|];
    (destruct (storage !! STRATEGY_KEY) as [strategy|];
     [destruct (truthy strategy)|]); done.
Qed.

Lemma mount_rubricSound storage :
  (forall text, storage !! RUBRIC_KEY = Some text ->
                truthy (trim text) = true) ->
  rubricSound (mkWorld (mount storage initial) storage).
Proof.
  intros Hstorage. split; [|exact Hstorage].
  cbn [app]. destruct (mount_rubric storage initial) as [-> ->].
  destruct (storage !! RUBRIC_KEY) as [saved|] eqn:Hsaved; [|done].
  destruct (truthy saved) eqn:Htruthy; [|done].
  symmetry. by apply Hstorage.
Qed.

Lemma act_rubricSound a w : rubricSound w -> rubricSound (act a w).
Proof.
  destruct keys_apart as (Hrs & Hrc & Hsc).
  destruct w as [[tab drawer configured content strategy] storage].
  intros [Hflag Hstorage].
  cbn [app localStorage isRubricConfigured rubricContent] in Hflag, Hstorage.
  destruct a as [tab'| | |text written|g' written|config written| |];
    try (by split).
  - unfold act, handleSaveRubric; cbn [app localStorage].
    rewrite length_truthy.
    destruct (truthy (trim text)) eqn:Htext; [|by split].
    destruct written; (split; [done|]);
      cbn [app localStorage]; [|exact Hstorage].
    intros text' Hlookup. rewrite lookup_insert_eq in Hlookup.
    by simplify_eq.
  - unfold act, handleStrategyChange. split; [done|].
    cbn [app localStorage]. destruct written; [|exact Hstorage].
    intros text Hlookup. rewrite lookup_insert_ne in Hlookup by done.
    by apply Hstorage.
  - unfold act. split; [done|].
    cbn [app localStorage]. destruct written; [|exact Hstorage].
    intros text Hlookup. unfold GeminiService.saveAppConfig in Hlookup.
    rewrite lookup_insert_ne in Hlookup by done. by apply Hstorage.
  - by apply mount_rubricSound.
Qed.

Lemma acts_rubricSound actions : forall w,
  rubricSound w -> rubricSound (acts actions w).
Proof.
  induction actions as [|a actions IH]; intros w Hw; [done|].
  cbn. apply IH. by apply act_rubricSound.
Qed.

(** The configuration that was saved is the one in use. *)
Lemma configInUse_saved config localStorage envKey :
  SettingsView.configInUse
    (GeminiService.saveAppConfig config localStorage) envKey
  = Some config.
Proof.
  unfold SettingsView.configInUse, GeminiService.getAppConfig,
    GeminiService.saveAppConfig.
  rewrite lookup_insert_eq.
  unfold GeminiService.toJson. rewrite parse_stringify_strings4.
  by destruct config.
Qed.

End StorageFacts.

(** X20. The rubric and the strategy outlast the panel, as long as the
    storage takes every write: after whatever the operator does from the
    first start on (saving rubrics, choosing strategies, saving
    configurations, clearing the cache, reloading), the panel opened anew
    shows the rubric, the configured flag and the strategy it showed
    before; the strategy is one of the three the service knows.  (A write
    that the storage refuses leaves the panel with what it cannot show
    again.) *)
Theorem rubric_and_strategy_outlast_the_panel (actions : list App.Action) :
  forallb App.isWritten actions = true ->
  let w := App.acts actions App.fresh in
  App.persistent (App.mount (App.localStorage w) App.initial)
  = App.persistent (App.app w)
  /\ exists strategy,
       App.gradingStrategy (App.app w) = App.strategyText strategy
       /\ App.strategyRead (App.gradingStrategy (App.app w)) = strategy.
Proof.
  intros Hwritten w.
  assert (App.stored w) as Hstored
    by (by apply acts_stored; [|apply fresh_stored]).
  split.
  - apply mount_stored. by destruct w.
  - destruct Hstored as [_ (g & Hg & _)]. exists g. split; [done|].
    rewrite Hg. by destruct g.
Qed.

(** A rubric is saved and the strategy chosen: the panel opened anew
    shows both.  When the storage refuses the rubric, the panel shows it
    until it is opened anew. *)
Lemma rubric_and_strategy_outlast_the_panel_witness :
  App.persistent
    (App.mount
       (App.localStorage
          (App.acts [ App.SaveRubric (Json.js "1 mark per step") true;
                      App.ChooseStrategy flash true ] App.fresh))
       App.initial)
  = (true, Json.js "1 mark per step", Json.js "flash")
  /\ App.persistent
       (App.mount
          (App.localStorage
             (App.acts [App.SaveRubric (Json.js "1 mark per step") false]
                App.fresh))
          App.initial)
     <> App.persistent
          (App.app
             (App.acts [App.SaveRubric (Json.js "1 mark per step") false]
                App.fresh)).
Proof.
  split; [|by vm_compute].
  destruct (rubric_and_strategy_outlast_the_panel
              [ App.SaveRubric (Json.js "1 mark per step") true;
                App.ChooseStrategy flash true ] eq_refl) as [Hsame _].
  rewrite Hsame. reflexivity.
Defined.

(** X21. A rubric that is configured is never blank, and saving cannot
    take it away: from the first start on, whether the storage takes the
    writes or not, the configured flag is set exactly when the rubric text
    has a character that is not white space; saving a text of white space
    only changes nothing but closes the drawer, so the rubric before
    stays. *)
Theorem configured_rubric_is_never_blank
    (actions : list App.Action) (blank : Json.jsstring) (written : bool) :
  let w := App.acts actions App.fresh in
  App.isRubricConfigured (App.app w)
  = Json.truthy (App.trim (App.rubricContent (App.app w)))
  /\ (Json.truthy (App.trim blank) = false ->
      App.act (App.SaveRubric blank written) w = App.act App.CloseRubric w).
Proof.
  intros w.
  assert (App.rubricSound w) as [Hrubric _]
    by apply acts_rubricSound, fresh_rubricSound.
  split; [exact Hrubric|].
  intros Hblank. unfold App.act, App.handleSaveRubric.
  by rewrite length_truthy, Hblank.
Qed.

Lemma configured_rubric_is_never_blank_witness :
  App.isRubricConfigured
    (App.app
       (App.acts [ App.SaveRubric (Json.js "1 mark per step") false;
                   App.SaveRubric (Json.js "  ") true ] App.fresh))
  = true
  /\ App.rubricContent
       (App.app
          (App.acts [ App.SaveRubric (Json.js "1 mark per step") false;
                      App.SaveRubric (Json.js "  ") true ] App.fresh))
     = Json.js "1 mark per step".
Proof.
  destruct (configured_rubric_is_never_blank
              [App.SaveRubric (Json.js "1 mark per step") false]
              (Json.js "  ") true)
    as [Hflag Hblank].
  change (App.acts [ App.SaveRubric (Json.js "1 mark per step") false;
                     App.SaveRubric (Json.js "  ") true ] App.fresh)
    with (App.act (App.SaveRubric (Json.js "  ") true)
            (App.acts [App.SaveRubric (Json.js "1 mark per step") false]
               App.fresh)).
  rewrite (Hblank eq_refl). split; [exact Hflag|reflexivity].
Defined.

(** X22. Changing the provider keeps the key: [handleProviderChange]
    puts the endpoint and the model of the new provider in place of what
    was typed and leaves the API key as it is; once saved (the storage
    taking the write; otherwise nothing is stored), this is the
    configuration in use, and with a provider other than Google the
    grading request goes to the endpoint of the new provider with the key
    that was typed for the old one. *)
Theorem provider_change_keeps_the_key
    (s : SettingsView.State) (p : SettingsView.ModelProvider)
    (localStorage : gmap Json.jsstring Json.jsstring)
    (envKey : option Json.jsstring)
    (studentImageBase64 rubricText : Json.jsstring)
    (strategy : GradingStrategy) :
  let s' := SettingsView.handleProviderChange p s in
  let saved := (SettingsView.handleSave true s' localStorage).2 in
  SettingsView.configInUse saved envKey = Some (SettingsView.config s')
  /\ (SettingsView.handleSave false s' localStorage).2 = localStorage
  /\ GeminiService.apiKey (SettingsView.config s')
     = GeminiService.apiKey (SettingsView.config s)
  /\ (p <> SettingsView.google ->
      GeminiService.assessStudentAnswer (SettingsView.config s') envKey
        studentImageBase64 rubricText strategy
      = GeminiService.Returns
          (GeminiService.ChatCompletion (SettingsView.defaultEndpoint p)
             (GeminiService.apiKey (SettingsView.config s))
             (SettingsView.defaultModel p) rubricText studentImageBase64
             true)).
Proof.
  intros s' saved. split_and!.
  - apply configInUse_saved.
  - done.
  - done.
  - intros Hp. unfold GeminiService.assessStudentAnswer.
    rewrite decide_False; [done|]. by destruct p.
Qed.

Lemma provider_change_keeps_the_key_witness :
  GeminiService.assessStudentAnswer
    (SettingsView.config
       (SettingsView.handleProviderChange SettingsView.zhipu
          (SettingsView.mkState Scenario.openaiConfig false
             SettingsView.idle)))
    None (Json.js "img") (Json.js "rubric") flash
  = GeminiService.Returns
      (GeminiService.ChatCompletion
         (Json.js "https://open.bigmodel.cn/api/paas/v4/chat/completions")
         (Json.js "sk-test") (Json.js "glm-4-plus") (Json.js "rubric")
         (Json.js "img") true).
Proof.
  destruct (provider_change_keeps_the_key
              (SettingsView.mkState Scenario.openaiConfig false
                 SettingsView.idle)
              SettingsView.zhipu ∅ None (Json.js "img") (Json.js "rubric")
              flash) as (_ & _ & _ & Hrequest).
  apply Hrequest. discriminate.
Defined.

(** X23. A generation that gives no rubric still fills the editor, and
    the text can be saved as the rubric: when the call fails, the reply
    has no text or there is no key for Google, [handleGenerate] puts one
    of three fixed sentences into the editor; none of them is blank, so
    the save button stores the sentence as the rubric and sets the
    configured flag (when the storage refuses the write, the sentence is
    the rubric of the panel all the same, and nothing is stored). *)
Theorem failed_generation_can_be_saved_as_rubric
    (config : GeminiService.AppConfig) (envKey : option Json.jsstring)
    (reply : RubricDrawer.Reply) (drawer : RubricDrawer.State)
    (w : App.World) :
  RubricDrawer.picturesLoaded drawer = true ->
  RubricDrawer.givesNoRubric config envKey reply = true ->
  let drawer' :=
    RubricDrawer.handleGenerate
      (RubricDrawer.generateRubricFromImages config envKey reply) drawer in
  let w' := RubricDrawer.save drawer' true w in
  let refused := RubricDrawer.save drawer' false w in
  RubricDrawer.rubricText drawer'
    ∈ [ RubricDrawer.generationError; RubricDrawer.noTextGoogle;
        RubricDrawer.noTextOther ]
  /\ App.isRubricConfigured (App.app w') = true
  /\ App.rubricContent (App.app w') = RubricDrawer.rubricText drawer'
  /\ App.localStorage w' !! App.RUBRIC_KEY
     = Some (RubricDrawer.rubricText drawer')
  /\ App.isRubricConfigured (App.app refused) = true
  /\ App.rubricContent (App.app refused) = RubricDrawer.rubricText drawer'
  /\ App.localStorage refused = App.localStorage w.
Proof.
  intros Hloaded Hnone drawer' w' refused.
  assert (RubricDrawer.rubricText drawer'
            ∈ [ RubricDrawer.generationError; RubricDrawer.noTextGoogle;
                RubricDrawer.noTextOther ]) as Htext.
  { subst drawer'. unfold RubricDrawer.handleGenerate.
    unfold RubricDrawer.picturesLoaded in Hloaded.
    destruct (RubricDrawer.qImage drawer) as [q|]; [|done].
    destruct (RubricDrawer.aImage drawer) as [a|]; [|done].
    rewrite Hloaded.
    unfold RubricDrawer.givesNoRubric in Hnone.
    unfold RubricDrawer.generateRubricFromImages.
    destruct (decide (GeminiService.provider config = Json.js "google"))
      as [Hgoogle|Hother].
    - rewrite bool_decide_eq_true_2 in Hnone by done.
      destruct (GeminiService.getGoogleClient _ envKey) as [key|].
      + rewrite bool_decide_eq_false_2, andb_false_r, orb_false_r in Hnone
          by done.
        destruct reply as [e|[[|c text]|]]; try done; cbn;
          set_solver.
      + cbn. set_solver.
    - rewrite bool_decide_eq_false_2, orb_false_r in Hnone by done.
      destruct reply as [e|[[|c text]|]]; try done; cbn; set_solver. }
  split; [exact Htext|].
  assert (Json.truthy (App.trim (RubricDrawer.rubricText drawer')) = true)
    as Htrim.
  { repeat (apply elem_of_cons in Htext as [->|Htext]; [by vm_compute|]).
    by apply elem_of_nil in Htext. }
  subst w' refused. unfold RubricDrawer.save, App.handleSaveRubric.
  rewrite length_truthy, Htrim.
  cbn [App.app App.localStorage App.isRubricConfigured App.rubricContent].
  by rewrite lookup_insert_eq.
Qed.

Lemma failed_generation_can_be_saved_as_rubric_witness :
  App.rubricContent
    (App.app
       (RubricDrawer.save
          (RubricDrawer.handleGenerate
             (RubricDrawer.generateRubricFromImages
                GeminiService.DEFAULT_CONFIG None (RubricDrawer.Replies None))
             RubricDrawer.loaded)
          true App.fresh))
  = RubricDrawer.generationError.
Proof.
  destruct (failed_generation_can_be_saved_as_rubric
              GeminiService.DEFAULT_CONFIG None (RubricDrawer.Replies None)
              RubricDrawer.loaded App.fresh eq_refl eq_refl)
    as (_ & _ & Hcontent & _).
  exact Hcontent.
Defined.

(* ===================================================================== *)
(** * The API key: the light and the request *)
(* ===================================================================== *)

(** X24. With the provider Google, the light for the API and the grading
    request go by one key: the key of the configuration, or the key of
    the environment when the configuration has none.  The light is on
    exactly when there is such a key; then the request is built with it,
    and without one the call throws before anything is sent.  With
    another provider there is no such check: the request goes to the
    endpoint of the configuration with the model and the key of the
    configuration as they are, also when the key is empty and the light
    is off. *)
Theorem api_light_and_request_share_the_key
    (config : GeminiService.AppConfig) (envKey : option Json.jsstring)
    (studentImageBase64 rubricText : Json.jsstring)
    (strategy : GradingStrategy) :
  let key :=
    Json.or_else (GeminiService.apiKey config)
      (GeminiService.envKeyOrEmpty envKey) in
  (GeminiService.provider config = Json.js "google" ->
   GeminiService.checkApiKeyConfigured config envKey = Json.truthy key
   /\ GeminiService.assessStudentAnswer config envKey studentImageBase64
        rubricText strategy
      = if Json.truthy key
        then GeminiService.Returns
               (GeminiService.GenerateContent key
                  (GeminiService.getModelName strategy config) rubricText
                  studentImageBase64 (GeminiService.thinkingConfig strategy))
        else GeminiService.Throws "未找到 API 密钥")
  /\ (GeminiService.provider config <> Json.js "google" ->
      GeminiService.checkApiKeyConfigured config envKey
      = Json.truthy (GeminiService.apiKey config)
      /\ GeminiService.assessStudentAnswer config envKey
           studentImageBase64 rubricText strategy
         = GeminiService.Returns
             (GeminiService.ChatCompletion (GeminiService.endpoint config)
                (GeminiService.apiKey config)
                (GeminiService.modelName config) rubricText
                studentImageBase64 true)).
Proof.
  intros key. subst key. split.
  - intros Hgoogle.
    unfold GeminiService.checkApiKeyConfigured,
      GeminiService.assessStudentAnswer, GeminiService.getGoogleClient,
      GeminiService.envKeyOrEmpty, Json.or_else.
    rewrite !decide_True by done.
    destruct (Json.truthy (GeminiService.apiKey config)) eqn:Hkey.
    + by rewrite Hkey.
    + destruct envKey as [k|]; [|done].
      destruct (Json.truthy k) eqn:Hk; by rewrite ?Hk.
  - intros Hother.
    unfold GeminiService.checkApiKeyConfigured,
      GeminiService.assessStudentAnswer.
    rewrite !decide_False by done. split; done.
Qed.

Lemma api_light_and_request_share_the_key_witness :
  GeminiService.checkApiKeyConfigured GeminiService.DEFAULT_CONFIG
    (Some (Json.js "env-key")) = true
  /\ GeminiService.assessStudentAnswer GeminiService.DEFAULT_CONFIG
       (Some (Json.js "env-key")) (Json.js "img") (Json.js "rubric") flash
     = GeminiService.Returns
         (GeminiService.GenerateContent (Json.js "env-key")
            (Json.js "gemini-2.5-flash") (Json.js "rubric") (Json.js "img")
            None)
  /\ GeminiService.assessStudentAnswer GeminiService.DEFAULT_CONFIG None
       (Json.js "img") (Json.js "rubric") flash
     = GeminiService.Throws "未找到 API 密钥"
  /\ GeminiService.checkApiKeyConfigured Scenario.keylessConfig
       (Some (Json.js "env-key")) = false
  /\ GeminiService.assessStudentAnswer Scenario.keylessConfig
       (Some (Json.js "env-key")) (Json.js "img") (Json.js "rubric") flash
     = GeminiService.Returns
         (GeminiService.ChatCompletion
            (Json.js "https://api.openai.com/v1/chat/completions") []
            (Json.js "gpt-4o") (Json.js "rubric") (Json.js "img") true).
Proof.
  destruct (api_light_and_request_share_the_key GeminiService.DEFAULT_CONFIG
              (Some (Json.js "env-key")) (Json.js "img") (Json.js "rubric")
              flash) as [Hwith _].
  destruct (api_light_and_request_share_the_key GeminiService.DEFAULT_CONFIG
              None (Json.js "img") (Json.js "rubric") flash)
    as [Hwithout _].
  destruct (api_light_and_request_share_the_key Scenario.keylessConfig
              (Some (Json.js "env-key")) (Json.js "img") (Json.js "rubric")
              flash) as [_ Hother].
  destruct (Hwith eq_refl) as [Hlight Hrequest].
  destruct (Hwithout eq_refl) as [_ Hthrows].
  destruct (Hother ltac:(vm_compute; discriminate)) as [Hoff Hsent].
  split; [exact Hlight|]. split; [exact Hrequest|].
  split; [exact Hthrows|]. split; [exact Hoff|exact Hsent].
Defined.

(* ===================================================================== *)
(** * One paper through the batch *)
(* ===================================================================== *)

(** X25. A running batch takes a new student through: when the scan in
    flight finds a student other than the one graded last and the rubric
    is configured, the page is asked for its data and the grading service
    is called with the picture, the rubric and the strategy; when it
    returns a result, a timer of 800 ms is set for the submission, which
    follows without a click: the tabs are queried for the fill when the
    render in which the batch was started has page data with a platform,
    one more paper is counted, the student is remembered under the name
    of the page (未知学生 when it has none), the history gets the entry
    that [recordHistory] writes from the result of that render, one timer
    of 2000 ms is set for the next scan, and the loop is still running.
    Nothing else is done, and nothing else waits. *)
Theorem batch_takes_a_new_student_through
    r tab lastName s ctx res now :
  Scenario.scanInFlight r lastName s ->
  GradingView.r_mode r = Batch ->
  GradingView.isRubricConfigured (GradingView.r_props r) = true ->
  Js.truthy_string (GradingView.currentRubric (GradingView.r_props r))
  = true ->
  studentName ctx <> lastName ->
  exists s',
    GradingView.run
      (Scenario.answered tab ctx
       ++ [ GradingView.Resume 0 (GradingView.Graded (Some res));
            GradingView.Resume 0 (GradingView.Fires 0 now) ]) s
    = Some s'
    /\ GradingView.batchCount s' = GradingView.batchCount s + 1
    /\ GradingView.lastGradedNameRef s'
       = Some (Js.or_string (studentName ctx) "未知学生")
    /\ GradingView.isBatchRunningRef s' = true
    /\ GradingView.grading_history s'
       = History.recordHistory (GradingView.r_result r) (score res)
           (Js.or_string (studentName ctx) "未知学生") now
           (GradingView.storageFull s) (GradingView.grading_history s)
    /\ GradingView.effects s'
       = GradingView.effects s ++ Scenario.paperEffects r tab ctx res
    /\ GradingView.pending s' = Scenario.paperPending r res.
Proof.
  intros (Hrun & Hlast & Hruntime & Htabs & Hpending) Hmode Hconf Hrubric
    Hname.
  by_fields s. cbn in Hrun, Hlast, Hruntime, Htabs, Hpending. subst.
  destruct r as [rmode rctx rres rhealth [rconf rrubric rstrategy]].
  cbn in Hmode, Hconf, Hrubric. subst.
  unfold Scenario.answered, Scenario.paperEffects, Scenario.paperPending,
    Scenario.fillsFor.
  cbn [app GradingView.r_pageContext GradingView.r_props
       GradingView.currentRubric GradingView.gradingStrategy].
  run_step. run_step. rewrite bool_decide_eq_false_2 by congruence.
  rewrite Hrubric. cbv beta iota.
  run_step. rewrite bool_decide_eq_true_2 by done. cbv beta iota.
  run_step. rewrite bool_decide_eq_true_2 by done. cbv beta iota.
  destruct rctx as [ctx0|]; [destruct (Js.truthy_string (platform ctx0))|];
    cbv beta iota; cbn [GradingView.run];
    (eexists; split; [reflexivity|]);
    cbn [GradingView.batchCount GradingView.lastGradedNameRef
         GradingView.isBatchRunningRef GradingView.grading_history
         GradingView.storageFull GradingView.effects GradingView.pending];
    (split_and!; [lia|done|done|done| |done]);
    by rewrite <- ?app_assoc.
Qed.

Lemma batch_takes_a_new_student_through_witness :
  exists s',
    GradingView.run
      (Scenario.answered 1 (Scenario.pageOf "B")
       ++ [ GradingView.Resume 0
              (GradingView.Graded (Some (Scenario.gradedWith 8)));
            GradingView.Resume 0 (GradingView.Fires 0 "1700000000000") ])
      (GradingView.scanPage (GradingView.render Scenario.ready)
         Scenario.runningAfterA)
    = Some s'
    /\ GradingView.batchCount s' = 1
    /\ GradingView.lastGradedNameRef s' = Some "B"
    /\ GradingView.pending s'
       = [ GradingView.TabsForFill (GradingView.render Scenario.ready) 8;
           GradingView.Timer
             (GradingView.ScanPage (GradingView.render Scenario.ready)) ].
Proof.
  destruct (batch_takes_a_new_student_through
              (GradingView.render Scenario.ready) 1 "A"
              (GradingView.scanPage (GradingView.render Scenario.ready)
                 Scenario.runningAfterA)
              (Scenario.pageOf "B") (Scenario.gradedWith 8) "1700000000000")
    as (s' & Hrun & Hcount & Hlast & _ & _ & _ & Hpending);
    [repeat split; reflexivity | reflexivity | reflexivity | reflexivity
    | vm_compute; discriminate |].
  exists s'. split; [exact Hrun|]. split; [exact Hcount|].
  split; [exact Hlast|exact Hpending].
Defined.

Section DataUrlFacts.
Import Scrape.

Lemma split_commaFree s : commaFree s = true -> split comma s = [s].
Proof.
  induction s as [|a s IH]; [done|]. cbn [commaFree split].
  intros [Ha Hs]%andb_true_iff. apply negb_true_iff in Ha.
  apply bool_decide_eq_false_1 in Ha. rewrite decide_False by done.
  by rewrite (IH Hs).
Qed.

Lemma split_after_header header rest :
  commaFree header = true ->
  split comma (header +:+ String comma rest) = header :: split comma rest.
Proof.
  induction header as [|a header IH].
  - intros _. change ("" +:+ String comma rest) with (String comma rest).
    cbn [split]. by rewrite decide_True.
  - cbn [commaFree]. intros [Ha Hs]%andb_true_iff.
    apply negb_true_iff in Ha. apply bool_decide_eq_false_1 in Ha.
    change (String a header +:+ String comma rest)
      with (String a (header +:+ String comma rest)).
    cbn [split]. rewrite decide_False by done. by rewrite (IH Hs).
Qed.

Lemma afterComma_payload header payload :
  commaFree header = true -> commaFree payload = true ->
  afterComma (header +:+ String comma payload) = Some payload.
Proof.
  intros Hheader Hpayload. unfold afterComma.
  by rewrite split_after_header, split_commaFree.
Qed.

End DataUrlFacts.

(** X26. The picture that goes to the grading service is the payload of
    the data URL: of a data URL made of a header, a comma and a payload,
    neither with a comma in it (as base64 has none), [getUrlBase64] and
    [getCanvasBase64] give the payload, whether the data URL is the
    address itself (then nothing is fetched), what the reader made of
    the fetched body, or what the canvas exports. *)
Theorem data_url_payload_is_extracted
    (dom : Scrape.Dom) (fetch : string -> Scrape.FetchOutcome)
    (header payload : string) :
  Scrape.commaFree header = true ->
  Scrape.commaFree payload = true ->
  let dataUrl := header +:+ String Scrape.comma payload in
  (Content.startsWith dataUrl "data:image" = true ->
   Scrape.getUrlBase64 fetch dataUrl = Scrape.Resolves (Some payload))
  /\ (forall url,
        Content.startsWith url "data:image" = false ->
        fetch (Scrape.cleanUrl url)
        = Scrape.Response true (Scrape.ReadAs dataUrl) ->
        Scrape.getUrlBase64 fetch url = Scrape.Resolves (Some payload))
  /\ (forall canvas,
        Scrape.toDataURL dom canvas = Some dataUrl ->
        Scrape.getCanvasBase64 dom canvas = Some payload).
Proof.
  intros Hheader Hpayload dataUrl.
  pose proof (afterComma_payload header payload Hheader Hpayload) as Hafter.
  fold dataUrl in Hafter. split_and!.
  - intros Hdata. unfold Scrape.getUrlBase64. by rewrite Hdata, Hafter.
  - intros url Hplain Hfetch. unfold Scrape.getUrlBase64.
    by rewrite Hplain, Hfetch, Hafter.
  - intros canvas Hcanvas. unfold Scrape.getCanvasBase64.
    by rewrite Hcanvas.
Qed.

Lemma data_url_payload_is_extracted_witness :
  Scrape.getUrlBase64 Scrape.offline "data:image/png;base64,aW1hZ2U="
  = Scrape.Resolves (Some "aW1hZ2U=").
Proof.
  destruct (data_url_payload_is_extracted Scrape.blankDom Scrape.offline
              "data:image/png;base64" "aW1hZ2U=" eq_refl eq_refl)
    as (Hdata & _ & _).
  exact (Hdata eq_refl).
Defined.
